(** * The in-memory entity store and the REST handlers over it

    A shallow embedding of [server/storage.ts] (class [MemStorage]) and of the
    route handlers of [server/routes.ts] (function [registerRoutes]), with the
    plan table of [shared/schema.ts].

    Conventions of the embedding:
    - a JavaScript [Map<string, V>] is an association list in insertion
      order ([JsMap.t V]); [Array.from(m.values())] is [JsMap.values];
    - a [Date] is its [getTime()] value, an integer; a nullable column is an
      [option];
    - the values drawn by [randomUUID()], [randomBytes(24)] and [new Date()]
      are explicit arguments of the operation that draws them (one instant
      per operation);
    - [bcrypt.hash], [bcrypt.compare], SHA-256 and the UUID check of zod
      are section variables;
    - an [async] method of the store is a computation in the monad [M]
      (state plus exception): [throw new Error(msg)] is [throw msg];
    - a request body that a route validates with a zod schema is given with
      the outcome of the validation ([Ok] of the parsed fields, or [Throw]);
      the schema of the comment route, which is applied to an object that the
      route builds, is spelt out ([parseLeadComment]);
    - a request body that a route does not validate is a JSON value, or one
      optional JSON value for each field that the route reads;
    - a route handler maps the store to a new store and a response. *)

From Stdlib Require Import List String Ascii ZArith NArith Bool Lia Permutation.
From Stdlib Require Import Sorted.
From Stdlib Require Strings.Byte.
Import ListNotations.
Local Open Scope list_scope.
Local Open Scope string_scope.

Set Implicit Arguments.
Set Warnings "-register-all,-automation".

(* ------------------------------------------------------------------ *)
(** ** JavaScript values used by the code *)

(** [x || d] on a string: the empty string is falsy. *)
Definition str_or (x d : string) : string :=
  if String.eqb x "" then d else x.

(** [x || null] on an optional string. *)
Definition str_or_null (x : option string) : option string :=
  match x with
  | Some s => if String.eqb s "" then None else Some s
  | None => None
  end.

(** JSON values ([jsonb] columns, audit metadata). *)
Inductive Json : Type :=
| JNull
| JBool (b : bool)
| JNum (n : Z)
| JStr (s : string)
| JArr (items : list Json)
| JObj (fields : list (string * Json)).

(** JavaScript truthiness of a JSON value. *)
Definition truthy (j : Json) : bool :=
  match j with
  | JNull => false
  | JBool b => b
  | JNum n => negb (Z.eqb n 0)
  | JStr s => negb (String.eqb s "")
  | JArr _ => true
  | JObj _ => true
  end.

(** [Array.prototype.sort(cmp)]: a stable sort; [cmp a b <= 0] keeps [a]
    before [b]. *)
Section Sort.
Variable A : Type.
Variable cmp : A -> A -> Z.

Fixpoint insert_sorted (x : A) (l : list A) : list A :=
  match l with
  | [] => [x]
  | y :: r => if (cmp x y <=? 0)%Z then x :: l else y :: insert_sorted x r
  end.

Fixpoint sort (l : list A) : list A :=
  match l with
  | [] => []
  | x :: r => insert_sorted x (sort r)
  end.
End Sort.

(* ------------------------------------------------------------------ *)
(** ** [Map<string, V>] *)

Module JsMap.
Section Ops.
Variable V : Type.

Definition t := list (string * V).

Definition empty : t := [].

Fixpoint get (k : string) (m : t) : option V :=
  match m with
  | [] => None
  | (k', v) :: r => if String.eqb k' k then Some v else get k r
  end.

(** [m.set(k, v)]: an existing key keeps its position. *)
Fixpoint set (k : string) (v : V) (m : t) : t :=
  match m with
  | [] => [(k, v)]
  | (k', v') :: r =>
      if String.eqb k' k then (k, v) :: r else (k', v') :: set k v r
  end.

Definition delete (k : string) (m : t) : t :=
  filter (fun p => negb (String.eqb (fst p) k)) m.

Definition values (m : t) : list V := map snd m.

Definition keys (m : t) : list string := map fst m.

(** [new Map(entries)]. *)
Definition of_list (entries : list (string * V)) : t :=
  fold_left (fun m p => set (fst p) (snd p) m) entries empty.

(** Keys of a [Map] are pairwise distinct. *)
Definition uniq (m : t) : Prop := NoDup (keys m).
End Ops.
Arguments empty {V}.
End JsMap.

(* ------------------------------------------------------------------ *)
(** ** Rows of [shared/schema.ts] *)

Module User.
Record t := mk {
  id : string; email : string; passwordHash : string; name : string;
  stripeCustomerId : option string; stripeSubscriptionId : option string;
  createdAt : Z }.
End User.

Module InsertUser.
Record t := mk { email : string; passwordHash : string; name : string }.
End InsertUser.

Module Organization.
Record t := mk {
  id : string; name : string; ownerId : string;
  stripeCustomerId : option string; stripeSubscriptionId : option string;
  plan : string; trialEnd : option Z; createdAt : Z }.
End Organization.

Module InsertOrganization.
Record t := mk { name : string; plan : option string; trialEnd : option Z }.
End InsertOrganization.

Module OrgMember.
Record t := mk {
  orgId : string; userId : string; role : string;
  invitedBy : option string; invitedAt : Z; acceptedAt : option Z;
  createdAt : Z }.
End OrgMember.

Module InsertOrgMember.
Record t := mk {
  orgId : string; userId : string; role : string;
  invitedBy : option string; acceptedAt : option Z }.
End InsertOrgMember.

Module ApiKey.
Record t := mk {
  id : string; orgId : string; name : string; keyHash : string;
  keyPreview : string; lastUsedAt : option Z; createdBy : string;
  createdAt : Z }.
End ApiKey.

(** [InsertApiKey & { keyHash; keyPreview }] *)
Module InsertApiKey.
Record t := mk {
  orgId : string; name : string; keyHash : string; keyPreview : string;
  createdBy : string }.
End InsertApiKey.

Module Setting.
Record t := mk {
  orgId : string; key : string; value : Json; updatedBy : string;
  updatedAt : Z }.
End Setting.

Module Subscription.
Record t := mk {
  orgId : string; plan : string; status : string; periodEnd : option Z;
  metered : Json; updatedAt : Z }.
End Subscription.

Module AuditLog.
Record t := mk {
  id : Z; orgId : string; actorId : option string; action : string;
  entity : string; entityId : option string; metadata : Json;
  createdAt : Z }.
End AuditLog.

Module InsertAuditLog.
Record t := mk {
  orgId : string; actorId : option string; action : string;
  entity : string; entityId : option string; metadata : option Json }.
End InsertAuditLog.

Module Pipeline.
Record t := mk { id : string; orgId : string; name : string; createdAt : Z }.
End Pipeline.

Module InsertPipeline.
Record t := mk { orgId : string; name : string }.
End InsertPipeline.

Module Stage.
Record t := mk {
  id : string; orgId : string; pipelineId : string; name : string;
  order : Z; createdAt : Z }.

(** [Partial<Stage>]: an absent field is [None]. *)
Record partial := mkPartial {
  p_id : option string; p_orgId : option string;
  p_pipelineId : option string; p_name : option string;
  p_order : option Z; p_createdAt : option Z }.

Definition or_else {A} (o : option A) (d : A) : A :=
  match o with Some x => x | None => d end.

(** [{ ...stage, ...updates }] *)
Definition merge (s : t) (u : partial) : t :=
  mk (or_else (p_id u) (id s)) (or_else (p_orgId u) (orgId s))
     (or_else (p_pipelineId u) (pipelineId s)) (or_else (p_name u) (name s))
     (or_else (p_order u) (order s)) (or_else (p_createdAt u) (createdAt s)).

(** The update [{ order }]. *)
Definition only_order (o : Z) : partial :=
  mkPartial None None None None (Some o) None.
End Stage.

Module InsertStage.
Record t := mk {
  orgId : string; pipelineId : string; name : string; order : Z }.
End InsertStage.

Module Lead.
Record t := mk {
  id : string; orgId : string; stageId : string; name : string;
  email : option string; source : option string; notes : option string;
  airtableRecordId : option string; createdAt : Z; updatedAt : Z }.

Record partial := mkPartial {
  p_id : option string; p_orgId : option string;
  p_stageId : option string; p_name : option string;
  p_email : option (option string); p_source : option (option string);
  p_notes : option (option string);
  p_airtableRecordId : option (option string);
  p_createdAt : option Z; p_updatedAt : option Z }.

Definition or_else {A} (o : option A) (d : A) : A :=
  match o with Some x => x | None => d end.

(** [{ ...lead, ...updates, updatedAt: new Date() }] *)
Definition merge (l : t) (u : partial) (now : Z) : t :=
  mk (or_else (p_id u) (id l)) (or_else (p_orgId u) (orgId l))
     (or_else (p_stageId u) (stageId l)) (or_else (p_name u) (name l))
     (or_else (p_email u) (email l)) (or_else (p_source u) (source l))
     (or_else (p_notes u) (notes l))
     (or_else (p_airtableRecordId u) (airtableRecordId l))
     (or_else (p_createdAt u) (createdAt l)) now.

(** The update [{ stageId }]. *)
Definition only_stageId (s : string) : partial :=
  mkPartial None None (Some s) None None None None None None None.
End Lead.

Module InsertLead.
Record t := mk {
  orgId : string; stageId : string; name : string;
  email : option string; source : option string; notes : option string;
  airtableRecordId : option string }.
End InsertLead.

Module LeadComment.
Record t := mk {
  id : string; orgId : string; leadId : string; body : string;
  userId : string; mentionedUserIds : option (list string);
  createdAt : Z }.
End LeadComment.

Module InsertLeadComment.
Record t := mk {
  orgId : string; leadId : string; body : string; userId : string;
  mentionedUserIds : option (list string) }.
End InsertLeadComment.

(** [Pick<User, 'id' | 'name' | 'email'>] as joined by [getOrgMembers]. *)
Record UserRef := { ref_id : string; ref_name : string; ref_email : string }.

Record MemberWithUser := { member : OrgMember.t; member_user : UserRef }.

Record CommentWithUser := {
  comment : LeadComment.t; comment_user_id : string;
  comment_user_name : string }.

(** [Partial<Subscription>] and [{ ...base, ...updates }] *)
Module SubscriptionUpdate.
Record t := mk {
  orgId : option string; plan : option string; status : option string;
  periodEnd : option (option Z); metered : option Json;
  updatedAt : option Z }.

Definition or_else {A} (o : option A) (d : A) : A :=
  match o with Some x => x | None => d end.

Definition merge (s : Subscription.t) (u : t) : Subscription.t :=
  Subscription.mk (or_else (orgId u) (Subscription.orgId s))
                  (or_else (plan u) (Subscription.plan s))
                  (or_else (status u) (Subscription.status s))
                  (or_else (periodEnd u) (Subscription.periodEnd s))
                  (or_else (metered u) (Subscription.metered s))
                  (or_else (updatedAt u) (Subscription.updatedAt s)).
End SubscriptionUpdate.

(** [Partial<Pipeline>] and [{ ...pipeline, ...updates }] *)
Module PipelineUpdate.
Record t := mk {
  id : option string; orgId : option string; name : option string;
  createdAt : option Z }.

Definition or_else {A} (o : option A) (d : A) : A :=
  match o with Some x => x | None => d end.

Definition merge (p : Pipeline.t) (u : t) : Pipeline.t :=
  Pipeline.mk (or_else (id u) (Pipeline.id p))
              (or_else (orgId u) (Pipeline.orgId p))
              (or_else (name u) (Pipeline.name p))
              (or_else (createdAt u) (Pipeline.createdAt p)).
End PipelineUpdate.

(** [Lead & { stageName; stageOrder }] of [getLeadsByPipeline]. *)
Record LeadWithStage := {
  joined_lead : Lead.t; stageName : string; stageOrder : Z }.

(** [Organization & { role }] of [getUserWithOrganizations]. *)
Record OrganizationWithRole := {
  listed_organization : Organization.t; listed_role : string }.

Record UserWithOrganizations := {
  listed_user : User.t; listed_organizations : list OrganizationWithRole }.

(** [ApiKey & { organization }] of [getApiKeyByHash]. *)
Record ApiKeyWithOrganization := {
  found_key : ApiKey.t; found_organization : Organization.t }.

(** The result of [getOrganizationStats]; the two metered counters are
    whatever JSON the subscription holds. *)
Record Stats := {
  stat_members : nat; stat_operations : Json; stat_tables : Json;
  stat_apiKeys : nat; stat_pipelines : nat; stat_leads : nat }.

(* ------------------------------------------------------------------ *)
(** ** The store: the private fields of [MemStorage] *)

Record Store := mkStore {
  users : JsMap.t User.t;
  organizations : JsMap.t Organization.t;
  orgMembers : JsMap.t OrgMember.t;
  apiKeys : JsMap.t ApiKey.t;
  settings : JsMap.t Setting.t;
  subscriptions : JsMap.t Subscription.t;
  auditLogs : list AuditLog.t;
  pipelines : JsMap.t Pipeline.t;
  stages : JsMap.t Stage.t;
  leads : JsMap.t Lead.t;
  leadComments : JsMap.t LeadComment.t }.

Definition empty_store : Store :=
  mkStore JsMap.empty JsMap.empty JsMap.empty JsMap.empty JsMap.empty
          JsMap.empty [] JsMap.empty JsMap.empty JsMap.empty JsMap.empty.

Definition with_users (f : JsMap.t User.t -> JsMap.t User.t) (s : Store) :=
  mkStore (f (users s)) (organizations s) (orgMembers s) (apiKeys s)
          (settings s) (subscriptions s) (auditLogs s) (pipelines s)
          (stages s) (leads s) (leadComments s).

Definition with_organizations
    (f : JsMap.t Organization.t -> JsMap.t Organization.t) (s : Store) :=
  mkStore (users s) (f (organizations s)) (orgMembers s) (apiKeys s)
          (settings s) (subscriptions s) (auditLogs s) (pipelines s)
          (stages s) (leads s) (leadComments s).

Definition with_orgMembers
    (f : JsMap.t OrgMember.t -> JsMap.t OrgMember.t) (s : Store) :=
  mkStore (users s) (organizations s) (f (orgMembers s)) (apiKeys s)
          (settings s) (subscriptions s) (auditLogs s) (pipelines s)
          (stages s) (leads s) (leadComments s).

Definition with_apiKeys
    (f : JsMap.t ApiKey.t -> JsMap.t ApiKey.t) (s : Store) :=
  mkStore (users s) (organizations s) (orgMembers s) (f (apiKeys s))
          (settings s) (subscriptions s) (auditLogs s) (pipelines s)
          (stages s) (leads s) (leadComments s).

Definition with_subscriptions
    (f : JsMap.t Subscription.t -> JsMap.t Subscription.t) (s : Store) :=
  mkStore (users s) (organizations s) (orgMembers s) (apiKeys s)
          (settings s) (f (subscriptions s)) (auditLogs s) (pipelines s)
          (stages s) (leads s) (leadComments s).

Definition with_auditLogs
    (f : list AuditLog.t -> list AuditLog.t) (s : Store) :=
  mkStore (users s) (organizations s) (orgMembers s) (apiKeys s)
          (settings s) (subscriptions s) (f (auditLogs s)) (pipelines s)
          (stages s) (leads s) (leadComments s).

Definition with_pipelines
    (f : JsMap.t Pipeline.t -> JsMap.t Pipeline.t) (s : Store) :=
  mkStore (users s) (organizations s) (orgMembers s) (apiKeys s)
          (settings s) (subscriptions s) (auditLogs s) (f (pipelines s))
          (stages s) (leads s) (leadComments s).

Definition with_stages
    (f : JsMap.t Stage.t -> JsMap.t Stage.t) (s : Store) :=
  mkStore (users s) (organizations s) (orgMembers s) (apiKeys s)
          (settings s) (subscriptions s) (auditLogs s) (pipelines s)
          (f (stages s)) (leads s) (leadComments s).

Definition with_leads (f : JsMap.t Lead.t -> JsMap.t Lead.t) (s : Store) :=
  mkStore (users s) (organizations s) (orgMembers s) (apiKeys s)
          (settings s) (subscriptions s) (auditLogs s) (pipelines s)
          (stages s) (f (leads s)) (leadComments s).

Definition with_leadComments
    (f : JsMap.t LeadComment.t -> JsMap.t LeadComment.t) (s : Store) :=
  mkStore (users s) (organizations s) (orgMembers s) (apiKeys s)
          (settings s) (subscriptions s) (auditLogs s) (pipelines s)
          (stages s) (leads s) (f (leadComments s)).

Definition with_settings
    (f : JsMap.t Setting.t -> JsMap.t Setting.t) (s : Store) :=
  mkStore (users s) (organizations s) (orgMembers s) (apiKeys s)
          (f (settings s)) (subscriptions s) (auditLogs s) (pipelines s)
          (stages s) (leads s) (leadComments s).

(* ------------------------------------------------------------------ *)
(** ** The monad of store methods *)

Inductive Result (A : Type) : Type :=
| Ok (a : A)
| Throw (message : string).
Arguments Throw {A} message.

Definition M (A : Type) : Type := Store -> Store * Result A.

Definition ret {A} (a : A) : M A := fun st => (st, Ok a).

Definition throw {A} (message : string) : M A := fun st => (st, Throw message).

Definition bind {A B} (m : M A) (k : A -> M B) : M B :=
  fun st =>
    match m st with
    | (st', Ok a) => k a st'
    | (st', Throw e) => (st', Throw e)
    end.

Definition gets {A} (f : Store -> A) : M A := fun st => (st, Ok (f st)).

Definition modify (f : Store -> Store) : M unit := fun st => (f st, Ok tt).

Declare Scope store_scope.
Delimit Scope store_scope with store.
Notation "x <- m ;; k" := (bind m (fun x => k))
  (at level 61, m at next level, right associativity) : store_scope.
Notation "m ;; k" := (bind m (fun _ => k))
  (at level 61, right associativity) : store_scope.
Local Open Scope store_scope.

(** [for (const x of l) { await body(x) }] *)
Fixpoint forEach {A} (l : list A) (body : A -> M unit) : M unit :=
  match l with
  | [] => ret tt
  | x :: r => body x ;; forEach r body
  end.

(** The store a computation leaves behind. *)
Definition exec {A} (m : M A) (st : Store) : Store := fst (m st).

(* ------------------------------------------------------------------ *)
(** ** [class MemStorage] *)

Module MemStorage.
Section Methods.

(** [bcrypt.hash(password, 10)] *)
Variable bcrypt_hash : string -> string.

Definition createUser (insertUser : InsertUser.t) (id : string) (now : Z)
: M User.t :=
let passwordHash := bcrypt_hash (InsertUser.passwordHash insertUser) in
let user :=
User.mk id (InsertUser.email insertUser) passwordHash
        (InsertUser.name insertUser) None None now in
modify (with_users (JsMap.set id user)) ;;
ret user.

Definition getUserById (id : string) : M (option User.t) :=
gets (fun st => JsMap.get id (users st)).

Definition getUserByEmail (email : string) : M (option User.t) :=
gets (fun st =>
find (fun user => String.eqb (User.email user) email)
     (JsMap.values (users st))).

Definition addOrgMember (insertMember : InsertOrgMember.t) (now : Z)
: M OrgMember.t :=
let key := InsertOrgMember.orgId insertMember ++ "-"
         ++ InsertOrgMember.userId insertMember in
let member :=
OrgMember.mk (InsertOrgMember.orgId insertMember)
             (InsertOrgMember.userId insertMember)
             (InsertOrgMember.role insertMember)
             (str_or_null (InsertOrgMember.invitedBy insertMember))
             now
             (InsertOrgMember.acceptedAt insertMember)
             now in
modify (with_orgMembers (JsMap.set key member)) ;;
ret member.

Definition createOrganization (insertOrg : InsertOrganization.t)
(ownerId : string) (id : string) (now : Z) : M Organization.t :=
let org :=
Organization.mk id (InsertOrganization.name insertOrg) ownerId None None
  (match InsertOrganization.plan insertOrg with
   | Some p => str_or p "free"
   | None => "free"
   end)
  None now in
modify (with_organizations (JsMap.set id org)) ;;
(* Add owner as admin member *)
addOrgMember (InsertOrgMember.mk id ownerId "admin" (Some ownerId)
                               (Some now)) now ;;
(* Create default subscription *)
modify (with_subscriptions
        (JsMap.set id (Subscription.mk id "free" "active" None
                                       (JObj []) now))) ;;
ret org.

Definition getOrganization (id : string) : M (option Organization.t) :=
gets (fun st => JsMap.get id (organizations st)).

Definition getOrgMembers (orgId : string) : M (list MemberWithUser) :=
gets (fun st =>
let members :=
  filter (fun m => String.eqb (OrgMember.orgId m) orgId)
         (JsMap.values (orgMembers st)) in
map (fun member =>
       match JsMap.get (OrgMember.userId member) (users st) with
       | Some user =>
           Build_MemberWithUser member
             (Build_UserRef (User.id user) (User.name user)
                            (User.email user))
       | None => Build_MemberWithUser member (Build_UserRef "" "" "")
       end)
    members).

Definition getOrgMember (orgId userId : string) : M (option OrgMember.t) :=
gets (fun st => JsMap.get (orgId ++ "-" ++ userId) (orgMembers st)).

Definition updateOrgMemberRole (orgId userId role : string)
: M OrgMember.t :=
let key := orgId ++ "-" ++ userId in
member <- gets (fun st => JsMap.get key (orgMembers st)) ;;
match member with
| None => throw "Member not found"
| Some member =>
  let updated :=
    OrgMember.mk (OrgMember.orgId member) (OrgMember.userId member) role
                 (OrgMember.invitedBy member)
                 (OrgMember.invitedAt member)
                 (OrgMember.acceptedAt member)
                 (OrgMember.createdAt member) in
  modify (with_orgMembers (JsMap.set key updated)) ;;
  ret updated
end.

Definition removeOrgMember (orgId userId : string) : M unit :=
modify (with_orgMembers (JsMap.delete (orgId ++ "-" ++ userId))).

Definition createApiKey (apiKey : InsertApiKey.t) (id : string) (now : Z)
: M ApiKey.t :=
let key :=
ApiKey.mk id (InsertApiKey.orgId apiKey) (InsertApiKey.name apiKey)
          (InsertApiKey.keyHash apiKey) (InsertApiKey.keyPreview apiKey)
          None (InsertApiKey.createdBy apiKey) now in
modify (with_apiKeys (JsMap.set id key)) ;;
ret key.

Definition getApiKeys (orgId : string) : M (list ApiKey.t) :=
gets (fun st =>
filter (fun key => String.eqb (ApiKey.orgId key) orgId)
       (JsMap.values (apiKeys st))).

Definition deleteApiKey (id orgId : string) : M unit :=
key <- gets (fun st => JsMap.get id (apiKeys st)) ;;
match key with
| Some key =>
  if String.eqb (ApiKey.orgId key) orgId
  then modify (with_apiKeys (JsMap.delete id))
  else ret tt
| None => ret tt
end.

Definition getSubscription (orgId : string) : M (option Subscription.t) :=
gets (fun st => JsMap.get orgId (subscriptions st)).

Definition createAuditLog (insertLog : InsertAuditLog.t) (now : Z)
: M AuditLog.t :=
n <- gets (fun st => List.length (auditLogs st)) ;;
let log :=
AuditLog.mk (Z.of_nat n + 1) (InsertAuditLog.orgId insertLog)
  (str_or_null (InsertAuditLog.actorId insertLog))
  (InsertAuditLog.action insertLog) (InsertAuditLog.entity insertLog)
  (str_or_null (InsertAuditLog.entityId insertLog))
  (match InsertAuditLog.metadata insertLog with
   | Some j => if truthy j then j else JObj []
   | None => JObj []
   end)
  now in
modify (with_auditLogs (fun logs => (logs ++ [log])%list)) ;;
ret log.

(** Pipeline methods *)

Definition createPipeline (insertPipeline : InsertPipeline.t) (id : string)
(now : Z) : M Pipeline.t :=
let pipeline :=
Pipeline.mk id (InsertPipeline.orgId insertPipeline)
            (InsertPipeline.name insertPipeline) now in
modify (with_pipelines (JsMap.set id pipeline)) ;;
ret pipeline.

Definition getPipelines (orgId : string) : M (list Pipeline.t) :=
gets (fun st =>
sort (fun a b => (Pipeline.createdAt a - Pipeline.createdAt b)%Z)
     (filter (fun p => String.eqb (Pipeline.orgId p) orgId)
             (JsMap.values (pipelines st)))).

Definition getPipeline (id orgId : string) : M (option Pipeline.t) :=
gets (fun st =>
match JsMap.get id (pipelines st) with
| Some pipeline =>
    if String.eqb (Pipeline.orgId pipeline) orgId
    then Some pipeline else None
| None => None
end).

(** Stage methods *)

Definition createStage (insertStage : InsertStage.t) (id : string) (now : Z)
: M Stage.t :=
let stage :=
Stage.mk id (InsertStage.orgId insertStage)
         (InsertStage.pipelineId insertStage)
         (InsertStage.name insertStage) (InsertStage.order insertStage)
         now in
modify (with_stages (JsMap.set id stage)) ;;
ret stage.

Definition getStages (pipelineId orgId : string) : M (list Stage.t) :=
gets (fun st =>
sort (fun a b => (Stage.order a - Stage.order b)%Z)
     (filter (fun s => String.eqb (Stage.pipelineId s) pipelineId
                       && String.eqb (Stage.orgId s) orgId)
             (JsMap.values (stages st)))).

Definition getStage (id orgId : string) : M (option Stage.t) :=
gets (fun st =>
match JsMap.get id (stages st) with
| Some stage =>
    if String.eqb (Stage.orgId stage) orgId then Some stage else None
| None => None
end).

Definition updateStage (id orgId : string) (updates : Stage.partial)
: M Stage.t :=
stage <- getStage id orgId ;;
match stage with
| None => throw "Stage not found"
| Some stage =>
  let updated := Stage.merge stage updates in
  modify (with_stages (JsMap.set id updated)) ;;
  ret updated
end.

(** Lead methods *)

Definition createLead (insertLead : InsertLead.t) (id : string) (now : Z)
: M Lead.t :=
let lead :=
Lead.mk id (InsertLead.orgId insertLead) (InsertLead.stageId insertLead)
        (InsertLead.name insertLead) (InsertLead.email insertLead)
        (InsertLead.source insertLead) (InsertLead.notes insertLead)
        (InsertLead.airtableRecordId insertLead) now now in
modify (with_leads (JsMap.set id lead)) ;;
ret lead.

Definition getLeads (stageId orgId : string) : M (list Lead.t) :=
gets (fun st =>
sort (fun a b => (Lead.updatedAt b - Lead.updatedAt a)%Z)
     (filter (fun l => String.eqb (Lead.stageId l) stageId
                       && String.eqb (Lead.orgId l) orgId)
             (JsMap.values (leads st)))).

Definition getLead (id orgId : string) : M (option Lead.t) :=
gets (fun st =>
match JsMap.get id (leads st) with
| Some lead =>
    if String.eqb (Lead.orgId lead) orgId then Some lead else None
| None => None
end).

Definition updateLead (id orgId : string) (updates : Lead.partial)
(now : Z) : M Lead.t :=
lead <- getLead id orgId ;;
match lead with
| None => throw "Lead not found"
| Some lead =>
  let updated := Lead.merge lead updates now in
  modify (with_leads (JsMap.set id updated)) ;;
  ret updated
end.

Definition moveLeadToStage (leadId stageId orgId : string) (now : Z)
: M Lead.t :=
updateLead leadId orgId (Lead.only_stageId stageId) now.

(** Lead comment methods *)

Definition createLeadComment (insertComment : InsertLeadComment.t)
(id : string) (now : Z) : M LeadComment.t :=
let comment :=
LeadComment.mk id (InsertLeadComment.orgId insertComment)
               (InsertLeadComment.leadId insertComment)
               (InsertLeadComment.body insertComment)
               (InsertLeadComment.userId insertComment)
               (InsertLeadComment.mentionedUserIds insertComment) now in
modify (with_leadComments (JsMap.set id comment)) ;;
ret comment.

Definition getLeadComments (leadId orgId : string)
: M (list CommentWithUser) :=
gets (fun st =>
let comments :=
  sort (fun a b => (LeadComment.createdAt a - LeadComment.createdAt b)%Z)
       (filter (fun c => String.eqb (LeadComment.leadId c) leadId
                         && String.eqb (LeadComment.orgId c) orgId)
               (JsMap.values (leadComments st))) in
map (fun comment =>
       match JsMap.get (LeadComment.userId comment) (users st) with
       | Some user =>
           Build_CommentWithUser comment (User.id user)
                                 (str_or (User.name user) "Unknown User")
       | None => Build_CommentWithUser comment "" "Unknown User"
       end)
    comments).

Definition deleteLeadComment (id orgId : string) : M unit :=
comment <- gets (fun st => JsMap.get id (leadComments st)) ;;
match comment with
| Some comment =>
  if String.eqb (LeadComment.orgId comment) orgId
  then modify (with_leadComments (JsMap.delete id))
  else ret tt
| None => ret tt
end.

(** The cascade: lead, stage, pipeline. *)

Definition deleteLead (id orgId : string) : M unit :=
lead <- getLead id orgId ;;
match lead with
| None => ret tt
| Some _ =>
  (* Delete all comments for this lead *)
  comments <- getLeadComments id orgId ;;
  forEach comments
    (fun c => deleteLeadComment (LeadComment.id (comment c)) orgId) ;;
  modify (with_leads (JsMap.delete id))
end.

Definition deleteStage (id orgId : string) : M unit :=
stage <- getStage id orgId ;;
match stage with
| None => ret tt
| Some _ =>
  (* Delete all leads in this stage *)
  leads <- getLeads id orgId ;;
  forEach leads (fun lead => deleteLead (Lead.id lead) orgId) ;;
  modify (with_stages (JsMap.delete id))
end.

Definition deletePipeline (id orgId : string) : M unit :=
pipeline <- getPipeline id orgId ;;
match pipeline with
| None => ret tt
| Some _ =>
  (* Delete all stages and leads in this pipeline *)
  stages <- getStages id orgId ;;
  forEach stages (fun stage => deleteStage (Stage.id stage) orgId) ;;
  modify (with_pipelines (JsMap.delete id))
end.

(** [for (const { id, order } of stageOrders)
   await this.updateStage(id, orgId, { order })] *)
Definition reorderStages (pipelineId orgId : string)
(stageOrders : list (string * Z)) : M unit :=
forEach stageOrders
(fun so => updateStage (fst so) orgId (Stage.only_order (snd so)) ;;
           ret tt).

(** The remaining methods of the class. *)

(** [bcrypt.compare(password, hash)] on a string, and the message of the
    error with which it rejects a password that is not a string. *)
Variable bcrypt_compare : string -> string -> bool.
Variable bcrypt_error : option Json -> string.

(** The login route passes [req.body.email] and [req.body.password] as they
    come: a JSON value, or [None] for a field that is absent. No user has an
    email that is not a string ([user.email === email]). *)
Definition verifyPassword (email password : option Json)
  : M (option User.t) :=
  user <- match email with
          | Some (JStr email) => getUserByEmail email
          | _ => ret None
          end ;;
  match user with
  | None => ret None
  | Some user =>
      match password with
      | Some (JStr password) =>
          if bcrypt_compare password (User.passwordHash user)
          then ret (Some user) else ret None
      | _ => throw (bcrypt_error password)
      end
  end.

(** [userMemberships.map(m => organizations.get(m.orgId))
       .filter(org => org !== undefined)] *)
Definition getOrganizationsByUser (userId : string)
  : M (list Organization.t) :=
  gets (fun st =>
    let userMemberships :=
      filter (fun m => String.eqb (OrgMember.userId m) userId)
             (JsMap.values (orgMembers st)) in
    flat_map (fun m =>
                match JsMap.get (OrgMember.orgId m) (organizations st) with
                | Some org => [org]
                | None => []
                end)
             userMemberships).

Definition getUserWithOrganizations (userId : string)
  : M (option UserWithOrganizations) :=
  user <- getUserById userId ;;
  match user with
  | None => ret None
  | Some user =>
      organizations <- getOrganizationsByUser userId ;;
      orgsWithRoles <- gets (fun st =>
        map (fun org =>
               let membership :=
                 find (fun m => String.eqb (OrgMember.orgId m)
                                           (Organization.id org)
                                && String.eqb (OrgMember.userId m) userId)
                      (JsMap.values (orgMembers st)) in
               Build_OrganizationWithRole org
                 match membership with
                 | Some m => str_or (OrgMember.role m) "owner"
                 | None => "owner"
                 end)
            organizations) ;;
      ret (Some (Build_UserWithOrganizations user orgsWithRoles))
  end.

Definition getApiKeyByHash (keyHash : string)
  : M (option ApiKeyWithOrganization) :=
  gets (fun st =>
    match find (fun key => String.eqb (ApiKey.keyHash key) keyHash)
               (JsMap.values (apiKeys st)) with
    | None => None
    | Some apiKey =>
        match JsMap.get (ApiKey.orgId apiKey) (organizations st) with
        | None => None
        | Some organization =>
            Some (Build_ApiKeyWithOrganization apiKey organization)
        end
    end).

(** [InsertSetting] has the fields of [Setting] but [updatedAt]. *)
Definition setSetting (orgId key : string) (value : Json)
    (updatedBy : string) (now : Z) : M Setting.t :=
  let settingKey := orgId ++ "-" ++ key in
  let setting := Setting.mk orgId key value updatedBy now in
  modify (with_settings (JsMap.set settingKey setting)) ;;
  ret setting.

Definition getSetting (orgId key : string) : M (option Setting.t) :=
  gets (fun st => JsMap.get (orgId ++ "-" ++ key) (settings st)).

Definition getSettings (orgId : string) : M (list Setting.t) :=
  gets (fun st =>
    filter (fun setting => String.eqb (Setting.orgId setting) orgId)
           (JsMap.values (settings st))).

Definition updateSubscription (orgId : string)
    (updates : SubscriptionUpdate.t) (now : Z) : M Subscription.t :=
  existing <- gets (fun st => JsMap.get orgId (subscriptions st)) ;;
  let base :=
    match existing with
    | Some e => e
    | None => Subscription.mk orgId "free" "active" None (JObj []) now
    end in
  let subscription := SubscriptionUpdate.merge base updates in
  modify (with_subscriptions (JsMap.set orgId subscription)) ;;
  ret subscription.

(** [array.slice(0, end)] *)
Definition slice0 {A} (finish : Z) (l : list A) : list A :=
  let len := Z.of_nat (List.length l) in
  let k := if (finish <? 0)%Z then Z.max (len + finish) 0
           else Z.min finish len in
  firstn (Z.to_nat k) l.

(** [getAuditLogs(orgId, limit = 50)] *)
Definition getAuditLogs (orgId : string) (limit : option Z)
  : M (list AuditLog.t) :=
  let limit := match limit with Some n => n | None => 50%Z end in
  gets (fun st =>
    slice0 limit
      (sort (fun a b => (AuditLog.createdAt b - AuditLog.createdAt a)%Z)
            (filter (fun log => String.eqb (AuditLog.orgId log) orgId)
                    (auditLogs st)))).

Definition updatePipeline (id orgId : string) (updates : PipelineUpdate.t)
  : M Pipeline.t :=
  pipeline <- getPipeline id orgId ;;
  match pipeline with
  | None => throw "Pipeline not found"
  | Some pipeline =>
      let updated := PipelineUpdate.merge pipeline updates in
      modify (with_pipelines (JsMap.set id updated)) ;;
      ret updated
  end.

(** [leads.filter(l => l.orgId === orgId && stageMap.has(l.stageId))
         .map(lead => ({ ...lead, ...stageMap.get(lead.stageId)! }))],
    the two steps in one pass. *)
Definition getLeadsByPipeline (pipelineId orgId : string)
  : M (list LeadWithStage) :=
  stages <- getStages pipelineId orgId ;;
  let stageMap :=
    JsMap.of_list
      (map (fun s => (Stage.id s, (Stage.name s, Stage.order s))) stages) in
  gets (fun st =>
    sort (fun a b => (Lead.updatedAt (joined_lead b)
                      - Lead.updatedAt (joined_lead a))%Z)
         (flat_map
            (fun lead =>
               if String.eqb (Lead.orgId lead) orgId
               then match JsMap.get (Lead.stageId lead) stageMap with
                    | Some stageInfo =>
                        [Build_LeadWithStage lead (fst stageInfo)
                                             (snd stageInfo)]
                    | None => []
                    end
               else [])
            (JsMap.values (leads st)))).

(** [metered.operations || 0]: the property of a JSON object, or
    [undefined]. *)
Definition metered_counter (name : string) (metered : Json) : Json :=
  match metered with
  | JObj fields =>
      match JsMap.get name fields with
      | Some v => if truthy v then v else JNum 0
      | None => JNum 0
      end
  | _ => JNum 0
  end.

Definition getOrganizationStats (orgId : string) : M Stats :=
  gets (fun st =>
    let members :=
      List.length (filter (fun m => String.eqb (OrgMember.orgId m) orgId)
                          (JsMap.values (orgMembers st))) in
    let apiKeys :=
      List.length (filter (fun k => String.eqb (ApiKey.orgId k) orgId)
                          (JsMap.values (apiKeys st))) in
    let pipelines :=
      List.length (filter (fun p => String.eqb (Pipeline.orgId p) orgId)
                          (JsMap.values (pipelines st))) in
    let leads :=
      List.length (filter (fun l => String.eqb (Lead.orgId l) orgId)
                          (JsMap.values (leads st))) in
    let metered :=
      match JsMap.get orgId (subscriptions st) with
      | Some subscription =>
          if truthy (Subscription.metered subscription)
          then Subscription.metered subscription else JObj []
      | None => JObj []
      end in
    Build_Stats members (metered_counter "operations" metered)
                (metered_counter "tables" metered) apiKeys pipelines leads).

End Methods.
End MemStorage.

(* ------------------------------------------------------------------ *)
(** ** [shared/schema.ts]: plan limits *)

Record PlanLimits := {
  limit_organizations : N; limit_members : N; limit_operations : N;
  limit_tableMappings : N; limit_pipelines : N }.

Definition PLAN_LIMITS : list (string * PlanLimits) :=
  [ ("free", Build_PlanLimits 1 3 1000 1 1);
    ("pro", Build_PlanLimits 5 15 100000 10 5);
    ("team", Build_PlanLimits 20 50 1000000 30 20) ]%N.

(** Property names every object literal inherits from [Object.prototype]. *)
Definition object_prototype_keys : list string :=
  [ "constructor"; "hasOwnProperty"; "isPrototypeOf"; "propertyIsEnumerable";
    "toLocaleString"; "toString"; "valueOf"; "__proto__";
    "__defineGetter__"; "__defineSetter__"; "__lookupGetter__";
    "__lookupSetter__" ].

(** [(PLAN_LIMITS as any)[plan]]: an own entry, an inherited member (whose
    [.pipelines] is [undefined]), or [undefined]. *)
Inductive PlanLookup : Type :=
| OwnPlan (limits : PlanLimits)
| InheritedMember
| NoSuchPlan.

Definition plan_lookup (plan : string) : PlanLookup :=
  match JsMap.get plan PLAN_LIMITS with
  | Some l => OwnPlan l
  | None =>
      if existsb (String.eqb plan) object_prototype_keys
      then InheritedMember else NoSuchPlan
  end.

(* ------------------------------------------------------------------ *)
(** ** Strings: [toLowerCase], [/\s+/g], [/@(\w+)/g], hex

    A character is a UTF-16 code unit below 256. *)

Definition between (lo hi n : nat) : bool := Nat.leb lo n && Nat.leb n hi.

(** [\w] *)
Definition is_word (c : ascii) : bool :=
  let n := nat_of_ascii c in
  between 48 57 n || between 65 90 n || between 97 122 n || Nat.eqb n 95.

(** [\s] *)
Definition is_space (c : ascii) : bool :=
  let n := nat_of_ascii c in
  between 9 13 n || Nat.eqb n 32 || Nat.eqb n 160.

Definition lower_char (c : ascii) : ascii :=
  let n := nat_of_ascii c in
  if between 65 90 n || between 192 214 n || between 216 222 n
  then ascii_of_nat (n + 32) else c.

Fixpoint toLowerCase (s : string) : string :=
  match s with
  | EmptyString => EmptyString
  | String c r => String (lower_char c) (toLowerCase r)
  end.

(** [s.replace(/\s+/g, "")] *)
Fixpoint strip_whitespace (s : string) : string :=
  match s with
  | EmptyString => EmptyString
  | String c r =>
      if is_space c then strip_whitespace r else String c (strip_whitespace r)
  end.

(** The successive captures of [/@(\w+)/g] over [s]. The scanner is either
    outside a match ([None]) or has read an [@] followed by the word
    characters [w] ([Some w]). *)
Fixpoint scan_mentions (cur : option string) (s : string) : list string :=
  let emit w := if String.eqb w "" then [] else [w] in
  let start c := if Ascii.eqb c "@" then Some "" else None in
  match s with
  | EmptyString =>
      match cur with Some w => emit w | None => [] end
  | String c r =>
      match cur with
      | Some w =>
          if is_word c then scan_mentions (Some (w ++ String c "")) r
          else (emit w ++ scan_mentions (start c) r)%list
      | None => scan_mentions (start c) r
      end
  end.

Definition extract_mentions (body : string) : list string :=
  scan_mentions None body.

(** ["*".repeat(n)] *)
Fixpoint repeat_string (s : string) (n : nat) : string :=
  match n with
  | O => ""
  | S n' => s ++ repeat_string s n'
  end.

Definition hex_digit (n : N) : ascii :=
  if (n <? 10)%N then ascii_of_N (48 + n) else ascii_of_N (87 + n).

(** [buffer.toString("hex")] *)
Fixpoint toString_hex (bytes : list Byte.byte) : string :=
  match bytes with
  | [] => ""
  | b :: r =>
      let n := Byte.to_N b in
      String (hex_digit (n / 16)) (String (hex_digit (n mod 16))
                                          (toString_hex r))
  end.

(* ------------------------------------------------------------------ *)
(** ** [server/routes.ts]: responses and middleware *)

Inductive Body : Type :=
| BError (error : string)                       (* { error } *)
| BUser (id email name : string)                (* { user: { id, email, name } } *)
| BMember (m : OrgMember.t)
| BApiKeys (keys : list ApiKey.t)
| BApiKeyCreated (apiKey : ApiKey.t) (keyValue : string)
                                                (* { ...apiKey, keyValue } *)
| BPipeline (p : Pipeline.t)
| BLead (l : Lead.t)
| BComment (c : LeadComment.t).

Record Response := { status : nat; body : Body }.

(** [res.json(b)] *)
Definition json (b : Body) : Response := {| status := 200; body := b |}.

(** [res.status(code).json({ error })] *)
Definition error (code : nat) (message : string) : Response :=
  {| status := code; body := BError message |}.

(** [try { ... } catch (error) { ... }] *)
Definition try_catch {A} (m : M A) (handler : string -> M A) : M A :=
  fun st =>
    match m st with
    | (st', Throw e) => handler e st'
    | r => r
    end.

(** [schema.parse(...)] of a request body: the body is given with the outcome
    of its validation. *)
Definition parse {A} (validated : Result A) : M A :=
  match validated with
  | Ok a => ret a
  | Throw e => throw e
  end.

(** [["admin", "editor"].includes(role)] *)
Definition includes (l : list string) (x : string) : bool :=
  existsb (fun y => String.eqb y x) l.

(** [requireAuth]; the session holds at most a user id. *)
Definition requireAuth (session : option string)
    (next : string -> M Response) : M Response :=
  match str_or_null session with
  | None => ret (error 401 "Authentication required")
  | Some userId => next userId
  end.

Definition requireOrgAccess (organizationId userId : string)
    (next : OrgMember.t -> M Response) : M Response :=
  if String.eqb organizationId "" || String.eqb userId ""
  then ret (error 401 "Organization access required")
  else
    member <- MemStorage.getOrgMember organizationId userId ;;
    match member with
    | None => ret (error 403 "Access denied to organization")
    | Some member => next member
    end.

(* ------------------------------------------------------------------ *)
(** ** [server/routes.ts]: the routes

    Every route takes the session's user id, the path parameters, the body
    and the values it draws, and is a computation over the store. Writes to
    [req.session] are outside the store and are not modelled. *)

Module Routes.

(** The methods of [IStorage] that the signup route calls. *)
Record IStorage := {
  getUserByEmail : string -> M (option User.t);
  createUser : InsertUser.t -> M User.t;
  createOrganization : InsertOrganization.t -> string -> M Organization.t;
  createAuditLog : InsertAuditLog.t -> M AuditLog.t }.

(** [storage = new MemStorage()], with the values its methods draw. *)
Definition memStorage (bcrypt_hash : string -> string)
    (userId organizationId : string) (now : Z) : IStorage :=
  {| getUserByEmail := MemStorage.getUserByEmail;
     createUser := fun u => MemStorage.createUser bcrypt_hash u userId now;
     createOrganization :=
       fun o owner => MemStorage.createOrganization o owner organizationId now;
     createAuditLog := fun l => MemStorage.createAuditLog l now |}.

(** [POST /api/auth/signup] *)
Definition signup (storage : IStorage) (body : Result InsertUser.t)
  : M Response :=
  try_catch
    (data <- parse body ;;
     let email := InsertUser.email data in
     let passwordHash := InsertUser.passwordHash data in
     let name := InsertUser.name data in
     existingUser <- getUserByEmail storage email ;;
     match existingUser with
     | Some _ => ret (error 400 "User already exists")
     | None =>
         user <- createUser storage (InsertUser.mk email passwordHash name) ;;
         try_catch
           (let orgData :=
              InsertOrganization.mk (name ++ "'s Organization") None None in
            organization <- createOrganization storage orgData (User.id user) ;;
            createAuditLog storage
              (InsertAuditLog.mk (Organization.id organization)
                 (Some (User.id user)) "create" "organization"
                 (Some (Organization.id organization))
                 (Some (JObj [("name", JStr (Organization.name organization))]))) ;;
            ret tt)
           (fun _ => ret tt) ;;
         ret (json (BUser (User.id user) (User.email user) (User.name user)))
     end)
    (fun e => ret (error 400 e)).

(** [POST /api/organizations/:organizationId/members] *)
Definition inviteMember (session : option string) (organizationId : string)
    (email role : string) (now : Z) : M Response :=
  requireAuth session (fun sessionUserId =>
  requireOrgAccess organizationId sessionUserId (fun orgMember =>
  try_catch
    (if negb (includes ["admin"; "editor"] (OrgMember.role orgMember))
     then ret (error 403 "Insufficient permissions")
     else
       (* Check if user exists *)
       invitedUser <- MemStorage.getUserByEmail email ;;
       match invitedUser with
       | None => ret (error 404 "User not found")
       | Some invitedUser =>
           (* Check if already a member *)
           existing <- MemStorage.getOrgMember organizationId
                                               (User.id invitedUser) ;;
           match existing with
           | Some _ => ret (error 400 "User is already a member")
           | None =>
               member <- MemStorage.addOrgMember
                           (InsertOrgMember.mk organizationId
                              (User.id invitedUser) role (Some sessionUserId)
                              (Some now)) now ;;
               MemStorage.createAuditLog
                 (InsertAuditLog.mk organizationId (Some sessionUserId)
                    "invite" "member" (Some (User.id invitedUser))
                    (Some (JObj [("email", JStr email); ("role", JStr role)])))
                 now ;;
               ret (json (BMember member))
           end
       end)
    (fun e => ret (error 400 e)))).

(** [GET /api/organizations/:organizationId/api-keys] *)
Definition listApiKeys (session : option string) (organizationId : string)
  : M Response :=
  requireAuth session (fun sessionUserId =>
  requireOrgAccess organizationId sessionUserId (fun _ =>
  try_catch
    (apiKeys <- MemStorage.getApiKeys organizationId ;;
     ret (json (BApiKeys apiKeys)))
    (fun e => ret (error 500 e)))).

Section ApiKeys.
(** [createHash("sha256").update(s).digest("hex")] *)
Variable sha256_hex : string -> string.

Definition make_keyValue (randomBytes : list Byte.byte) : string :=
  "sk_" ++ toString_hex randomBytes.

Definition make_keyPreview (keyValue : string) : string :=
  substring 0 12 keyValue ++ repeat_string "*" 20.

(** [POST /api/organizations/:organizationId/api-keys] *)
Definition createApiKey (session : option string) (organizationId : string)
    (body : Result string) (randomBytes : list Byte.byte) (id : string)
    (now : Z) : M Response :=
  requireAuth session (fun sessionUserId =>
  requireOrgAccess organizationId sessionUserId (fun orgMember =>
  try_catch
    (name <- parse body ;;
     if negb (includes ["admin"; "editor"] (OrgMember.role orgMember))
     then ret (error 403 "Insufficient permissions")
     else
       (* Generate API key *)
       let keyValue := make_keyValue randomBytes in
       let keyHash := sha256_hex keyValue in
       let keyPreview := make_keyPreview keyValue in
       apiKey <- MemStorage.createApiKey
                   (InsertApiKey.mk organizationId name keyHash keyPreview
                                    sessionUserId) id now ;;
       MemStorage.createAuditLog
         (InsertAuditLog.mk organizationId (Some sessionUserId) "create"
            "api_key" (Some (ApiKey.id apiKey))
            (Some (JObj [("name", JStr name)]))) now ;;
       (* Return the actual key only once *)
       ret (json (BApiKeyCreated apiKey keyValue)))
    (fun e => ret (error 400 e)))).
End ApiKeys.

(** [POST /api/organizations/:organizationId/pipelines] *)
Definition createPipeline (session : option string) (organizationId : string)
    (body : Result string) (id : string) (now : Z) : M Response :=
  requireAuth session (fun sessionUserId =>
  requireOrgAccess organizationId sessionUserId (fun orgMember =>
  try_catch
    (name <- parse body ;;
     let pipelineData := InsertPipeline.mk organizationId name in
     if negb (includes ["admin"; "editor"] (OrgMember.role orgMember))
     then ret (error 403 "Insufficient permissions")
     else
       (* Check plan limits *)
       subscription <- MemStorage.getSubscription organizationId ;;
       let plan :=
         match subscription with
         | Some s => str_or (Subscription.plan s) "free"
         | None => "free"
         end in
       existingPipelines <- MemStorage.getPipelines organizationId ;;
       limitReached <-
         match plan_lookup plan with
         | OwnPlan limits =>
             ret (N.leb (limit_pipelines limits)
                        (N.of_nat (List.length existingPipelines)))
         | InheritedMember => ret false
         | NoSuchPlan =>
             throw "Cannot read properties of undefined (reading 'pipelines')"
         end ;;
       if (limitReached : bool)
       then ret (error 400 ("Pipeline limit reached for " ++ plan
                            ++ " plan. Upgrade to create more pipelines."))
       else
         pipeline <- MemStorage.createPipeline pipelineData id now ;;
         MemStorage.createAuditLog
           (InsertAuditLog.mk organizationId (Some sessionUserId) "create"
              "pipeline" (Some (Pipeline.id pipeline))
              (Some (JObj [("name", JStr (Pipeline.name pipeline))]))) now ;;
         ret (json (BPipeline pipeline)))
    (fun e => ret (error 400 e)))).

(** [POST /api/organizations/:organizationId/leads/:leadId/move] *)
Definition moveLead (session : option string)
    (organizationId leadId stageId : string) (now : Z) : M Response :=
  requireAuth session (fun sessionUserId =>
  requireOrgAccess organizationId sessionUserId (fun orgMember =>
  try_catch
    (if negb (includes ["admin"; "editor"] (OrgMember.role orgMember))
     then ret (error 403 "Insufficient permissions")
     else
       (* Verify stage access *)
       stage <- MemStorage.getStage stageId organizationId ;;
       match stage with
       | None => ret (error 404 "Stage not found")
       | Some stage =>
           lead <- MemStorage.moveLeadToStage leadId stageId organizationId
                                              now ;;
           MemStorage.createAuditLog
             (InsertAuditLog.mk organizationId (Some sessionUserId) "move"
                "lead" (Some (Lead.id lead))
                (Some (JObj [("newStageId", JStr stageId);
                             ("stageName", JStr (Stage.name stage))]))) now ;;
           ret (json (BLead lead))
       end)
    (fun e => ret (error 500 e)))).

(** Mention resolution of the comment route: [membersByUsername] and the
    loop over the extracted mentions. *)
Definition membersByUsername (orgMembers : list MemberWithUser)
  : JsMap.t string :=
  JsMap.of_list
    (map (fun m =>
            (strip_whitespace (toLowerCase (ref_name (member_user m))),
             ref_id (member_user m)))
         orgMembers).

Definition resolveMentions (orgMembers : list MemberWithUser)
    (sessionUserId : string) (mentions : list string) : list string :=
  let byName := membersByUsername orgMembers in
  flat_map
    (fun mention =>
       match JsMap.get (toLowerCase mention) byName with
       | Some userId =>
           if negb (String.eqb userId "")
              && negb (String.eqb userId sessionUserId)
           then [userId] else []
       | None => []
       end)
    mentions.

(** The [body] field of a comment request: [String(body)], which the
    mention scan reads, and whether the field is a string, which the schema
    requires. *)
Record BodyField := { as_string : string; is_string : bool }.

Section Comments.
(** [z.string().uuid()], as [insertLeadCommentSchema] applies it to
    [orgId], [leadId] and [userId], and the message of the [ZodError] for an
    object that fails. *)
Variable is_uuid : string -> bool.
Variable zod_message : string -> string -> BodyField -> string -> string.

(** [insertLeadCommentSchema.parse({ orgId, leadId, body, userId,
    mentionedUserIds })]; [mentionedUserIds] is [null] or a list of strings,
    as the route builds it. *)
Definition parseLeadComment (orgId leadId : string) (body : BodyField)
    (userId : string) (mentionedUserIds : option (list string))
  : M InsertLeadComment.t :=
  if is_uuid orgId && is_uuid leadId && is_string body && is_uuid userId
  then ret (InsertLeadComment.mk orgId leadId (as_string body) userId
                                 mentionedUserIds)
  else throw (zod_message orgId leadId body userId).

(** [POST /api/organizations/:organizationId/leads/:leadId/comments] *)
Definition createComment (session : option string)
    (organizationId leadId : string) (body : BodyField) (id : string)
    (now : Z) : M Response :=
  requireAuth session (fun sessionUserId =>
  requireOrgAccess organizationId sessionUserId (fun _ =>
  try_catch
    ((* Extract @username mentions *)
     let mentions := extract_mentions (as_string body) in
     (* Find mentioned users in organization *)
     mentionedUserIds <-
       match mentions with
       | [] => ret []
       | _ =>
           orgMembers <- MemStorage.getOrgMembers organizationId ;;
           ret (resolveMentions orgMembers sessionUserId mentions)
       end ;;
     commentData <-
       parseLeadComment organizationId leadId body sessionUserId
         (match mentionedUserIds with
          | [] => None
          | _ => Some mentionedUserIds
          end) ;;
     comment <- MemStorage.createLeadComment commentData id now ;;
     (* Send email notifications for mentions (webhook simulation) *)
     match mentionedUserIds with
     | [] => ret tt
     | _ =>
         lead <- MemStorage.getLead leadId organizationId ;;
         forEach mentionedUserIds (fun mentionedUserId =>
           mentionedUser <- MemStorage.getUserById mentionedUserId ;;
           match mentionedUser with
           | None => ret tt
           | Some mentionedUser =>
               MemStorage.createAuditLog
                 (InsertAuditLog.mk organizationId (Some sessionUserId)
                    "mention" "user" (Some mentionedUserId)
                    (Some (JObj
                       ([("leadId", JStr leadId)]
                        ++ match lead with
                           | Some l => [("leadName", JStr (Lead.name l))]
                           | None => []
                           end
                        ++ [("commentBody", JStr (as_string body));
                            ("mentionedUserEmail",
                             JStr (User.email mentionedUser))])%list)))
                 now ;;
               ret tt
           end)
     end ;;
     MemStorage.createAuditLog
       (InsertAuditLog.mk organizationId (Some sessionUserId) "create"
          "comment" (Some (LeadComment.id comment))
          (Some (JObj [("leadId", JStr leadId);
                       ("body", JStr (substring 0 100 (as_string body)))])))
       now ;;
     ret (json (BComment comment)))
    (fun e => ret (error 400 e)))).
End Comments.

End Routes.

(* ------------------------------------------------------------------ *)
(** ** [server/routes.ts]: the other routes

    Their answers range over more payloads than those above. A path
    parameter that the path does not declare is [None]. The body of a [PUT]
    is used as a [Partial] row without validation and is given as one. The
    Stripe calls of the billing routes are a parameter. *)

Module Api.

Inductive Payload : Type :=
| PError (error : string)
| PSuccess                                   (* { success: true } *)
| PUser (id email name : string)
| PMe (id email name : string) (organizations : list OrganizationWithRole)
| POrganization (o : Organization.t)
| POrganizationDetail (o : Organization.t) (s : option Subscription.t)
                      (stats : Stats) (userRole : string)
| PMembers (members : list MemberWithUser)
| PSettingsMap (fields : JsMap.t Json)
| PSetting (s : Setting.t)
| PAuditLogs (logs : list AuditLog.t)
| PPipelines (pipelines : list Pipeline.t)
| PPipeline (p : Pipeline.t)
| PPipelineDetail (p : Pipeline.t) (stages : list Stage.t)
                  (leads : list LeadWithStage)
| PStage (s : Stage.t)
| PLead (l : Lead.t)
| PLeadDetail (l : Lead.t) (comments : list CommentWithUser)
| PSync (syncedLeads syncedStages : nat) (direction : string) (timestamp : Z)
| PUrl (url : string)
| PTables (tables : list (string * string * list string)).
                                             (* { tables: [{ id, name, fields }] } *)

Record Answer := { code : nat; payload : Payload }.

Definition json (p : Payload) : Answer := {| code := 200; payload := p |}.

Definition error (status : nat) (message : string) : Answer :=
  {| code := status; payload := PError message |}.

Definition requireAuth (session : option string)
    (next : string -> M Answer) : M Answer :=
  match str_or_null session with
  | None => ret (error 401 "Authentication required")
  | Some userId => next userId
  end.

Definition requireOrgAccess (organizationId : option string)
    (userId : string) (next : string -> OrgMember.t -> M Answer) : M Answer :=
  match str_or_null organizationId with
  | None => ret (error 401 "Organization access required")
  | Some organizationId =>
      if String.eqb userId ""
      then ret (error 401 "Organization access required")
      else
        member <- MemStorage.getOrgMember organizationId userId ;;
        match member with
        | None => ret (error 403 "Access denied to organization")
        | Some member => next organizationId member
        end
  end.

(** JSON of the optional fields of a body. *)
Definition field {A} (name : string) (encode : A -> Json) (o : option A)
  : list (string * Json) :=
  match o with
  | Some x => [(name, encode x)]
  | None => []
  end.

Definition nullable (o : option string) : Json :=
  match o with
  | Some s => JStr s
  | None => JNull
  end.

(** An unvalidated body as an update of a row. The [PUT] routes hand
    [req.body] to the store as it is. A body is read as [Partial<Row>] when
    it is an object (or the empty array) whose fields are columns of the row
    with values of the column's type; [createdAt] is a [Date] in a row and
    never in JSON. Any other body is not an update of typed rows ([None]). *)
Definition fields_of (body : Json) : option (list (string * Json)) :=
  match body with
  | JObj fields => Some fields
  | JArr [] => Some []
  | _ => None
  end.

Definition only_keys (names : list string) (fields : list (string * Json))
  : bool :=
  forallb (fun p => includes names (fst p)) fields.

(** A column of type text: absent, a string, or ([None]) another value. *)
Definition string_field (name : string) (fields : list (string * Json))
  : option (option string) :=
  match JsMap.get name fields with
  | None => Some None
  | Some (JStr s) => Some (Some s)
  | Some _ => None
  end.

(** A nullable column of type text. *)
Definition nullable_field (name : string) (fields : list (string * Json))
  : option (option (option string)) :=
  match JsMap.get name fields with
  | None => Some None
  | Some (JStr s) => Some (Some (Some s))
  | Some JNull => Some (Some None)
  | Some _ => None
  end.

(** A column of type integer. *)
Definition number_field (name : string) (fields : list (string * Json))
  : option (option Z) :=
  match JsMap.get name fields with
  | None => Some None
  | Some (JNum n) => Some (Some n)
  | Some _ => None
  end.

Definition decode_pipeline_updates (body : Json) : option PipelineUpdate.t :=
  match fields_of body with
  | None => None
  | Some fields =>
      if only_keys ["id"; "orgId"; "name"] fields
      then
        match string_field "id" fields, string_field "orgId" fields,
              string_field "name" fields with
        | Some id, Some orgId, Some name =>
            Some (PipelineUpdate.mk id orgId name None)
        | _, _, _ => None
        end
      else None
  end.

Definition decode_stage_updates (body : Json) : option Stage.partial :=
  match fields_of body with
  | None => None
  | Some fields =>
      if only_keys ["id"; "orgId"; "pipelineId"; "name"; "order"] fields
      then
        match string_field "id" fields, string_field "orgId" fields,
              string_field "pipelineId" fields, string_field "name" fields,
              number_field "order" fields with
        | Some id, Some orgId, Some pipelineId, Some name, Some order =>
            Some (Stage.mkPartial id orgId pipelineId name order None)
        | _, _, _, _, _ => None
        end
      else None
  end.

(** An [updatedAt] of the body is overwritten by [updatedAt: new Date()],
    whatever it holds. *)
Definition decode_lead_updates (body : Json) : option Lead.partial :=
  match fields_of body with
  | None => None
  | Some fields =>
      if only_keys ["id"; "orgId"; "stageId"; "name"; "email"; "source";
                    "notes"; "airtableRecordId"; "updatedAt"] fields
      then
        match string_field "id" fields, string_field "orgId" fields,
              string_field "stageId" fields, string_field "name" fields,
              nullable_field "email" fields, nullable_field "source" fields,
              nullable_field "notes" fields,
              nullable_field "airtableRecordId" fields with
        | Some id, Some orgId, Some stageId, Some name, Some email,
          Some source, Some notes, Some airtableRecordId =>
            Some (Lead.mkPartial id orgId stageId name email source notes
                                 airtableRecordId None None)
        | _, _, _, _, _, _, _, _ => None
        end
      else None
  end.

Definition json_of_stageOrders (stageOrders : list (string * Z)) : Json :=
  JArr (map (fun so => JObj [("id", JStr (fst so)); ("order", JNum (snd so))])
            stageOrders).

(** [storage.createAuditLog({ orgId, actorId, action, entity, entityId,
    metadata })] as the routes call it. *)
Definition audit (orgId userId action entity : string)
    (entityId : option string) (metadata : list (string * Json)) (now : Z)
  : M AuditLog.t :=
  MemStorage.createAuditLog
    (InsertAuditLog.mk orgId (Some userId) action entity entityId
                       (Some (JObj metadata))) now.

Section Auth.
(** [bcrypt.compare] and the message of its error, as in [MemStorage]. *)
Variable bcrypt_compare : string -> string -> bool.
Variable bcrypt_error : option Json -> string.

(** [POST /api/auth/login]; [email] and [password] are the fields of
    [req.body], which the route does not validate. *)
Definition login (email password : option Json) : M Answer :=
  try_catch
    (user <- MemStorage.verifyPassword bcrypt_compare bcrypt_error email
                                       password ;;
     match user with
     | None => ret (error 401 "Invalid credentials")
     | Some user =>
         ret (json (PUser (User.id user) (User.email user) (User.name user)))
     end)
    (fun e => ret (error 500 e)).
End Auth.

(** [POST /api/auth/logout]: no middleware; [req.session.destroy] is outside
    the store. *)
Definition logout (session : option string) : M Answer :=
  ret (json PSuccess).

(** [GET /api/auth/me] *)
Definition me (session : option string) : M Answer :=
  requireAuth session (fun sessionUserId =>
  try_catch
    (user <- MemStorage.getUserWithOrganizations sessionUserId ;;
     match user with
     | None => ret (error 404 "User not found")
     | Some user =>
         ret (json (PMe (User.id (listed_user user))
                        (User.email (listed_user user))
                        (User.name (listed_user user))
                        (listed_organizations user)))
     end)
    (fun e => ret (error 500 e))).

(** [POST /api/organizations] *)
Definition createOrganization (session : option string)
    (body : Result InsertOrganization.t) (id : string) (now : Z) : M Answer :=
  requireAuth session (fun sessionUserId =>
  try_catch
    (orgData <- parse body ;;
     organization <- MemStorage.createOrganization orgData sessionUserId id
                                                   now ;;
     audit (Organization.id organization) sessionUserId "create"
           "organization" (Some (Organization.id organization))
           [("name", JStr (Organization.name organization))] now ;;
     ret (json (POrganization organization)))
    (fun e => ret (error 400 e))).

(** [GET /api/organizations/:organizationId] *)
Definition getOrganization (session : option string)
    (organizationId : string) : M Answer :=
  requireAuth session (fun sessionUserId =>
  requireOrgAccess (Some organizationId) sessionUserId
    (fun organizationId orgMember =>
  try_catch
    (organization <- MemStorage.getOrganization organizationId ;;
     match organization with
     | None => ret (error 404 "Organization not found")
     | Some organization =>
         subscription <- MemStorage.getSubscription organizationId ;;
         stats <- MemStorage.getOrganizationStats organizationId ;;
         ret (json (POrganizationDetail organization subscription stats
                                        (OrgMember.role orgMember)))
     end)
    (fun e => ret (error 500 e)))).

(** [GET /api/organizations/:organizationId/members] *)
Definition listMembers (session : option string) (organizationId : string)
  : M Answer :=
  requireAuth session (fun sessionUserId =>
  requireOrgAccess (Some organizationId) sessionUserId
    (fun organizationId _ =>
  try_catch
    (members <- MemStorage.getOrgMembers organizationId ;;
     ret (json (PMembers members)))
    (fun e => ret (error 500 e)))).

(** [DELETE /api/organizations/:organizationId/api-keys/:keyId] *)
Definition deleteApiKey (session : option string)
    (organizationId keyId : string) (now : Z) : M Answer :=
  requireAuth session (fun sessionUserId =>
  requireOrgAccess (Some organizationId) sessionUserId
    (fun organizationId orgMember =>
  try_catch
    (if negb (includes ["admin"; "editor"] (OrgMember.role orgMember))
     then ret (error 403 "Insufficient permissions")
     else
       MemStorage.deleteApiKey keyId organizationId ;;
       audit organizationId sessionUserId "delete" "api_key" (Some keyId) []
             now ;;
       ret (json PSuccess))
    (fun e => ret (error 500 e)))).

(** [settings.reduce((acc, setting) => { acc[setting.key] = setting.value;
    return acc }, {})]; an assignment to [acc["__proto__"]] adds no
    property. *)
Definition settingsMap (settings : list Setting.t) : JsMap.t Json :=
  fold_left
    (fun acc setting =>
       if String.eqb (Setting.key setting) "__proto__" then acc
       else JsMap.set (Setting.key setting) (Setting.value setting) acc)
    settings JsMap.empty.

(** [GET /api/organizations/:organizationId/settings] *)
Definition getSettings (session : option string) (organizationId : string)
  : M Answer :=
  requireAuth session (fun sessionUserId =>
  requireOrgAccess (Some organizationId) sessionUserId
    (fun organizationId _ =>
  try_catch
    (settings <- MemStorage.getSettings organizationId ;;
     ret (json (PSettingsMap (settingsMap settings))))
    (fun e => ret (error 500 e)))).

(** [PUT /api/organizations/:organizationId/settings/:key] *)
Definition putSetting (session : option string)
    (organizationId key : string) (value : Json) (now : Z) : M Answer :=
  requireAuth session (fun sessionUserId =>
  requireOrgAccess (Some organizationId) sessionUserId
    (fun organizationId orgMember =>
  try_catch
    (if negb (String.eqb (OrgMember.role orgMember) "admin")
     then ret (error 403 "Admin access required")
     else
       setting <- MemStorage.setSetting organizationId key value
                                        sessionUserId now ;;
       audit organizationId sessionUserId "update" "setting" (Some key)
             [("key", JStr key); ("value", value)] now ;;
       ret (json (PSetting setting)))
    (fun e => ret (error 400 e)))).

(** [GET /api/organizations/:organizationId/audit-logs]; [parsed] is
    [parseInt(req.query.limit)], [None] for [NaN]. *)
Definition getAuditLogs (session : option string) (organizationId : string)
    (parsed : option Z) : M Answer :=
  requireAuth session (fun sessionUserId =>
  requireOrgAccess (Some organizationId) sessionUserId
    (fun organizationId _ =>
  try_catch
    (let limit :=
       match parsed with
       | Some n => if Z.eqb n 0 then 50%Z else n
       | None => 50%Z
       end in
     logs <- MemStorage.getAuditLogs organizationId (Some limit) ;;
     ret (json (PAuditLogs logs)))
    (fun e => ret (error 500 e)))).

(** [POST /api/billing/create-checkout-session] and
    [POST /api/billing/create-portal-session]: the path has no
    [:organizationId]; [handler] is the handler with its Stripe calls. *)
Definition billing (handler : string -> string -> OrgMember.t -> M Answer)
    (session : option string) : M Answer :=
  requireAuth session (fun sessionUserId =>
  requireOrgAccess None sessionUserId (handler sessionUserId)).

(** [GET /api/organizations/:organizationId/pipelines] *)
Definition listPipelines (session : option string) (organizationId : string)
  : M Answer :=
  requireAuth session (fun sessionUserId =>
  requireOrgAccess (Some organizationId) sessionUserId
    (fun organizationId _ =>
  try_catch
    (pipelines <- MemStorage.getPipelines organizationId ;;
     ret (json (PPipelines pipelines)))
    (fun e => ret (error 500 e)))).

(** [GET /api/organizations/:organizationId/pipelines/:pipelineId] *)
Definition getPipeline (session : option string)
    (organizationId pipelineId : string) : M Answer :=
  requireAuth session (fun sessionUserId =>
  requireOrgAccess (Some organizationId) sessionUserId
    (fun organizationId _ =>
  try_catch
    (pipeline <- MemStorage.getPipeline pipelineId organizationId ;;
     match pipeline with
     | None => ret (error 404 "Pipeline not found")
     | Some pipeline =>
         stages <- MemStorage.getStages pipelineId organizationId ;;
         leads <- MemStorage.getLeadsByPipeline pipelineId organizationId ;;
         ret (json (PPipelineDetail pipeline stages leads))
     end)
    (fun e => ret (error 500 e)))).

(** [PUT /api/organizations/:organizationId/pipelines/:pipelineId];
    [const updates = req.body] is not validated. For a body that is not an
    update of typed rows the store would hold a row that no [Pipeline.t]
    is: once the pipeline is found, the rest of the handler is the parameter
    [untyped]. *)
Definition putPipeline (session : option string)
    (organizationId pipelineId : string) (body : Json) (now : Z)
    (untyped : M Answer) : M Answer :=
  requireAuth session (fun sessionUserId =>
  requireOrgAccess (Some organizationId) sessionUserId
    (fun organizationId orgMember =>
  try_catch
    (if negb (includes ["admin"; "editor"] (OrgMember.role orgMember))
     then ret (error 403 "Insufficient permissions")
     else
       match decode_pipeline_updates body with
       | Some updates =>
           pipeline <- MemStorage.updatePipeline pipelineId organizationId
                                                 updates ;;
           audit organizationId sessionUserId "update" "pipeline"
                 (Some (Pipeline.id pipeline)) [("updates", body)] now ;;
           ret (json (PPipeline pipeline))
       | None =>
           pipeline <- MemStorage.getPipeline pipelineId organizationId ;;
           match pipeline with
           | None => throw "Pipeline not found"
           | Some _ => untyped
           end
       end)
    (fun e => ret (error 500 e)))).

(** [DELETE /api/organizations/:organizationId/pipelines/:pipelineId] *)
Definition deletePipeline (session : option string)
    (organizationId pipelineId : string) (now : Z) : M Answer :=
  requireAuth session (fun sessionUserId =>
  requireOrgAccess (Some organizationId) sessionUserId
    (fun organizationId orgMember =>
  try_catch
    (if negb (includes ["admin"; "editor"] (OrgMember.role orgMember))
     then ret (error 403 "Insufficient permissions")
     else
       MemStorage.deletePipeline pipelineId organizationId ;;
       audit organizationId sessionUserId "delete" "pipeline"
             (Some pipelineId) [] now ;;
       ret (json PSuccess))
    (fun e => ret (error 500 e)))).

(** [POST /api/organizations/:organizationId/stages]; the validated body
    holds [pipelineId], [name] and [order]. *)
Definition createStage (session : option string) (organizationId : string)
    (body : Result (string * string * Z)) (id : string) (now : Z) : M Answer :=
  requireAuth session (fun sessionUserId =>
  requireOrgAccess (Some organizationId) sessionUserId
    (fun organizationId orgMember =>
  try_catch
    (fields <- parse body ;;
     let stageData :=
       InsertStage.mk organizationId (fst (fst fields)) (snd (fst fields))
                      (snd fields) in
     if negb (includes ["admin"; "editor"] (OrgMember.role orgMember))
     then ret (error 403 "Insufficient permissions")
     else
       (* Verify pipeline access *)
       pipeline <- MemStorage.getPipeline (InsertStage.pipelineId stageData)
                                          organizationId ;;
       match pipeline with
       | None => ret (error 404 "Pipeline not found")
       | Some _ =>
           stage <- MemStorage.createStage stageData id now ;;
           audit organizationId sessionUserId "create" "stage"
                 (Some (Stage.id stage))
                 [("name", JStr (Stage.name stage));
                  ("pipelineId", JStr (Stage.pipelineId stage))] now ;;
           ret (json (PStage stage))
       end)
    (fun e => ret (error 400 e)))).

(** [PUT /api/organizations/:organizationId/stages/:stageId]; the body is
    not validated, [untyped] as for pipelines. *)
Definition putStage (session : option string)
    (organizationId stageId : string) (body : Json) (now : Z)
    (untyped : M Answer) : M Answer :=
  requireAuth session (fun sessionUserId =>
  requireOrgAccess (Some organizationId) sessionUserId
    (fun organizationId orgMember =>
  try_catch
    (if negb (includes ["admin"; "editor"] (OrgMember.role orgMember))
     then ret (error 403 "Insufficient permissions")
     else
       match decode_stage_updates body with
       | Some updates =>
           stage <- MemStorage.updateStage stageId organizationId updates ;;
           audit organizationId sessionUserId "update" "stage"
                 (Some (Stage.id stage)) [("updates", body)] now ;;
           ret (json (PStage stage))
       | None =>
           stage <- MemStorage.getStage stageId organizationId ;;
           match stage with
           | None => throw "Stage not found"
           | Some _ => untyped
           end
       end)
    (fun e => ret (error 500 e)))).

(** [DELETE /api/organizations/:organizationId/stages/:stageId] *)
Definition deleteStage (session : option string)
    (organizationId stageId : string) (now : Z) : M Answer :=
  requireAuth session (fun sessionUserId =>
  requireOrgAccess (Some organizationId) sessionUserId
    (fun organizationId orgMember =>
  try_catch
    (if negb (includes ["admin"; "editor"] (OrgMember.role orgMember))
     then ret (error 403 "Insufficient permissions")
     else
       MemStorage.deleteStage stageId organizationId ;;
       audit organizationId sessionUserId "delete" "stage" (Some stageId) []
             now ;;
       ret (json PSuccess))
    (fun e => ret (error 500 e)))).

(** [POST /api/organizations/:organizationId/stages/reorder] *)
Definition reorderStages (session : option string)
    (organizationId pipelineId : string) (stageOrders : list (string * Z))
    (now : Z) : M Answer :=
  requireAuth session (fun sessionUserId =>
  requireOrgAccess (Some organizationId) sessionUserId
    (fun organizationId orgMember =>
  try_catch
    (if negb (includes ["admin"; "editor"] (OrgMember.role orgMember))
     then ret (error 403 "Insufficient permissions")
     else
       MemStorage.reorderStages pipelineId organizationId stageOrders ;;
       audit organizationId sessionUserId "reorder" "stage" (Some pipelineId)
             [("stageOrders", json_of_stageOrders stageOrders)] now ;;
       ret (json PSuccess))
    (fun e => ret (error 500 e)))).

(** [POST /api/organizations/:organizationId/leads]; the validated body
    holds the fields of [InsertLead] but [orgId], which the route sets. *)
Definition createLead (session : option string) (organizationId : string)
    (body : Result InsertLead.t) (id : string) (now : Z) : M Answer :=
  requireAuth session (fun sessionUserId =>
  requireOrgAccess (Some organizationId) sessionUserId
    (fun organizationId orgMember =>
  try_catch
    (fields <- parse body ;;
     let leadData :=
       InsertLead.mk organizationId (InsertLead.stageId fields)
                     (InsertLead.name fields) (InsertLead.email fields)
                     (InsertLead.source fields) (InsertLead.notes fields)
                     (InsertLead.airtableRecordId fields) in
     if negb (includes ["admin"; "editor"] (OrgMember.role orgMember))
     then ret (error 403 "Insufficient permissions")
     else
       (* Verify stage access *)
       stage <- MemStorage.getStage (InsertLead.stageId leadData)
                                    organizationId ;;
       match stage with
       | None => ret (error 404 "Stage not found")
       | Some _ =>
           lead <- MemStorage.createLead leadData id now ;;
           audit organizationId sessionUserId "create" "lead"
                 (Some (Lead.id lead))
                 [("name", JStr (Lead.name lead));
                  ("email", nullable (Lead.email lead));
                  ("stageId", JStr (Lead.stageId lead))] now ;;
           ret (json (PLead lead))
       end)
    (fun e => ret (error 400 e)))).

(** [GET /api/organizations/:organizationId/leads/:leadId] *)
Definition getLead (session : option string) (organizationId leadId : string)
  : M Answer :=
  requireAuth session (fun sessionUserId =>
  requireOrgAccess (Some organizationId) sessionUserId
    (fun organizationId _ =>
  try_catch
    (lead <- MemStorage.getLead leadId organizationId ;;
     match lead with
     | None => ret (error 404 "Lead not found")
     | Some lead =>
         comments <- MemStorage.getLeadComments leadId organizationId ;;
         ret (json (PLeadDetail lead comments))
     end)
    (fun e => ret (error 500 e)))).

(** [PUT /api/organizations/:organizationId/leads/:leadId]; the body is
    not validated, [untyped] as for pipelines. *)
Definition putLead (session : option string) (organizationId leadId : string)
    (body : Json) (now : Z) (untyped : M Answer) : M Answer :=
  requireAuth session (fun sessionUserId =>
  requireOrgAccess (Some organizationId) sessionUserId
    (fun organizationId orgMember =>
  try_catch
    (if negb (includes ["admin"; "editor"] (OrgMember.role orgMember))
     then ret (error 403 "Insufficient permissions")
     else
       match decode_lead_updates body with
       | Some updates =>
           lead <- MemStorage.updateLead leadId organizationId updates now ;;
           audit organizationId sessionUserId "update" "lead"
                 (Some (Lead.id lead)) [("updates", body)] now ;;
           ret (json (PLead lead))
       | None =>
           lead <- MemStorage.getLead leadId organizationId ;;
           match lead with
           | None => throw "Lead not found"
           | Some _ => untyped
           end
       end)
    (fun e => ret (error 500 e)))).

(** [DELETE /api/organizations/:organizationId/leads/:leadId] *)
Definition deleteLead (session : option string)
    (organizationId leadId : string) (now : Z) : M Answer :=
  requireAuth session (fun sessionUserId =>
  requireOrgAccess (Some organizationId) sessionUserId
    (fun organizationId orgMember =>
  try_catch
    (if negb (includes ["admin"; "editor"] (OrgMember.role orgMember))
     then ret (error 403 "Insufficient permissions")
     else
       MemStorage.deleteLead leadId organizationId ;;
       audit organizationId sessionUserId "delete" "lead" (Some leadId) []
             now ;;
       ret (json PSuccess))
    (fun e => ret (error 500 e)))).

(** [DELETE /api/organizations/:organizationId/leads/:leadId/comments/:commentId] *)
Definition deleteComment (session : option string)
    (organizationId leadId commentId : string) (now : Z) : M Answer :=
  requireAuth session (fun sessionUserId =>
  requireOrgAccess (Some organizationId) sessionUserId
    (fun organizationId orgMember =>
  try_catch
    ((* Only allow comment author or admin to delete *)
     comments <- MemStorage.getLeadComments leadId organizationId ;;
     match find (fun c => String.eqb (LeadComment.id (comment c)) commentId)
                comments with
     | None => ret (error 404 "Comment not found")
     | Some c =>
         if negb (String.eqb (LeadComment.userId (comment c)) sessionUserId)
            && negb (String.eqb (OrgMember.role orgMember) "admin")
         then ret (error 403 "Can only delete your own comments")
         else
           MemStorage.deleteLeadComment commentId organizationId ;;
           audit organizationId sessionUserId "delete" "comment"
                 (Some commentId) [("leadId", JStr leadId)] now ;;
           ret (json PSuccess)
     end)
    (fun e => ret (error 500 e)))).

(** [POST /api/organizations/:organizationId/airtable/sync]; [direction] is
    the field of the body, ["both"] when the body has none. *)
Definition airtableSync (session : option string) (organizationId : string)
    (direction : option string) (now : Z) : M Answer :=
  requireAuth session (fun sessionUserId =>
  requireOrgAccess (Some organizationId) sessionUserId
    (fun organizationId orgMember =>
  try_catch
    (let direction :=
       match direction with Some d => d | None => "both" end in
     if negb (String.eqb (OrgMember.role orgMember) "admin")
     then ret (error 403 "Admin access required")
     else
       (* Get Airtable settings *)
       baseIdSetting <- MemStorage.getSetting organizationId
                                              "airtable.baseId" ;;
       apiKeySetting <- MemStorage.getSetting organizationId
                                              "airtable.apiKey" ;;
       match baseIdSetting, apiKeySetting with
       | Some _, Some _ =>
           leads <- MemStorage.getLeadsByPipeline "" organizationId ;;
           stages <- MemStorage.getPipelines organizationId ;;
           let pushed :=
             String.eqb direction "push" || String.eqb direction "both" in
           let syncedLeads := if pushed then List.length leads else 0 in
           let syncedStages := if pushed then List.length stages else 0 in
           audit organizationId sessionUserId "sync" "airtable" None
                 [("direction", JStr direction);
                  ("syncedLeads", JNum (Z.of_nat syncedLeads));
                  ("syncedStages", JNum (Z.of_nat syncedStages))] now ;;
           ret (json (PSync syncedLeads syncedStages direction now))
       | _, _ => ret (error 400 "Airtable configuration incomplete")
       end)
    (fun e => ret (error 500 e)))).

(** The tables that the connection test reports. *)
Definition airtable_tables : list (string * string * list string) :=
  [ ("tblLeads1", "Leads", ["Name"; "Email"; "Status"; "Stage"]);
    ("tblStages1", "Stages", ["Name"; "Order"; "Pipeline"]) ].

(** [POST /api/organizations/:organizationId/airtable/test]; [apiKey] and
    [baseId] are the fields of the unvalidated body, [env_key] is
    [process.env.AIRTABLE_API_KEY]. The route checks no role. The mock
    connection only waits. *)
Definition airtableTest (session : option string) (organizationId : string)
    (apiKey baseId : option Json) (env_key : option string)
    (now later : Z) : M Answer :=
  requireAuth session (fun sessionUserId =>
  requireOrgAccess (Some organizationId) sessionUserId
    (fun organizationId _ =>
  try_catch
    (let given :=
       match apiKey with
       | Some k => if truthy k then Some k else None
       | None => None
       end in
     let airtableKey :=
       match given with
       | Some k => Some k
       | None => match str_or_null env_key with
                 | Some k => Some (JStr k)
                 | None => None
                 end
       end in
     match airtableKey, baseId with
     | Some airtableKey, Some baseId =>
         if negb (truthy baseId)
         then ret (error 400 "API key and base ID required")
         else
           MemStorage.setSetting organizationId "airtable.baseId" baseId
                                 sessionUserId now ;;
           match given with
           | Some _ =>
               MemStorage.setSetting organizationId "airtable.apiKey"
                                     airtableKey sessionUserId later ;;
               ret tt
           | None => ret tt
           end ;;
           ret (json (PTables airtable_tables))
     | _, _ => ret (error 400 "API key and base ID required")
     end)
    (fun e => ret (error 500 e)))).

End Api.

(* ================================================================== *)
(** * Invariants of the store and vocabulary of the statements *)

(** Every entry of a map is stored under the key computed from its row. *)
Definition keyed {V} (key_of : V -> string) (m : JsMap.t V) : Prop :=
  forall k v, In (k, v) m -> key_of v = k.

Definition indexed {V} (key_of : V -> string) (m : JsMap.t V) : Prop :=
  JsMap.uniq m /\ keyed key_of m.

(** [`${orgId}-${userId}`] *)
Definition member_key (m : OrgMember.t) : string :=
  OrgMember.orgId m ++ "-" ++ OrgMember.userId m.

(** [orgMembers] is only written by [addOrgMember], [updateOrgMemberRole]
    and [removeOrgMember], always under the key of the row. *)
Definition wf_members (st : Store) : Prop :=
  indexed member_key (orgMembers st).

(** Stages, leads and comments are stored under their own [id], as the
    [create*] methods store them. *)
Definition wf_tree (st : Store) : Prop :=
  indexed Stage.id (stages st) /\ indexed Lead.id (leads st)
  /\ indexed LeadComment.id (leadComments st).

(** The store with the four maps of the pipeline tree filtered. *)
Definition prune (fp : string * Pipeline.t -> bool)
    (fs : string * Stage.t -> bool) (fl : string * Lead.t -> bool)
    (fc : string * LeadComment.t -> bool) (st : Store) : Store :=
  mkStore (users st) (organizations st) (orgMembers st) (apiKeys st)
          (settings st) (subscriptions st) (auditLogs st)
          (filter fp (pipelines st)) (filter fs (stages st))
          (filter fl (leads st)) (filter fc (leadComments st)).

Definition keep {A} : A -> bool := fun _ => true.

(** Rows selected by the cascade of [deletePipeline(pipelineId, orgId)]. *)
Definition stage_in (pipelineId orgId : string) (s : Stage.t) : bool :=
  String.eqb (Stage.pipelineId s) pipelineId && String.eqb (Stage.orgId s) orgId.

Definition stage_ids (pipelineId orgId : string) (st : Store) : list string :=
  map Stage.id (filter (stage_in pipelineId orgId) (JsMap.values (stages st))).

Definition lead_in (stageIds : list string) (orgId : string) (l : Lead.t)
  : bool :=
  String.eqb (Lead.orgId l) orgId && existsb (String.eqb (Lead.stageId l)) stageIds.

Definition lead_ids (stageIds : list string) (orgId : string) (st : Store)
  : list string :=
  map Lead.id (filter (lead_in stageIds orgId) (JsMap.values (leads st))).

Definition comment_in (leadIds : list string) (orgId : string)
    (c : LeadComment.t) : bool :=
  String.eqb (LeadComment.orgId c) orgId
  && existsb (String.eqb (LeadComment.leadId c)) leadIds.

(** The store without pipeline [pipelineId] and without the rows of
    organization [orgId] below it. *)
Definition cascade (pipelineId orgId : string) (st : Store) : Store :=
  let stageIds := stage_ids pipelineId orgId st in
  let leadIds := lead_ids stageIds orgId st in
  prune (fun p => negb (String.eqb (fst p) pipelineId))
        (fun p => negb (stage_in pipelineId orgId (snd p)))
        (fun p => negb (lead_in stageIds orgId (snd p)))
        (fun p => negb (comment_in leadIds orgId (snd p))) st.

(** A lookup that is absent, or whose row is of another organization. *)
Definition not_owned {V} (org_of : V -> string) (id orgId : string)
    (m : JsMap.t V) : Prop :=
  match JsMap.get id m with
  | None => True
  | Some row => org_of row <> orgId
  end.

(** The order that a list of [{ id, order }] entries assigns last to [id]. *)
Definition final_order (stageOrders : list (string * Z)) (id : string)
  : option Z :=
  JsMap.get id (rev stageOrders).

(** The stage with its [order] replaced. *)
Definition with_order (o : Z) (s : Stage.t) : Stage.t :=
  Stage.merge s (Stage.only_order o).

(** The request comes from a logged-in user who is a member of the
    organization in the path: [requireAuth] and [requireOrgAccess] pass and
    set [req.orgMember]. *)
Definition member_request (session : option string)
    (organizationId userId : string) (orgMember : OrgMember.t) (st : Store)
  : Prop :=
  session = Some userId /\ userId <> "" /\ organizationId <> ""
  /\ JsMap.get (organizationId ++ "-" ++ userId) (orgMembers st)
     = Some orgMember.

(** [subscription?.plan || "free"] *)
Definition plan_of (orgId : string) (st : Store) : string :=
  match JsMap.get orgId (subscriptions st) with
  | Some s => str_or (Subscription.plan s) "free"
  | None => "free"
  end.

Definition pipeline_count (orgId : string) (st : Store) : nat :=
  List.length (filter (fun p => String.eqb (Pipeline.orgId p) orgId)
                      (JsMap.values (pipelines st))).

(** The maximum number of pipelines of a plan, in the words of the
    specification: free 1, pro 5, team 20. *)
Definition spec_pipeline_maximum (plan : string) : option N :=
  if String.eqb plan "free" then Some 1%N
  else if String.eqb plan "pro" then Some 5%N
  else if String.eqb plan "team" then Some 20%N
  else None.

(** Another byte than the given one, with another hex form. *)
Definition other_byte (b : Byte.byte) : Byte.byte :=
  match b with Byte.x00 => Byte.x01 | _ => Byte.x00 end.

(** The name under which a member can be mentioned: the display name in
    lower case without whitespace. *)
Definition mention_name (m : MemberWithUser) : string :=
  strip_whitespace (toLowerCase (ref_name (member_user m))).

(** The members of an organization as [getOrgMembers] lists them. *)
Definition org_members (orgId : string) (st : Store) : list MemberWithUser :=
  match snd (MemStorage.getOrgMembers orgId st) with
  | Ok members => members
  | Throw _ => []
  end.

(** [mentionedUserIds.length > 0 ? mentionedUserIds : null] *)
Definition or_null (ids : list string) : option (list string) :=
  match ids with
  | [] => None
  | _ => Some ids
  end.

(** The computation returns [a] (it does not throw). *)
Definition returns {A} (m : M A) (st : Store) (a : A) : Prop :=
  exists st', m st = (st', Ok a).

(** [`${orgId}-${key}`] *)
Definition setting_key (s : Setting.t) : string :=
  Setting.orgId s ++ "-" ++ Setting.key s.

(** [settings] is only written by [setSetting], under the key of the row. *)
Definition wf_settings (st : Store) : Prop :=
  indexed setting_key (settings st).

(** The audit log holds the ids 1, 2, ..., n in this order. *)
Definition wf_audit (st : Store) : Prop :=
  map AuditLog.id (auditLogs st)
  = map (fun i => Z.of_nat i) (seq 1 (List.length (auditLogs st))).


(** Every stage lies in a pipeline of its own organization, and every lead
    in a stage of its own organization. *)
Definition tenant_consistent (st : Store) : Prop :=
  (forall s, In s (JsMap.values (stages st)) ->
     exists p, JsMap.get (Stage.pipelineId s) (pipelines st) = Some p
               /\ Pipeline.orgId p = Stage.orgId s)
  /\ (forall l, In l (JsMap.values (leads st)) ->
       exists s, JsMap.get (Lead.stageId l) (stages st) = Some s
                 /\ Stage.orgId s = Lead.orgId l).

(** The emails of the registered users are pairwise distinct. *)
Definition unique_emails (st : Store) : Prop :=
  NoDup (map User.email (JsMap.values (users st))).

(** Every character of the string satisfies [p]. *)
Fixpoint all_chars (p : ascii -> bool) (s : string) : bool :=
  match s with
  | EmptyString => true
  | String c r => p c && all_chars p r
  end.

Definition is_hex (c : ascii) : bool :=
  let n := nat_of_ascii c in between 48 57 n || between 97 102 n.


(** What a request carries besides the session and the organization of
    the path: path parameters, query, body, and the values the handler
    draws. *)
Record Inputs := {
  in_id : string;                       (* :pipelineId, :stageId, :leadId, :keyId, :key *)
  in_other : string;                    (* :commentId, or the stageId of a move *)
  in_limit : option Z;
  in_value : Json;
  in_name : Result string;
  in_email : string;
  in_role : string;
  in_text : Routes.BodyField;
  in_body : Json;
  in_untyped : M Api.Answer;
  in_stageBody : Result (string * string * Z);
  in_leadBody : Result InsertLead.t;
  in_stageOrders : list (string * Z);
  in_direction : option string;
  in_apiKey : option Json;
  in_baseId : option Json;
  in_env : option string;
  in_randomBytes : list Byte.byte;
  in_uuid : string;
  in_now : Z;
  in_later : Z }.

(** The 27 routes under [/api/organizations/:organizationId], by what
    they check after the two guards. First the routes that read. *)
Definition read_routes (session : option string) (org : string) (x : Inputs)
  : list (M Api.Answer) :=
  [ Api.getOrganization session org;
    Api.listMembers session org;
    Api.getSettings session org;
    Api.getAuditLogs session org (in_limit x);
    Api.listPipelines session org;
    Api.getPipeline session org (in_id x);
    Api.getLead session org (in_id x) ].

(** The routes that check [["admin", "editor"].includes(role)] first. *)
Definition editor_routes (session : option string) (org : string)
    (x : Inputs) : list (M Api.Answer) :=
  [ Api.deleteApiKey session org (in_id x) (in_now x);
    Api.putPipeline session org (in_id x) (in_body x) (in_now x)
                    (in_untyped x);
    Api.deletePipeline session org (in_id x) (in_now x);
    Api.putStage session org (in_id x) (in_body x) (in_now x) (in_untyped x);
    Api.deleteStage session org (in_id x) (in_now x);
    Api.reorderStages session org (in_id x) (in_stageOrders x) (in_now x);
    Api.putLead session org (in_id x) (in_body x) (in_now x) (in_untyped x);
    Api.deleteLead session org (in_id x) (in_now x) ].

(** The routes that parse the body before they check the role. *)
Definition create_routes (session : option string) (org : string)
    (x : Inputs) : list (M Api.Answer) :=
  [ Api.createStage session org (in_stageBody x) (in_uuid x) (in_now x);
    Api.createLead session org (in_leadBody x) (in_uuid x) (in_now x) ].

(** The routes that check [role !== "admin"]. *)
Definition admin_routes (session : option string) (org : string)
    (x : Inputs) : list (M Api.Answer) :=
  [ Api.putSetting session org (in_id x) (in_value x) (in_now x);
    Api.airtableSync session org (in_direction x) (in_now x) ].

(** The routes that write and check no role. *)
Definition member_routes (session : option string) (org : string)
    (x : Inputs) : list (M Api.Answer) :=
  [ Api.deleteComment session org (in_id x) (in_other x) (in_now x);
    Api.airtableTest session org (in_apiKey x) (in_baseId x) (in_env x)
                     (in_now x) (in_later x) ].

Definition org_routes (session : option string) (org : string) (x : Inputs)
  : list (M Api.Answer) :=
  (read_routes session org x ++ editor_routes session org x
   ++ create_routes session org x ++ admin_routes session org x
   ++ member_routes session org x)%list.

(** The six routes of the organization that answer a [Response]: two that
    check the role first, two that parse first, and two that check no
    role. *)
Section MoreRoutes.
Variable sha256_hex : string -> string.
Variable is_uuid : string -> bool.
Variable zod_message : string -> string -> Routes.BodyField -> string -> string.
Variable session : option string.
Variable org : string.
Variable x : Inputs.

Definition gated_routes : list (M Response) :=
  [ Routes.inviteMember session org (in_email x) (in_role x) (in_now x);
    Routes.moveLead session org (in_id x) (in_other x) (in_now x) ].

Definition parsing_routes : list (M Response) :=
  [ Routes.createApiKey sha256_hex session org (in_name x)
                        (in_randomBytes x) (in_uuid x) (in_now x);
    Routes.createPipeline session org (in_name x) (in_uuid x) (in_now x) ].

Definition more_org_routes : list (M Response) :=
  (gated_routes ++ parsing_routes
   ++ [ Routes.listApiKeys session org;
        Routes.createComment is_uuid zod_message session org (in_id x)
                             (in_text x) (in_uuid x) (in_now x) ])%list.
End MoreRoutes.

(** [token] is an [@token] of [body], in the words of the specification:
    the body holds an [@] followed by the word characters [token], as many
    as follow it. *)
Definition word_ends (s : string) : Prop :=
  match s with
  | EmptyString => True
  | String c _ => is_word c = false
  end.

Definition at_token (body token : string) : Prop :=
  token <> "" /\ all_chars is_word token = true
  /\ exists pre post, body = pre ++ "@" ++ token ++ post /\ word_ends post.

(** The value of a column after an update with the fields of a body: the
    field of the body when it holds one of the column's type, else the old
    value. *)
Definition written (fields : list (string * Json)) (name : string)
    (old : string) : string :=
  match JsMap.get name fields with
  | Some (JStr s) => s
  | _ => old
  end.

Definition written_nullable (fields : list (string * Json)) (name : string)
    (old : option string) : option string :=
  match JsMap.get name fields with
  | Some (JStr s) => Some s
  | Some JNull => None
  | _ => old
  end.

Definition written_number (fields : list (string * Json)) (name : string)
    (old : Z) : Z :=
  match JsMap.get name fields with
  | Some (JNum n) => n
  | _ => old
  end.

(** The computation answers [a] and leaves the store as it is. *)
Definition answers_unchanged {A} (a : A) (st : Store) (m : M A) : Prop :=
  m st = (st, Ok a).

(** The audit log is the same in both stores. *)
Definition same_log (st st' : Store) : Prop := auditLogs st' = auditLogs st.

(* ================================================================== *)
(** * A sample store

    Two organizations: [o1] (owner Alice Smith, admin; Carol, viewer) with
    pipeline [p1], stages [s1], [s2], leads [l1], [l2] and a comment; and [o2]
    (owner Bob) with pipeline [p2], stage [s3], lead [l3], a comment, and a
    stage [s4] whose [pipelineId] was set to [p1]. *)

Definition sample_store : Store :=
  {| users :=
       [ ("u1", User.mk "u1" "alice@x.com" "h1" "Alice Smith" None None 1);
         ("u2", User.mk "u2" "bob@x.com" "h2" "Bob" None None 2);
         ("u3", User.mk "u3" "carol@x.com" "h3" "Carol" None None 3) ];
     organizations :=
       [ ("o1", Organization.mk "o1" "Alice Smith's Organization" "u1" None
                                None "free" None 1);
         ("o2", Organization.mk "o2" "Bob's Organization" "u2" None None
                                "free" None 2) ];
     orgMembers :=
       [ ("o1-u1", OrgMember.mk "o1" "u1" "admin" (Some "u1") 1 (Some 1) 1);
         ("o2-u2", OrgMember.mk "o2" "u2" "admin" (Some "u2") 2 (Some 2) 2);
         ("o1-u3", OrgMember.mk "o1" "u3" "viewer" (Some "u1") 3 (Some 3) 3) ];
     apiKeys :=
       [ ("k1", ApiKey.mk "k1" "o1" "CI" "hash" "sk_012345678********************"
                          None "u1" 4) ];
     settings := [];
     subscriptions :=
       [ ("o1", Subscription.mk "o1" "free" "active" None (JObj []) 1);
         ("o2", Subscription.mk "o2" "free" "active" None (JObj []) 2) ];
     auditLogs := [];
     pipelines :=
       [ ("p1", Pipeline.mk "p1" "o1" "Sales" 5);
         ("p2", Pipeline.mk "p2" "o2" "Hiring" 6) ];
     stages :=
       [ ("s1", Stage.mk "s1" "o1" "p1" "New" 0 7);
         ("s2", Stage.mk "s2" "o1" "p1" "Won" 1 8);
         ("s3", Stage.mk "s3" "o2" "p2" "Applied" 0 9);
         ("s4", Stage.mk "s4" "o2" "p1" "Stray" 1 10) ];
     leads :=
       [ ("l1", Lead.mk "l1" "o1" "s1" "Acme" None None None None 11 11);
         ("l2", Lead.mk "l2" "o1" "s2" "Globex" None None None None 12 12);
         ("l3", Lead.mk "l3" "o2" "s3" "Dana" None None None None 13 13) ];
     leadComments :=
       [ ("c1", LeadComment.mk "c1" "o1" "l1" "call back" "u1" None 14);
         ("c2", LeadComment.mk "c2" "o2" "l3" "strong" "u2" None 15) ] |}%Z.

(** The store after [signup("a@x.com", "pw", "Ann")] on an empty store, with
    user id [u1], organization id [o1] and a stand-in for [bcrypt.hash]. *)
Definition ann_storage : Routes.IStorage :=
  Routes.memStorage (fun password => "bcrypt:" ++ password) "u1" "o1" 1.

Definition ann_signup : Result InsertUser.t :=
  Ok (InsertUser.mk "a@x.com" "pw" "Ann").

Definition ann_store : Store :=
  exec (Routes.signup ann_storage ann_signup) empty_store.

(** A storage whose [createOrganization] rejects. *)
Definition failing_storage : Routes.IStorage :=
  {| Routes.getUserByEmail := Routes.getUserByEmail ann_storage;
     Routes.createUser := Routes.createUser ann_storage;
     Routes.createOrganization := fun _ _ => throw "connection lost";
     Routes.createAuditLog := Routes.createAuditLog ann_storage |}.

Definition ann_member : OrgMember.t :=
  OrgMember.mk "o1" "u1" "admin" (Some "u1") 1 (Some 1%Z) 1.

(** A stand-in for zod's check of a UUID: lower-case hex digits in groups
    of 8, 4, 4, 4 and 12. *)
Fixpoint hex_run (n : nat) (s : string) : option string :=
  match n, s with
  | O, _ => Some s
  | S n', String c r => if is_hex c then hex_run n' r else None
  | S _, EmptyString => None
  end.

Definition hex_group (n : nat) (s : option string) : option string :=
  match s with
  | Some s => hex_run n s
  | None => None
  end.

Definition dash (s : option string) : option string :=
  match s with
  | Some (String "-" r) => Some r
  | _ => None
  end.

Definition uuid_lowercase (s : string) : bool :=
  match hex_group 12 (dash (hex_group 4 (dash (hex_group 4 (dash
          (hex_group 4 (dash (hex_run 8 s)))))))) with
  | Some EmptyString => true
  | _ => false
  end.

(** A store whose ids are UUIDs, as [randomUUID] draws them: organization
    [team_id] with the members Alice Smith (admin) and Carol (viewer), and a
    lead [acme_id] in the one stage of the one pipeline. *)
Definition alice_id : string := "a11ce000-0000-4000-8000-000000000001".
Definition carol_id : string := "ca501000-0000-4000-8000-000000000003".
Definition team_id : string := "07a00000-0000-4000-8000-00000000000a".
Definition acme_id : string := "1ead0000-0000-4000-8000-00000000000b".
Definition note_id : string := "c0de0000-0000-4000-8000-00000000000c".
Definition sales_id : string := "5a1e5000-0000-4000-8000-00000000000d".
Definition new_id : string := "57a6e000-0000-4000-8000-00000000000e".

Definition uuid_store : Store :=
  {| users :=
       [ (alice_id, User.mk alice_id "alice@x.com" "h1" "Alice Smith" None
                            None 1);
         (carol_id, User.mk carol_id "carol@x.com" "h3" "Carol" None None 3) ];
     organizations :=
       [ (team_id, Organization.mk team_id "Alice Smith's Organization"
                                   alice_id None None "free" None 1) ];
     orgMembers :=
       [ (team_id ++ "-" ++ alice_id,
          OrgMember.mk team_id alice_id "admin" (Some alice_id) 1 (Some 1) 1);
         (team_id ++ "-" ++ carol_id,
          OrgMember.mk team_id carol_id "viewer" (Some alice_id) 3 (Some 3)
                       3) ];
     apiKeys := [];
     settings := [];
     subscriptions :=
       [ (team_id, Subscription.mk team_id "free" "active" None (JObj []) 1) ];
     auditLogs := [];
     pipelines := [ (sales_id, Pipeline.mk sales_id team_id "Sales" 5) ];
     stages := [ (new_id, Stage.mk new_id team_id sales_id "New" 0 7) ];
     leads :=
       [ (acme_id, Lead.mk acme_id team_id new_id "Acme" None None None None
                           11 11) ];
     leadComments := [] |}%Z.

(** A request with path parameter [p1], an empty body and nothing else. *)
Definition sample_request : Inputs :=
  {| in_id := "p1"; in_other := ""; in_limit := None; in_value := JNull;
     in_name := Throw "Required"; in_email := ""; in_role := "";
     in_text := Routes.Build_BodyField "undefined" false;
     in_body := JObj []; in_untyped := ret (Api.json Api.PSuccess);
     in_stageBody := Throw "Required"; in_leadBody := Throw "Required";
     in_stageOrders := []; in_direction := None; in_apiKey := None;
     in_baseId := None; in_env := None; in_randomBytes := [];
     in_uuid := note_id; in_now := 9; in_later := 10 |}.

(* ================================================================== *)
(** * Properties *)

Unset Implicit Arguments.

(* ------------------------------------------------------------------ *)
(** ** Lists, sorting *)

Lemma insert_sorted_perm (A : Type) (cmp : A -> A -> Z) (x : A) (l : list A) :
  Permutation (insert_sorted cmp x l) (x :: l).
Proof.
  induction l as [|y r IH]; simpl.
  - apply Permutation_refl.
  - destruct (cmp x y <=? 0)%Z.
    + apply Permutation_refl.
    + eapply perm_trans; [apply perm_skip, IH | apply perm_swap].
Qed.

Lemma sort_perm (A : Type) (cmp : A -> A -> Z) (l : list A) :
  Permutation (sort cmp l) l.
Proof.
  induction l as [|x r IH]; simpl.
  - apply perm_nil.
  - eapply perm_trans; [apply insert_sorted_perm | apply perm_skip, IH].
Qed.

Lemma sort_In (A : Type) (cmp : A -> A -> Z) (l : list A) (x : A) :
  In x (sort cmp l) <-> In x l.
Proof.
  split; apply Permutation_in;
    [apply sort_perm | apply Permutation_sym, sort_perm].
Qed.

Lemma sort_length (A : Type) (cmp : A -> A -> Z) (l : list A) :
  List.length (sort cmp l) = List.length l.
Proof. apply Permutation_length, sort_perm. Qed.

Lemma existsb_eqb_In (x : string) (l : list string) :
  existsb (String.eqb x) l = true <-> In x l.
Proof.
  rewrite existsb_exists. split.
  - intros (y & Hy & E). apply String.eqb_eq in E. now subst.
  - intros H. exists x. split; [assumption | apply String.eqb_refl].
Qed.

Lemma existsb_perm (A : Type) (f : A -> bool) (l l' : list A) :
  Permutation l l' -> existsb f l = existsb f l'.
Proof.
  intros HP. destruct (existsb f l') eqn:E'.
  - apply existsb_exists in E'. destruct E' as (y & Hy & Fy).
    apply existsb_exists. exists y. split; [|assumption].
    eapply Permutation_in; [apply Permutation_sym, HP | assumption].
  - destruct (existsb f l) eqn:E; [|reflexivity].
    apply existsb_exists in E. destruct E as (y & Hy & Fy).
    assert (existsb f l' = true) as C.
    { apply existsb_exists. exists y. split; [|assumption].
      eapply Permutation_in; eassumption. }
    congruence.
Qed.

Lemma filter_all (A : Type) (f : A -> bool) (l : list A) :
  (forall x, In x l -> f x = true) -> filter f l = l.
Proof.
  induction l as [|x r IH]; simpl; intros H; [reflexivity|].
  rewrite (H x (or_introl eq_refl)). f_equal. apply IH.
  intros y Hy. apply H. now right.
Qed.

Lemma filter_keep (A : Type) (l : list A) : filter keep l = l.
Proof. now apply filter_all. Qed.

Lemma filter_filter (A : Type) (f g : A -> bool) (l : list A) :
  filter f (filter g l) = filter (fun x => g x && f x) l.
Proof.
  induction l as [|x r IH]; simpl; [reflexivity|].
  destruct (g x); simpl; [destruct (f x)|]; now rewrite IH.
Qed.

Lemma NoDup_map_filter (A B : Type) (sel : A -> bool) (key : A -> B)
    (rows : list A) :
  NoDup (map key rows) -> NoDup (map key (filter sel rows)).
Proof.
  intros ND. induction rows as [|x r IH]; simpl in *; [constructor|].
  inversion ND as [|? ? Hx Hr]; subst.
  destruct (sel x); simpl; [|now apply IH].
  constructor; [|now apply IH].
  intros C. apply Hx. apply in_map_iff in C. destruct C as (y & E & Hy).
  apply in_map_iff. exists y. split; [assumption|].
  apply filter_In in Hy. tauto.
Qed.

(* ------------------------------------------------------------------ *)
(** ** [JsMap] *)

Section JsMapFacts.
Variable V : Type.
Implicit Types (m : JsMap.t V) (k : string) (v : V).

Lemma get_In m k v : JsMap.get k m = Some v -> In (k, v) m.
Proof.
  induction m as [|[k' v'] r IH]; simpl; [discriminate|].
  destruct (String.eqb k' k) eqn:E.
  - apply String.eqb_eq in E. intros [= ->]. subst. now left.
  - intros H. right. now apply IH.
Qed.

Lemma In_get m k v : JsMap.uniq m -> In (k, v) m -> JsMap.get k m = Some v.
Proof.
  unfold JsMap.uniq, JsMap.keys.
  induction m as [|[k' v'] r IH]; simpl; [contradiction|].
  intros HU [E | H]; inversion HU as [|? ? Hk Hr]; subst.
  - injection E as -> ->. now rewrite String.eqb_refl.
  - destruct (String.eqb k' k) eqn:E.
    + apply String.eqb_eq in E. subst. exfalso. apply Hk.
      apply in_map_iff. now exists (k, v).
    + now apply IH.
Qed.

Lemma get_None_In m k v : JsMap.get k m = None -> ~ In (k, v) m.
Proof.
  induction m as [|[k' v'] r IH]; simpl; [tauto|].
  destruct (String.eqb k' k) eqn:E; [discriminate|].
  intros H [C | C]; [|now apply IH].
  injection C as -> ->. now rewrite String.eqb_refl in E.
Qed.

Lemma get_set m k k' v :
  JsMap.get k' (JsMap.set k v m)
  = if String.eqb k k' then Some v else JsMap.get k' m.
Proof.
  induction m as [|[k0 v0] r IH]; simpl.
  - reflexivity.
  - destruct (String.eqb k0 k) eqn:E0; simpl.
    + apply String.eqb_eq in E0. subst k0.
      destruct (String.eqb k k'); reflexivity.
    + rewrite IH. destruct (String.eqb k k') eqn:E.
      * apply String.eqb_eq in E. subst k'. now rewrite E0.
      * reflexivity.
Qed.

Lemma get_delete_same m k : JsMap.get k (JsMap.delete k m) = None.
Proof.
  unfold JsMap.delete.
  induction m as [|[k0 v0] r IH]; simpl; [reflexivity|].
  destruct (String.eqb k0 k) eqn:E; simpl; [assumption|].
  now rewrite E.
Qed.

Lemma keys_set m k v :
  JsMap.keys (JsMap.set k v m)
  = if existsb (String.eqb k) (JsMap.keys m) then JsMap.keys m
    else (JsMap.keys m ++ [k])%list.
Proof.
  unfold JsMap.keys.
  induction m as [|[k0 v0] r IH]; simpl; [reflexivity|].
  rewrite (String.eqb_sym k k0).
  destruct (String.eqb k0 k) eqn:E; simpl.
  - apply String.eqb_eq in E. now subst.
  - rewrite IH. now destruct (existsb _ _).
Qed.

Lemma uniq_set m k v : JsMap.uniq m -> JsMap.uniq (JsMap.set k v m).
Proof.
  unfold JsMap.uniq. rewrite keys_set. intros HU.
  destruct (existsb (String.eqb k) (JsMap.keys m)) eqn:E; [assumption|].
  apply NoDup_app; [assumption | repeat constructor; simpl; tauto |].
  intros x Hx [<- | []].
  apply existsb_eqb_In in Hx. congruence.
Qed.

Lemma uniq_filter m (f : string * V -> bool) :
  JsMap.uniq m -> JsMap.uniq (filter f m).
Proof. apply NoDup_map_filter. Qed.

Lemma In_set m k v p :
  JsMap.uniq m ->
  In p (JsMap.set k v m) -> p = (k, v) \/ (In p m /\ fst p <> k).
Proof.
  unfold JsMap.uniq, JsMap.keys.
  induction m as [|[k0 v0] r IH]; simpl; intros HU.
  - intros [<- | []]. now left.
  - inversion HU as [|? ? Hk Hr]; subst.
    destruct (String.eqb k0 k) eqn:E.
    + apply String.eqb_eq in E. subst k0. intros [<- | H]; [now left|].
      right. split; [now right|].
      intros <-. apply Hk. apply in_map_iff. now exists p.
    + apply String.eqb_neq in E. intros [<- | H].
      * right. split; [now left | assumption].
      * destruct (IH Hr H) as [-> | [H1 H2]]; [now left|].
        right. split; [now right | assumption].
Qed.

End JsMapFacts.

(* ------------------------------------------------------------------ *)
(** ** The monad *)

Lemma forEach_app (A : Type) (l1 l2 : list A) (body : A -> M unit) (st : Store) :
  forEach (l1 ++ l2) body st
  = match forEach l1 body st with
    | (st', Ok _) => forEach l2 body st'
    | (st', Throw e) => (st', Throw e)
    end.
Proof.
  revert st. induction l1 as [|x r IH]; intros st; simpl.
  - reflexivity.
  - unfold bind. destruct (body x st) as [st1 [[]|e]]; [apply IH | reflexivity].
Qed.

Lemma prune_prune fp fs fl fc gp gs gl gc st :
  prune fp fs fl fc (prune gp gs gl gc st)
  = prune (fun x => gp x && fp x) (fun x => gs x && fs x)
          (fun x => gl x && fl x) (fun x => gc x && fc x) st.
Proof. unfold prune; simpl. now rewrite !filter_filter. Qed.

Lemma prune_ext fp fs fl fc gp gs gl gc st :
  (forall x, In x (pipelines st) -> fp x = gp x) ->
  (forall x, In x (stages st) -> fs x = gs x) ->
  (forall x, In x (leads st) -> fl x = gl x) ->
  (forall x, In x (leadComments st) -> fc x = gc x) ->
  prune fp fs fl fc st = prune gp gs gl gc st.
Proof.
  intros Hp Hs Hl Hc. unfold prune.
  now rewrite (filter_ext_in _ _ _ Hp), (filter_ext_in _ _ _ Hs),
              (filter_ext_in _ _ _ Hl), (filter_ext_in _ _ _ Hc).
Qed.

Lemma prune_keep st : prune keep keep keep keep st = st.
Proof.
  unfold prune. destruct st; simpl. now rewrite !filter_keep.
Qed.

(* ------------------------------------------------------------------ *)
(** ** Indexed maps *)

Section IndexedFacts.
Variable V : Type.
Variable key_of : V -> string.
Implicit Types (m : JsMap.t V).

Lemma indexed_filter m (f : string * V -> bool) :
  indexed key_of m -> indexed key_of (filter f m).
Proof.
  intros [HU HK]. split; [now apply uniq_filter|].
  intros k v H. apply filter_In in H. now apply HK.
Qed.

Lemma indexed_set m k v :
  indexed key_of m -> key_of v = k -> indexed key_of (JsMap.set k v m).
Proof.
  intros [HU HK] E. split; [now apply uniq_set|].
  intros k' v' H. apply In_set in H; [|assumption].
  destruct H as [[= -> ->] | [H _]]; [assumption | now apply HK].
Qed.

Lemma indexed_get m k v :
  indexed key_of m -> JsMap.get k m = Some v -> key_of v = k.
Proof. intros [_ HK] G. apply HK. now apply get_In. Qed.

Lemma values_In m v :
  keyed key_of m -> In v (JsMap.values m) -> In (key_of v, v) m.
Proof.
  intros HK H. apply in_map_iff in H. destruct H as ([k v'] & E & H).
  simpl in E. subst v'. now rewrite (HK _ _ H).
Qed.

Lemma values_filter m (g : V -> bool) :
  JsMap.values (filter (fun p => g (snd p)) m) = filter g (JsMap.values m).
Proof.
  unfold JsMap.values. induction m as [|[k v] r IH]; simpl; [reflexivity|].
  destruct (g v); simpl; now rewrite IH.
Qed.

Lemma indexed_ids_NoDup m (g : V -> bool) :
  indexed key_of m -> NoDup (map key_of (filter g (JsMap.values m))).
Proof.
  intros [HU HK]. apply NoDup_map_filter.
  unfold JsMap.uniq, JsMap.keys in HU. unfold JsMap.values.
  rewrite map_map.
  erewrite map_ext_in; [exact HU|].
  intros [k v] H. simpl. now apply HK.
Qed.

(** Membership of a key among the ids of the selected rows. *)
Lemma indexed_selected m (g : V -> bool) (p : string * V) :
  indexed key_of m -> In p m ->
  existsb (String.eqb (fst p)) (map key_of (filter g (JsMap.values m)))
  = g (snd p).
Proof.
  intros [HU HK] Hp. destruct p as [k v]. simpl.
  destruct (g v) eqn:G.
  - apply existsb_eqb_In. apply in_map_iff. exists v.
    split; [now apply HK|]. apply filter_In. split; [|assumption].
    apply in_map_iff. now exists (k, v).
  - destruct (existsb _ _) eqn:E; [|reflexivity].
    apply existsb_eqb_In in E. apply in_map_iff in E.
    destruct E as (v' & E & H). apply filter_In in H. destruct H as [H G'].
    apply values_In in H; [|assumption]. rewrite E in H.
    apply In_get in H; [|assumption]. apply In_get in Hp; [|assumption].
    congruence.
Qed.
End IndexedFacts.

Lemma existsb_ids_filter_or (A : Type) (f : string -> bool) (ident : A -> string)
    (a b : A -> bool) (l : list A) :
  existsb f (map ident (filter (fun x => a x || b x) l))
  = existsb f (map ident (filter a l)) || existsb f (map ident (filter b l)).
Proof.
  induction l as [|x r IH]; simpl; [reflexivity|].
  destruct (a x), (b x); simpl; rewrite IH;
    destruct (f (ident x)), (existsb f (map ident (filter a r))),
             (existsb f (map ident (filter b r))); reflexivity.
Qed.

(* ------------------------------------------------------------------ *)
(** ** The cascade of deletions in closed form *)

Lemma deleteLeadComment_prune (id orgId : string) (st : Store) :
  JsMap.uniq (leadComments st) ->
  MemStorage.deleteLeadComment id orgId st
  = (prune keep keep keep
       (fun p => negb (String.eqb (fst p) id
                       && String.eqb (LeadComment.orgId (snd p)) orgId)) st,
     Ok tt).
Proof.
  intros HU. unfold MemStorage.deleteLeadComment, bind, gets, modify, ret.
  destruct (JsMap.get id (leadComments st)) as [c|] eqn:G.
  - destruct (String.eqb (LeadComment.orgId c) orgId) eqn:E.
    + f_equal. unfold with_leadComments, prune, JsMap.delete.
      rewrite !filter_keep. f_equal.
      apply filter_ext_in. intros [k v] H. simpl.
      destruct (String.eqb k id) eqn:Ek; [|reflexivity].
      apply String.eqb_eq in Ek. subst k.
      apply In_get in H; [|assumption]. assert (v = c) by congruence. subst v.
      now rewrite E.
    + f_equal. rewrite <- (prune_keep st) at 1. apply prune_ext; try reflexivity.
      intros [k v] H. unfold keep. simpl.
      destruct (String.eqb k id) eqn:Ek; [|reflexivity].
      apply String.eqb_eq in Ek. subst k.
      apply In_get in H; [|assumption]. assert (v = c) by congruence. subst v.
      now rewrite E.
  - f_equal. rewrite <- (prune_keep st) at 1. apply prune_ext; try reflexivity.
    intros [k v] H. unfold keep. simpl.
    destruct (String.eqb k id) eqn:Ek; [|reflexivity].
    apply String.eqb_eq in Ek. subst k.
    exfalso. eapply get_None_In; eassumption.
Qed.

Lemma getLead_found (id orgId : string) (st : Store) (l : Lead.t) :
  JsMap.get id (leads st) = Some l -> Lead.orgId l = orgId ->
  MemStorage.getLead id orgId st = (st, Ok (Some l)).
Proof.
  intros G E. unfold MemStorage.getLead, gets. rewrite G.
  subst orgId. now rewrite String.eqb_refl.
Qed.

Lemma getStage_found (id orgId : string) (st : Store) (s : Stage.t) :
  JsMap.get id (stages st) = Some s -> Stage.orgId s = orgId ->
  MemStorage.getStage id orgId st = (st, Ok (Some s)).
Proof.
  intros G E. unfold MemStorage.getStage, gets. rewrite G.
  subst orgId. now rewrite String.eqb_refl.
Qed.

Lemma getPipeline_found (id orgId : string) (st : Store) (p : Pipeline.t) :
  JsMap.get id (pipelines st) = Some p -> Pipeline.orgId p = orgId ->
  MemStorage.getPipeline id orgId st = (st, Ok (Some p)).
Proof.
  intros G E. unfold MemStorage.getPipeline, gets. rewrite G.
  subst orgId. now rewrite String.eqb_refl.
Qed.

Lemma with_leads_prune f st :
  with_leads (filter f) st = prune keep keep f keep st.
Proof. unfold with_leads, prune. now rewrite !filter_keep. Qed.

Lemma with_stages_prune f st :
  with_stages (filter f) st = prune keep f keep keep st.
Proof. unfold with_stages, prune. now rewrite !filter_keep. Qed.

Lemma with_pipelines_prune f st :
  with_pipelines (filter f) st = prune f keep keep keep st.
Proof. unfold with_pipelines, prune. now rewrite !filter_keep. Qed.

(** The loop of [deleteLead] over the comments of one lead. *)
Lemma deleteComments_loop (orgId : string) (cs : list CommentWithUser) :
  forall st, JsMap.uniq (leadComments st) ->
  forEach cs
    (fun c => MemStorage.deleteLeadComment (LeadComment.id (comment c)) orgId)
    st
  = (prune keep keep keep
       (fun p => negb (existsb (String.eqb (fst p))
                               (map (fun c => LeadComment.id (comment c)) cs)
                       && String.eqb (LeadComment.orgId (snd p)) orgId)) st,
     Ok tt).
Proof.
  induction cs as [|c r IH]; intros st HU; simpl.
  - now rewrite <- (prune_keep st) at 1.
  - unfold bind. rewrite deleteLeadComment_prune by assumption.
    rewrite IH by (now apply uniq_filter).
    rewrite prune_prune. f_equal. apply prune_ext; try reflexivity.
    intros [k v] _. simpl.
    destruct (String.eqb k (LeadComment.id (comment c))),
             (existsb _ _), (String.eqb (LeadComment.orgId v) orgId);
      reflexivity.
Qed.

Lemma deleteLead_found (id orgId : string) (st : Store) (l : Lead.t) :
  indexed LeadComment.id (leadComments st) ->
  JsMap.get id (leads st) = Some l -> Lead.orgId l = orgId ->
  MemStorage.deleteLead id orgId st
  = (prune keep keep (fun p => negb (String.eqb (fst p) id))
       (fun p => negb (String.eqb (LeadComment.orgId (snd p)) orgId
                       && String.eqb (LeadComment.leadId (snd p)) id)) st,
     Ok tt).
Proof.
  intros HC G E. unfold MemStorage.deleteLead.
  unfold bind at 1. rewrite (getLead_found id orgId st l G E).
  unfold bind at 1. unfold MemStorage.getLeadComments at 1, gets at 1.
  unfold bind at 1. rewrite deleteComments_loop by apply HC.
  unfold modify. f_equal.
  unfold JsMap.delete. rewrite with_leads_prune.
  rewrite prune_prune. apply prune_ext; try reflexivity.
  intros [k c] H. simpl.
  rewrite map_map.
  rewrite (map_ext _ LeadComment.id)
    by (intros x; now destruct (JsMap.get _ (users st))).
  rewrite (existsb_perm _ _ _ _
             (Permutation_map LeadComment.id (sort_perm _ _ _))).
  rewrite (indexed_selected _ LeadComment.id _ _ (k, c) HC H). simpl.
  unfold keep.
  destruct (String.eqb (LeadComment.leadId c) id),
           (String.eqb (LeadComment.orgId c) orgId); reflexivity.
Qed.

(** The loop of [deleteStage] over the leads of one stage. *)
Lemma deleteLeads_loop (orgId : string) (ls : list Lead.t) :
  forall st,
  JsMap.uniq (leads st) -> indexed LeadComment.id (leadComments st) ->
  NoDup (map Lead.id ls) ->
  (forall l, In l ls -> In (Lead.id l, l) (leads st) /\ Lead.orgId l = orgId) ->
  forEach ls (fun lead => MemStorage.deleteLead (Lead.id lead) orgId) st
  = (prune keep keep
       (fun p => negb (existsb (String.eqb (fst p)) (map Lead.id ls)))
       (fun p => negb (comment_in (map Lead.id ls) orgId (snd p))) st,
     Ok tt).
Proof.
  induction ls as [|l r IH]; intros st HL HC ND Hin; simpl.
  - unfold ret. f_equal.
    rewrite <- (prune_keep st) at 1. apply prune_ext; try reflexivity.
    intros [k c] _. unfold comment_in, keep. simpl.
    now rewrite andb_false_r.
  - destruct (Hin l (or_introl eq_refl)) as [Hl El].
    inversion ND as [|? ? Hnotin ND']; subst.
    unfold bind.
    rewrite (deleteLead_found (Lead.id l) (Lead.orgId l) st l HC
               (In_get _ _ _ _ HL Hl) eq_refl).
    rewrite IH.
    + rewrite prune_prune. f_equal. apply prune_ext; try reflexivity.
      * intros [k v] _. simpl. rewrite negb_orb. reflexivity.
      * intros [k c] _. unfold comment_in. simpl.
        destruct (String.eqb (LeadComment.orgId c) (Lead.orgId l)),
                 (String.eqb (LeadComment.leadId c) (Lead.id l)),
                 (existsb _ _); reflexivity.
    + simpl. now apply uniq_filter.
    + simpl. now apply indexed_filter.
    + assumption.
    + intros l' Hl'. destruct (Hin l' (or_intror Hl')) as [H1 H2].
      split; [|assumption]. simpl. apply filter_In. split; [assumption|].
      simpl. apply negb_true_iff. apply String.eqb_neq. intros C.
      apply Hnotin. rewrite <- C. now apply in_map.
Qed.

Lemma lead_in_single (id orgId : string) (l : Lead.t) :
  String.eqb (Lead.stageId l) id && String.eqb (Lead.orgId l) orgId
  = lead_in [id] orgId l.
Proof.
  unfold lead_in. simpl.
  destruct (String.eqb (Lead.stageId l) id), (String.eqb (Lead.orgId l) orgId);
    reflexivity.
Qed.

Lemma lead_in_perm (ids ids' : list string) (orgId : string) (l : Lead.t) :
  Permutation ids ids' -> lead_in ids orgId l = lead_in ids' orgId l.
Proof.
  intros HP. unfold lead_in. now rewrite (existsb_perm _ _ _ _ HP).
Qed.

Lemma comment_in_perm (ids ids' : list string) (orgId : string)
    (c : LeadComment.t) :
  Permutation ids ids' -> comment_in ids orgId c = comment_in ids' orgId c.
Proof.
  intros HP. unfold comment_in. now rewrite (existsb_perm _ _ _ _ HP).
Qed.

Lemma deleteStage_found (id orgId : string) (st : Store) (s : Stage.t) :
  indexed Lead.id (leads st) -> indexed LeadComment.id (leadComments st) ->
  JsMap.get id (stages st) = Some s -> Stage.orgId s = orgId ->
  MemStorage.deleteStage id orgId st
  = (prune keep (fun p => negb (String.eqb (fst p) id))
       (fun p => negb (lead_in [id] orgId (snd p)))
       (fun p => negb (comment_in (lead_ids [id] orgId st) orgId (snd p))) st,
     Ok tt).
Proof.
  intros HL HC G E. unfold MemStorage.deleteStage.
  unfold bind at 1. rewrite (getStage_found id orgId st s G E).
  unfold bind at 1. unfold MemStorage.getLeads at 1, gets at 1.
  unfold bind at 1.
  set (sel := fun l => String.eqb (Lead.stageId l) id
                       && String.eqb (Lead.orgId l) orgId).
  set (cmp := fun a b => (Lead.updatedAt b - Lead.updatedAt a)%Z).
  assert (Permutation (map Lead.id (sort cmp (filter sel (JsMap.values (leads st)))))
                      (lead_ids [id] orgId st)) as HP.
  { unfold lead_ids.
    rewrite (filter_ext sel (lead_in [id] orgId))
      by (intros l; apply lead_in_single).
    apply Permutation_map, sort_perm. }
  rewrite deleteLeads_loop.
  - unfold modify, JsMap.delete. rewrite with_stages_prune, prune_prune.
    f_equal. apply prune_ext; try reflexivity.
    + intros [k l] H. simpl. unfold keep. rewrite andb_true_r. f_equal.
      rewrite (existsb_perm _ _ _ _ (Permutation_map Lead.id (sort_perm _ cmp _))).
      pose proof (indexed_selected _ Lead.id _ sel (k, l) HL H) as X.
      simpl in X. rewrite X. apply lead_in_single.
    + intros [k c] _. simpl. unfold keep. rewrite andb_true_r. f_equal.
      now apply comment_in_perm.
  - apply HL.
  - assumption.
  - apply (Permutation_NoDup (Permutation_sym
             (Permutation_map Lead.id (sort_perm _ cmp _)))).
    now apply indexed_ids_NoDup.
  - intros l Hl. apply sort_In in Hl. apply filter_In in Hl.
    destruct Hl as [Hl Hs]. split.
    + apply values_In; [apply HL | assumption].
    + unfold sel in Hs. apply andb_true_iff in Hs.
      now apply String.eqb_eq.
Qed.

Lemma lead_ids_pruned (ids : list string) (orgId id : string) (st : Store)
    fp fs fc :
  ~ In id ids ->
  lead_ids ids orgId
    (prune fp fs (fun p => negb (lead_in [id] orgId (snd p))) fc st)
  = lead_ids ids orgId st.
Proof.
  intros Hn. unfold lead_ids. simpl.
  rewrite (values_filter _ _ (fun l => negb (lead_in [id] orgId l))).
  rewrite filter_filter. f_equal. apply filter_ext. intros l.
  unfold lead_in. simpl.
  destruct (String.eqb (Lead.orgId l) orgId); simpl; [|reflexivity].
  destruct (String.eqb (Lead.stageId l) id) eqn:E; simpl; [|reflexivity].
  apply String.eqb_eq in E.
  destruct (existsb _ ids) eqn:X; [|reflexivity].
  apply existsb_eqb_In in X. congruence.
Qed.

Lemma comment_in_lead_ids_cons (id : string) (ids : list string)
    (orgId : string) (st : Store) (c : LeadComment.t) :
  comment_in (lead_ids (id :: ids) orgId st) orgId c
  = comment_in (lead_ids [id] orgId st) orgId c
    || comment_in (lead_ids ids orgId st) orgId c.
Proof.
  unfold comment_in, lead_ids.
  rewrite (filter_ext (lead_in (id :: ids) orgId)
             (fun l => lead_in [id] orgId l || lead_in ids orgId l)).
  - rewrite existsb_ids_filter_or.
    destruct (String.eqb (LeadComment.orgId c) orgId); reflexivity.
  - intros l. unfold lead_in. simpl.
    destruct (String.eqb (Lead.orgId l) orgId),
             (String.eqb (Lead.stageId l) id), (existsb _ ids); reflexivity.
Qed.

(** The loop of [deletePipeline] over the stages of the pipeline. *)
Lemma deleteStages_loop (orgId : string) (ss : list Stage.t) :
  forall st,
  JsMap.uniq (stages st) -> indexed Lead.id (leads st) ->
  indexed LeadComment.id (leadComments st) ->
  NoDup (map Stage.id ss) ->
  (forall s, In s ss -> In (Stage.id s, s) (stages st) /\ Stage.orgId s = orgId) ->
  forEach ss (fun stage => MemStorage.deleteStage (Stage.id stage) orgId) st
  = (prune keep
       (fun p => negb (existsb (String.eqb (fst p)) (map Stage.id ss)))
       (fun p => negb (lead_in (map Stage.id ss) orgId (snd p)))
       (fun p => negb (comment_in (lead_ids (map Stage.id ss) orgId st)
                                  orgId (snd p))) st,
     Ok tt).
Proof.
  induction ss as [|s r IH]; intros st HS HL HC ND Hin; simpl.
  - unfold ret. f_equal.
    rewrite <- (prune_keep st) at 1. apply prune_ext; try reflexivity.
    + intros [k l] _. unfold lead_in, keep. simpl. now rewrite andb_false_r.
    + intros [k c] _. unfold comment_in, lead_ids, lead_in, keep. simpl.
      rewrite (filter_ext _ (fun _ => false))
        by (intros l; apply andb_false_r).
      replace (filter (fun _ => false) (JsMap.values (leads st)))
        with (@nil Lead.t).
      * simpl. now rewrite andb_false_r.
      * induction (JsMap.values (leads st)); simpl; auto.
  - destruct (Hin s (or_introl eq_refl)) as [Hs Es].
    inversion ND as [|? ? Hnotin ND']; subst.
    unfold bind.
    rewrite (deleteStage_found (Stage.id s) (Stage.orgId s) st s HL HC
               (In_get _ _ _ _ HS Hs) eq_refl).
    rewrite IH.
    + rewrite prune_prune. f_equal. rewrite lead_ids_pruned by assumption.
      apply prune_ext; try reflexivity.
      * intros [k v] _. simpl. now rewrite negb_orb.
      * intros [k l] _. unfold lead_in. simpl.
        destruct (String.eqb (Lead.orgId l) (Stage.orgId s)),
                 (String.eqb (Lead.stageId l) (Stage.id s)), (existsb _ _);
          reflexivity.
      * intros [k c] _. simpl.
        rewrite (comment_in_lead_ids_cons (Stage.id s) (map Stage.id r)).
        now rewrite negb_orb.
    + simpl. now apply uniq_filter.
    + simpl. now apply indexed_filter.
    + simpl. now apply indexed_filter.
    + assumption.
    + intros s' Hs'. destruct (Hin s' (or_intror Hs')) as [H1 H2].
      split; [|assumption]. simpl. apply filter_In. split; [assumption|].
      simpl. apply negb_true_iff. apply String.eqb_neq. intros C.
      apply Hnotin. rewrite <- C. now apply in_map.
Qed.

Lemma deletePipeline_found (id orgId : string) (st : Store) (p : Pipeline.t) :
  wf_tree st ->
  JsMap.get id (pipelines st) = Some p -> Pipeline.orgId p = orgId ->
  MemStorage.deletePipeline id orgId st = (cascade id orgId st, Ok tt).
Proof.
  intros (HS & HL & HC) G E. unfold MemStorage.deletePipeline.
  unfold bind at 1. rewrite (getPipeline_found id orgId st p G E).
  unfold bind at 1. unfold MemStorage.getStages at 1, gets at 1.
  unfold bind at 1.
  set (cmp := fun a b => (Stage.order a - Stage.order b)%Z).
  fold (stage_in id orgId).
  assert (Permutation
            (map Stage.id (sort cmp (filter (stage_in id orgId)
                                            (JsMap.values (stages st)))))
            (stage_ids id orgId st)) as HP
    by (apply Permutation_map, sort_perm).
  rewrite deleteStages_loop.
  - unfold modify, JsMap.delete, cascade.
    rewrite with_pipelines_prune, prune_prune.
    f_equal. apply prune_ext; try reflexivity.
    + intros [k s] H. simpl. unfold keep. rewrite andb_true_r. f_equal.
      rewrite (existsb_perm _ _ _ _ HP).
      apply (indexed_selected _ Stage.id _ (stage_in id orgId) (k, s) HS H).
    + intros [k l] _. simpl. unfold keep. rewrite andb_true_r. f_equal.
      now apply lead_in_perm.
    + intros [k c] _. simpl. unfold keep. rewrite andb_true_r. f_equal.
      unfold lead_ids.
      rewrite (filter_ext _ _ (fun l => lead_in_perm _ _ orgId l HP)).
      reflexivity.
  - apply HS.
  - assumption.
  - assumption.
  - apply (Permutation_NoDup (Permutation_sym
             (Permutation_map Stage.id (sort_perm _ cmp _)))).
    now apply indexed_ids_NoDup.
  - intros s Hs. apply sort_In in Hs. apply filter_In in Hs.
    destruct Hs as [Hs Hsel]. split.
    + apply values_In; [apply HS | assumption].
    + unfold stage_in in Hsel. apply andb_true_iff in Hsel.
      now apply String.eqb_eq.
Qed.

Lemma In_values_filter (V : Type) (f : string * V -> bool) (m : JsMap.t V)
    (v : V) :
  In v (JsMap.values (filter f m)) ->
  exists k, In (k, v) m /\ f (k, v) = true.
Proof.
  intros H. apply in_map_iff in H. destruct H as ([k v'] & E & H).
  simpl in E. subst v'. apply filter_In in H. now exists k.
Qed.

Lemma sample_store_wf_tree : wf_tree sample_store.
Proof.
  unfold wf_tree, indexed, keyed, JsMap.uniq. simpl.
  repeat split;
    try (repeat constructor; simpl; intuition discriminate);
    intros k v H; repeat (destruct H as [[= <- <-] | H]; [reflexivity|]);
    contradiction.
Qed.

(* ------------------------------------------------------------------ *)
(** ** Cascading delete *)

(** C1, as amended. When pipeline [P] exists under organization [O] and rows
    are stored under their own ids, [deletePipeline(P, O)] returns normally,
    removes the pipeline record, every stage of [O] whose [pipelineId] is
    [P], every lead of [O] in one of those stages and every comment of [O] on
    one of those leads; none of them remains in the store. *)
Theorem deletePipeline_cascades (st : Store) (P O : string) (p : Pipeline.t) :
  wf_tree st ->
  JsMap.get P (pipelines st) = Some p -> Pipeline.orgId p = O ->
  let st' := cascade P O st in
  MemStorage.deletePipeline P O st = (st', Ok tt)
  /\ JsMap.get P (pipelines st') = None
  /\ (forall s, In s (JsMap.values (stages st')) ->
        ~ (Stage.pipelineId s = P /\ Stage.orgId s = O))
  /\ (forall l s, In l (JsMap.values (leads st')) ->
        In s (JsMap.values (stages st)) ->
        Stage.pipelineId s = P -> Stage.orgId s = O ->
        ~ (Lead.stageId l = Stage.id s /\ Lead.orgId l = O))
  /\ (forall c l s, In c (JsMap.values (leadComments st')) ->
        In l (JsMap.values (leads st)) -> In s (JsMap.values (stages st)) ->
        Stage.pipelineId s = P -> Stage.orgId s = O ->
        Lead.stageId l = Stage.id s -> Lead.orgId l = O ->
        ~ (LeadComment.leadId c = Lead.id l /\ LeadComment.orgId c = O)).
Proof.
  intros WF G E st'.
  assert (forall s, In s (JsMap.values (stages st)) ->
            Stage.pipelineId s = P -> Stage.orgId s = O ->
            In (Stage.id s) (stage_ids P O st)) as Hsid.
  { intros s Hs E1 E2. unfold stage_ids. apply in_map. apply filter_In.
    split; [assumption|]. unfold stage_in.
    rewrite E1, E2, !String.eqb_refl. reflexivity. }
  assert (forall l s, In l (JsMap.values (leads st)) ->
            In s (JsMap.values (stages st)) ->
            Stage.pipelineId s = P -> Stage.orgId s = O ->
            Lead.stageId l = Stage.id s -> Lead.orgId l = O ->
            lead_in (stage_ids P O st) O l = true) as Hlin.
  { intros l s _ Hs E1 E2 E3 E4. unfold lead_in.
    rewrite E4, String.eqb_refl. simpl. apply existsb_eqb_In.
    rewrite E3. now apply Hsid. }
  split; [now apply (deletePipeline_found P O st p)|].
  split; [apply get_delete_same|].
  split; [|split].
  - intros s Hs [E1 E2]. apply In_values_filter in Hs.
    destruct Hs as (k & _ & F). simpl in F. unfold stage_in in F.
    rewrite E1, E2, !String.eqb_refl in F. discriminate.
  - intros l s Hl Hs E1 E2 [E3 E4]. apply In_values_filter in Hl.
    destruct Hl as (k & Hl & F). simpl in F.
    rewrite (Hlin l s) in F; try assumption; [discriminate|].
    apply in_map_iff. now exists (k, l).
  - intros c l s Hc Hl Hs E1 E2 E3 E4 [E5 E6]. apply In_values_filter in Hc.
    destruct Hc as (k & _ & F). simpl in F. unfold comment_in in F.
    rewrite E6, String.eqb_refl in F. simpl in F.
    apply negb_true_iff in F.
    assert (existsb (String.eqb (LeadComment.leadId c))
              (lead_ids (stage_ids P O st) O st) = true) as X; [|congruence].
    apply existsb_eqb_In. rewrite E5. unfold lead_ids. apply in_map.
    apply filter_In. split; [assumption|]. now apply (Hlin l s).
Qed.

Lemma deletePipeline_cascades_witness :
  MemStorage.deletePipeline "p1" "o1" sample_store
  = (cascade "p1" "o1" sample_store, Ok tt)
  /\ JsMap.keys (stages (cascade "p1" "o1" sample_store)) = ["s3"; "s4"]
  /\ JsMap.keys (leads (cascade "p1" "o1" sample_store)) = ["l3"]
  /\ JsMap.keys (leadComments (cascade "p1" "o1" sample_store)) = ["c2"].
Proof.
  split; [|repeat split; reflexivity].
  apply (proj1 (deletePipeline_cascades sample_store "p1" "o1"
                  (Pipeline.mk "p1" "o1" "Sales" 5)
                  sample_store_wf_tree eq_refl eq_refl)).
Defined.

(** C1 as stated fails: called under another organization the method removes
    nothing, and called under the owner it leaves a stage of the pipeline
    that carries another organization id. *)
Lemma deletePipeline_leaves_foreign_rows :
  (MemStorage.deletePipeline "p1" "o2" sample_store = (sample_store, Ok tt)
   /\ exists s, In s (JsMap.values (stages sample_store))
                /\ Stage.pipelineId s = "p1")
  /\ (JsMap.get "p1"
        (pipelines (exec (MemStorage.deletePipeline "p1" "o1") sample_store))
      = None
      /\ exists s,
           In s (JsMap.values
                   (stages (exec (MemStorage.deletePipeline "p1" "o1")
                                 sample_store)))
           /\ Stage.pipelineId s = "p1").
Proof.
  split; split.
  - reflexivity.
  - exists (Stage.mk "s1" "o1" "p1" "New" 0 7). simpl. auto.
  - reflexivity.
  - exists (Stage.mk "s4" "o2" "p1" "Stray" 1 10). simpl. auto.
Qed.

(* ------------------------------------------------------------------ *)
(** ** Deleting what is not there *)

(** C10. A delete of an id that is absent, or whose row belongs to another
    organization, returns normally and leaves the whole store as it was. *)
Theorem delete_not_owned_is_noop (st : Store) (id orgId : string) :
  (not_owned Pipeline.orgId id orgId (pipelines st) ->
   MemStorage.deletePipeline id orgId st = (st, Ok tt))
  /\ (not_owned Stage.orgId id orgId (stages st) ->
      MemStorage.deleteStage id orgId st = (st, Ok tt))
  /\ (not_owned Lead.orgId id orgId (leads st) ->
      MemStorage.deleteLead id orgId st = (st, Ok tt))
  /\ (not_owned ApiKey.orgId id orgId (apiKeys st) ->
      MemStorage.deleteApiKey id orgId st = (st, Ok tt))
  /\ (not_owned LeadComment.orgId id orgId (leadComments st) ->
      MemStorage.deleteLeadComment id orgId st = (st, Ok tt)).
Proof.
  unfold not_owned.
  refine (conj _ (conj _ (conj _ (conj _ _)))); intros H.
  - unfold MemStorage.deletePipeline, MemStorage.getPipeline, bind, gets, ret.
    destruct (JsMap.get id (pipelines st)) as [p|]; [|reflexivity].
    apply String.eqb_neq in H. now rewrite H.
  - unfold MemStorage.deleteStage, MemStorage.getStage, bind, gets, ret.
    destruct (JsMap.get id (stages st)) as [s|]; [|reflexivity].
    apply String.eqb_neq in H. now rewrite H.
  - unfold MemStorage.deleteLead, MemStorage.getLead, bind, gets, ret.
    destruct (JsMap.get id (leads st)) as [l|]; [|reflexivity].
    apply String.eqb_neq in H. now rewrite H.
  - unfold MemStorage.deleteApiKey, bind, gets, ret.
    destruct (JsMap.get id (apiKeys st)) as [k|]; [|reflexivity].
    apply String.eqb_neq in H. now rewrite H.
  - unfold MemStorage.deleteLeadComment, bind, gets, ret.
    destruct (JsMap.get id (leadComments st)) as [c|]; [|reflexivity].
    apply String.eqb_neq in H. now rewrite H.
Qed.

Lemma delete_not_owned_is_noop_witness :
  MemStorage.deletePipeline "p1" "o2" sample_store = (sample_store, Ok tt)
  /\ MemStorage.deleteStage "s1" "o2" sample_store = (sample_store, Ok tt)
  /\ MemStorage.deleteLead "nope" "o1" sample_store = (sample_store, Ok tt)
  /\ MemStorage.deleteApiKey "k1" "o2" sample_store = (sample_store, Ok tt)
  /\ MemStorage.deleteLeadComment "c1" "o2" sample_store
     = (sample_store, Ok tt).
Proof.
  refine (conj _ (conj _ (conj _ (conj _ _)))).
  - apply (proj1 (delete_not_owned_is_noop sample_store "p1" "o2")).
    unfold not_owned; simpl; discriminate.
  - apply (proj1 (proj2 (delete_not_owned_is_noop sample_store "s1" "o2"))).
    unfold not_owned; simpl; discriminate.
  - apply (proj1 (proj2 (proj2
             (delete_not_owned_is_noop sample_store "nope" "o1")))).
    unfold not_owned; simpl; exact I.
  - apply (proj1 (proj2 (proj2 (proj2
             (delete_not_owned_is_noop sample_store "k1" "o2"))))).
    unfold not_owned; simpl; discriminate.
  - apply (proj2 (proj2 (proj2 (proj2
             (delete_not_owned_is_noop sample_store "c1" "o2"))))).
    unfold not_owned; simpl; discriminate.
Defined.

(* ------------------------------------------------------------------ *)
(** ** Reordering stages *)

Lemma updateStage_order_found (id orgId : string) (o : Z) (st : Store)
    (s : Stage.t) :
  JsMap.get id (stages st) = Some s -> Stage.orgId s = orgId ->
  MemStorage.updateStage id orgId (Stage.only_order o) st
  = (with_stages (JsMap.set id (with_order o s)) st, Ok (with_order o s)).
Proof.
  intros G E. unfold MemStorage.updateStage.
  unfold bind at 1. now rewrite (getStage_found id orgId st s G E).
Qed.

Lemma updateStage_not_owned (id orgId : string) (u : Stage.partial)
    (st : Store) :
  not_owned Stage.orgId id orgId (stages st) ->
  MemStorage.updateStage id orgId u st = (st, Throw "Stage not found").
Proof.
  unfold not_owned, MemStorage.updateStage, MemStorage.getStage, bind, gets.
  destruct (JsMap.get id (stages st)) as [s|]; [|reflexivity].
  intros H. apply String.eqb_neq in H. now rewrite H.
Qed.

Lemma final_order_snoc (l : list (string * Z)) (x : string * Z) (id : string) :
  final_order (l ++ [x]) id
  = if String.eqb (fst x) id then Some (snd x) else final_order l id.
Proof.
  unfold final_order. rewrite rev_app_distr. simpl. now destruct x.
Qed.

(** A list of entries that all resolve is applied in full, left to right. *)
Lemma reorderStages_applies (pipelineId orgId : string)
    (entries : list (string * Z)) (st : Store) :
  (forall so, In so entries ->
     exists s, JsMap.get (fst so) (stages st) = Some s
               /\ Stage.orgId s = orgId) ->
  exists st',
    MemStorage.reorderStages pipelineId orgId entries st = (st', Ok tt)
    /\ st' = with_stages (fun _ => stages st') st
    /\ forall id,
         JsMap.get id (stages st')
         = match final_order entries id with
           | Some o => option_map (with_order o) (JsMap.get id (stages st))
           | None => JsMap.get id (stages st)
           end.
Proof.
  unfold MemStorage.reorderStages.
  induction entries as [|x d IH] using rev_ind; intros Hres.
  - exists st. split; [reflexivity|]. split; [now destruct st | reflexivity].
  - destruct IH as (st1 & Hrun & Hframe & Hget).
    { intros so Hso. apply Hres. apply in_or_app. now left. }
    destruct (Hres x) as (s & Gs & Es).
    { apply in_or_app. right. now left. }
    assert (exists s1, JsMap.get (fst x) (stages st1) = Some s1
                       /\ Stage.orgId s1 = orgId
                       /\ with_order (snd x) s1 = with_order (snd x) s)
      as (s1 & G1 & E1 & W1).
    { rewrite Hget, Gs. destruct (final_order d (fst x)); simpl.
      - eexists. split; [reflexivity|]. split; [exact Es | reflexivity].
      - exists s. auto. }
    exists (with_stages (JsMap.set (fst x) (with_order (snd x) s1)) st1).
    split; [|split].
    + rewrite forEach_app, Hrun. simpl. unfold bind.
      now rewrite (updateStage_order_found (fst x) orgId (snd x) st1 s1 G1 E1).
    + rewrite Hframe. reflexivity.
    + intros id. simpl. rewrite get_set, final_order_snoc, Hget.
      destruct (String.eqb (fst x) id) eqn:E.
      * apply String.eqb_eq in E. subst id. rewrite Gs. simpl. now rewrite W1.
      * reflexivity.
Qed.

(** C9. [reorderStages] applies its entries one after the other; at the
    first entry whose id does not resolve to a stage of the organization it
    throws 'Stage not found', and the store then holds the new order of every
    entry before it: each stage named before the failing entry has the
    [order] that the last such entry gives it and its other fields as they
    were, and every other stage is as it was. *)
Theorem reorderStages_not_atomic (st : Store) (pipelineId orgId : string)
    (done : list (string * Z)) (bad : string * Z) (rest : list (string * Z)) :
  (forall so, In so done ->
     exists s, JsMap.get (fst so) (stages st) = Some s
               /\ Stage.orgId s = orgId) ->
  not_owned Stage.orgId (fst bad) orgId (stages st) ->
  exists st',
    MemStorage.reorderStages pipelineId orgId (done ++ bad :: rest) st
    = (st', Throw "Stage not found")
    /\ MemStorage.reorderStages pipelineId orgId done st = (st', Ok tt)
    /\ forall id,
         JsMap.get id (stages st')
         = match final_order done id with
           | Some o =>
               option_map
                 (fun s => Stage.mk (Stage.id s) (Stage.orgId s)
                                    (Stage.pipelineId s) (Stage.name s) o
                                    (Stage.createdAt s))
                 (JsMap.get id (stages st))
           | None => JsMap.get id (stages st)
           end.
Proof.
  intros Hres Hbad.
  destruct (reorderStages_applies pipelineId orgId done st Hres)
    as (st' & Hrun & _ & Hget).
  exists st'. split; [|split; [assumption | exact Hget]].
  unfold MemStorage.reorderStages in *.
  rewrite forEach_app, Hrun. simpl. unfold bind.
  rewrite updateStage_not_owned; [reflexivity|].
  unfold not_owned in *. rewrite Hget.
  destruct (final_order done (fst bad)); [|assumption].
  destruct (JsMap.get (fst bad) (stages st)); simpl; assumption.
Qed.

Lemma reorderStages_not_atomic_witness :
  exists st',
    MemStorage.reorderStages "p1" "o1"
      ([("s1", 5%Z); ("s2", 3%Z)] ++ ("s3", 0%Z) :: [("s1", 9%Z)]) sample_store
    = (st', Throw "Stage not found")
    /\ JsMap.get "s1" (stages st') = Some (Stage.mk "s1" "o1" "p1" "New" 5 7)
    /\ JsMap.get "s2" (stages st') = Some (Stage.mk "s2" "o1" "p1" "Won" 3 8)
    /\ JsMap.get "s3" (stages st')
       = Some (Stage.mk "s3" "o2" "p2" "Applied" 0 9).
Proof.
  destruct (reorderStages_not_atomic sample_store "p1" "o1"
              [("s1", 5%Z); ("s2", 3%Z)] ("s3", 0%Z) [("s1", 9%Z)])
    as (st' & Hrun & _ & Hget).
  - intros so [<- | [<- | []]]; simpl; eexists; split; reflexivity.
  - unfold not_owned; simpl; discriminate.
  - exists st'. split; [exact Hrun|].
    rewrite (Hget "s1"), (Hget "s2"), (Hget "s3"). repeat split.
Defined.

(* ------------------------------------------------------------------ *)
(** ** Memberships *)

Lemma filter_values_set_unique (V : Type) (key_of : V -> string)
    (sel : V -> bool) (k : string) (v : V) (m : JsMap.t V) :
  indexed key_of m -> sel v = true ->
  (forall v', sel v' = true -> key_of v' = k) ->
  filter sel (JsMap.values (JsMap.set k v m)) = [v].
Proof.
  intros [HU HK] Hv Hsel.
  assert (forall r : JsMap.t V,
            (forall k' v', In (k', v') r -> key_of v' = k' /\ k' <> k) ->
            filter sel (JsMap.values r) = []) as Hnone.
  { induction r as [|[k' v'] r IH]; simpl; intros H; [reflexivity|].
    destruct (sel v') eqn:S.
    - exfalso. destruct (H k' v' (or_introl eq_refl)) as [E N].
      apply N. rewrite <- E. now apply Hsel.
    - apply IH. intros k2 v2 H2. apply H. now right. }
  unfold JsMap.uniq, JsMap.keys in HU. revert HU HK.
  induction m as [|[k' v'] r IH]; simpl; intros HU HK.
  - now rewrite Hv.
  - inversion HU as [|? ? Hk Hr]; subst.
    destruct (String.eqb k' k) eqn:E; simpl.
    + apply String.eqb_eq in E. subst k'. rewrite Hv. f_equal.
      apply Hnone. intros k2 v2 H2. split.
      * apply HK. now right.
      * intros ->. apply Hk. apply in_map_iff. now exists (k, v2).
    + apply String.eqb_neq in E. destruct (sel v') eqn:S.
      * exfalso. apply E. rewrite <- (HK k' v' (or_introl eq_refl)).
        now apply Hsel.
      * apply IH; [assumption|]. intros k2 v2 H2. apply HK. now right.
Qed.

Lemma empty_store_wf_members : wf_members empty_store.
Proof. split; [constructor | intros k v []]. Qed.

Lemma addOrgMember_wf (insertMember : InsertOrgMember.t) (now : Z)
    (st : Store) :
  wf_members st ->
  wf_members (exec (MemStorage.addOrgMember insertMember now) st).
Proof. intros H. now apply indexed_set. Qed.

Lemma updateOrgMemberRole_wf (orgId userId role : string) (st : Store) :
  wf_members st ->
  wf_members (exec (MemStorage.updateOrgMemberRole orgId userId role) st).
Proof.
  intros H. unfold exec, MemStorage.updateOrgMemberRole, bind, gets.
  destruct (JsMap.get _ (orgMembers st)) as [m|] eqn:G; simpl; [|assumption].
  apply indexed_set; [assumption|].
  apply (indexed_get _ member_key _ _ _ H G).
Qed.

Lemma removeOrgMember_wf (orgId userId : string) (st : Store) :
  wf_members st ->
  wf_members (exec (MemStorage.removeOrgMember orgId userId) st).
Proof. intros H. now apply indexed_filter. Qed.

(** C7. After [createOrganization(org, U)] the store holds exactly one
    membership for the new organization and [U]; its role is admin and its
    [acceptedAt] is set. *)
Theorem createOrganization_owner_membership (st : Store)
    (insertOrg : InsertOrganization.t) (ownerId id : string) (now : Z) :
  wf_members st ->
  exists org st' m,
    MemStorage.createOrganization insertOrg ownerId id now st = (st', Ok org)
    /\ Organization.id org = id /\ Organization.ownerId org = ownerId
    /\ filter (fun m => String.eqb (OrgMember.orgId m) id
                        && String.eqb (OrgMember.userId m) ownerId)
              (JsMap.values (orgMembers st')) = [m]
    /\ OrgMember.role m = "admin"
    /\ OrgMember.acceptedAt m = Some now
    /\ wf_members st'.
Proof.
  intros WF.
  unfold MemStorage.createOrganization, MemStorage.addOrgMember, bind, modify,
    ret. simpl.
  eexists. eexists. eexists.
  split; [reflexivity|]. split; [reflexivity|]. split; [reflexivity|].
  simpl. split; [|split; [|split]].
  - apply (filter_values_set_unique _ member_key); [exact WF | |].
    + simpl. now rewrite !String.eqb_refl.
    + intros m Hm. apply andb_true_iff in Hm. destruct Hm as [E1 E2].
      apply String.eqb_eq in E1, E2. unfold member_key. now rewrite E1, E2.
  - reflexivity.
  - reflexivity.
  - now apply indexed_set.
Qed.

Lemma sample_store_wf_members : wf_members sample_store.
Proof.
  unfold wf_members, indexed, keyed, JsMap.uniq. simpl. split.
  - repeat constructor; simpl; intuition discriminate.
  - intros k v H; repeat (destruct H as [[= <- <-] | H]; [reflexivity|]).
    contradiction.
Qed.

Lemma createOrganization_owner_membership_witness :
  exists org st' m,
    MemStorage.createOrganization (InsertOrganization.mk "Labs" None None)
      "u2" "o3" 100 sample_store = (st', Ok org)
    /\ Organization.id org = "o3" /\ Organization.ownerId org = "u2"
    /\ filter (fun m => String.eqb (OrgMember.orgId m) "o3"
                        && String.eqb (OrgMember.userId m) "u2")
              (JsMap.values (orgMembers st')) = [m]
    /\ OrgMember.role m = "admin"
    /\ OrgMember.acceptedAt m = Some 100%Z
    /\ wf_members st'.
Proof.
  exact (createOrganization_owner_membership sample_store
           (InsertOrganization.mk "Labs" None None) "u2" "o3" 100
           sample_store_wf_members).
Defined.

(* ------------------------------------------------------------------ *)
(** ** The guards of the routes *)

Lemma guards_pass (session : option string) (organizationId userId : string)
    (orgMember : OrgMember.t) (st : Store)
    (next : string -> OrgMember.t -> M Response) :
  member_request session organizationId userId orgMember st ->
  requireAuth session
    (fun uid => requireOrgAccess organizationId uid (next uid)) st
  = next userId orgMember st.
Proof.
  intros (-> & Hu & Ho & G).
  apply String.eqb_neq in Hu, Ho.
  unfold requireAuth, str_or_null. rewrite Hu.
  unfold requireOrgAccess. rewrite Hu, Ho.
  unfold bind, MemStorage.getOrgMember, gets, orb. now rewrite G.
Qed.

Lemma spec_pipeline_maximum_table (plan : string) (n : N) :
  spec_pipeline_maximum plan = Some n ->
  exists limits, plan_lookup plan = OwnPlan limits
                 /\ limit_pipelines limits = n.
Proof.
  unfold spec_pipeline_maximum, plan_lookup.
  destruct (String.eqb plan "free") eqn:E1.
  { apply String.eqb_eq in E1. subst. intros [= <-]. eexists. split; reflexivity. }
  destruct (String.eqb plan "pro") eqn:E2.
  { apply String.eqb_eq in E2. subst. intros [= <-]. eexists. split; reflexivity. }
  destruct (String.eqb plan "team") eqn:E3.
  { apply String.eqb_eq in E3. subst. intros [= <-]. eexists. split; reflexivity. }
  discriminate.
Qed.

Lemma createPipeline_rejected (st : Store) (session : option string)
    (organizationId userId name id : string) (now : Z) (orgMember : OrgMember.t)
    (maximum : N) :
  member_request session organizationId userId orgMember st ->
  includes ["admin"; "editor"] (OrgMember.role orgMember) = true ->
  spec_pipeline_maximum (plan_of organizationId st) = Some maximum ->
  (maximum <= N.of_nat (pipeline_count organizationId st))%N ->
  Routes.createPipeline session organizationId (Ok name) id now st
  = (st, Ok (error 400 ("Pipeline limit reached for "
                        ++ plan_of organizationId st
                        ++ " plan. Upgrade to create more pipelines."))).
Proof.
  intros Hreq Hrole Hmax Hcount.
  destruct (spec_pipeline_maximum_table _ _ Hmax) as (limits & Hl & Hn).
  unfold Routes.createPipeline.
  rewrite (guards_pass session organizationId userId orgMember st _ Hreq).
  rewrite Hrole.
  unfold try_catch, bind, parse, ret, MemStorage.getSubscription,
    MemStorage.getPipelines, gets, negb.
  fold (plan_of organizationId st). rewrite Hl, sort_length.
  fold (pipeline_count organizationId st). rewrite Hn.
  apply N.leb_le in Hcount. now rewrite Hcount.
Qed.

Lemma createPipeline_accepted (st : Store) (session : option string)
    (organizationId userId name id : string) (now : Z) (orgMember : OrgMember.t)
    (maximum : N) :
  member_request session organizationId userId orgMember st ->
  includes ["admin"; "editor"] (OrgMember.role orgMember) = true ->
  spec_pipeline_maximum (plan_of organizationId st) = Some maximum ->
  (N.of_nat (pipeline_count organizationId st) < maximum)%N ->
  let pipeline := Pipeline.mk id organizationId name now in
  exists st',
    Routes.createPipeline session organizationId (Ok name) id now st
    = (st', Ok (json (BPipeline pipeline)))
    /\ pipelines st' = JsMap.set id pipeline (pipelines st)
    /\ orgMembers st' = orgMembers st
    /\ subscriptions st' = subscriptions st.
Proof.
  intros Hreq Hrole Hmax Hcount pipeline.
  destruct (spec_pipeline_maximum_table _ _ Hmax) as (limits & Hl & Hn).
  unfold Routes.createPipeline.
  rewrite (guards_pass session organizationId userId orgMember st _ Hreq).
  rewrite Hrole.
  unfold try_catch, bind, parse, ret, MemStorage.getSubscription,
    MemStorage.getPipelines, gets, negb.
  fold (plan_of organizationId st). rewrite Hl, sort_length.
  fold (pipeline_count organizationId st). rewrite Hn.
  apply N.leb_gt in Hcount. rewrite Hcount.
  unfold MemStorage.createPipeline, MemStorage.createAuditLog, bind, modify,
    gets, ret. simpl.
  eexists. split; [reflexivity|]. simpl. auto.
Qed.

Lemma first_pipeline_counts_one (organizationId id : string) (p : Pipeline.t)
    (m : JsMap.t Pipeline.t) :
  Pipeline.orgId p = organizationId ->
  filter (fun q => String.eqb (Pipeline.orgId q) organizationId)
         (JsMap.values m) = [] ->
  filter (fun q => String.eqb (Pipeline.orgId q) organizationId)
         (JsMap.values (JsMap.set id p m)) = [p].
Proof.
  intros E. induction m as [|[k v] r IH]; simpl.
  - intros _. now rewrite E, String.eqb_refl.
  - destruct (String.eqb (Pipeline.orgId v) organizationId) eqn:Ev;
      [discriminate|].
    intros Hr. destruct (String.eqb k id); simpl.
    + now rewrite E, String.eqb_refl, Hr.
    + rewrite Ev. now apply IH.
Qed.

(* ------------------------------------------------------------------ *)
(** ** Plan limit on pipelines *)

(** C4. For a pipeline-creation request by an admin or editor of an
    organization on plan free, pro or team (maximum 1, 5, 20): with at least
    the maximum of pipelines the answer is 400 and the store is untouched;
    below the maximum the pipeline is stored and returned. On a free plan
    without pipelines the first creation succeeds and a second is rejected. *)
Theorem createPipeline_plan_limit (st : Store) (session : option string)
    (organizationId userId name id : string) (now : Z) (orgMember : OrgMember.t)
    (maximum : N) :
  member_request session organizationId userId orgMember st ->
  includes ["admin"; "editor"] (OrgMember.role orgMember) = true ->
  spec_pipeline_maximum (plan_of organizationId st) = Some maximum ->
  let pipeline := Pipeline.mk id organizationId name now in
  let limit_reached plan :=
    error 400 ("Pipeline limit reached for " ++ plan
               ++ " plan. Upgrade to create more pipelines.") in
  ((maximum <= N.of_nat (pipeline_count organizationId st))%N ->
   Routes.createPipeline session organizationId (Ok name) id now st
   = (st, Ok (limit_reached (plan_of organizationId st))))
  /\ ((N.of_nat (pipeline_count organizationId st) < maximum)%N ->
      exists st',
        Routes.createPipeline session organizationId (Ok name) id now st
        = (st', Ok (json (BPipeline pipeline)))
        /\ pipelines st' = JsMap.set id pipeline (pipelines st))
  /\ (plan_of organizationId st = "free" ->
      pipeline_count organizationId st = 0 ->
      exists st1,
        Routes.createPipeline session organizationId (Ok name) id now st
        = (st1, Ok (json (BPipeline pipeline)))
        /\ forall name2 id2 now2,
             Routes.createPipeline session organizationId (Ok name2) id2 now2
                                   st1
             = (st1, Ok (limit_reached "free"))).
Proof.
  intros Hreq Hrole Hmax pipeline limit_reached.
  split; [|split].
  - intros Hcount.
    now apply (createPipeline_rejected st session organizationId userId name
                 id now orgMember maximum).
  - intros Hcount.
    destruct (createPipeline_accepted st session organizationId userId name
                id now orgMember maximum Hreq Hrole Hmax Hcount)
      as (st' & Hrun & Hp & _).
    exists st'. now split.
  - intros Hfree Hzero. rewrite Hfree in Hmax. injection Hmax as <-.
    destruct (createPipeline_accepted st session organizationId userId name
                id now orgMember 1%N Hreq Hrole) as (st1 & Hrun & Hp & Hm & Hs).
    { now rewrite Hfree. }
    { rewrite Hzero. reflexivity. }
    exists st1. split; [exact Hrun|].
    intros name2 id2 now2.
    assert (plan_of organizationId st1 = "free") as Hfree1
      by (unfold plan_of in *; now rewrite Hs).
    unfold limit_reached. rewrite <- Hfree1.
    apply (createPipeline_rejected st1 session organizationId userId name2
             id2 now2 orgMember 1%N).
    + destruct Hreq as (H1 & H2 & H3 & H4). repeat split; try assumption.
      now rewrite Hm.
    + assumption.
    + now rewrite Hfree1.
    + unfold pipeline_count in *. rewrite Hp.
      rewrite (first_pipeline_counts_one organizationId id pipeline);
        [reflexivity | reflexivity |].
      now apply length_zero_iff_nil.
Qed.

Lemma createPipeline_plan_limit_witness :
  exists st1,
    Routes.createPipeline (Some "u1") "o1" (Ok "Sales") "p1" 2 ann_store
    = (st1, Ok (json (BPipeline (Pipeline.mk "p1" "o1" "Sales" 2))))
    /\ Routes.createPipeline (Some "u1") "o1" (Ok "Hiring") "p2" 3 st1
       = (st1, Ok (error 400 "Pipeline limit reached for free plan. Upgrade to create more pipelines.")).
Proof.
  destruct (createPipeline_plan_limit ann_store (Some "u1") "o1" "u1" "Sales"
              "p1" 2 ann_member 1%N) as (_ & _ & H).
  - unfold member_request. repeat split; try discriminate; reflexivity.
  - reflexivity.
  - reflexivity.
  - destruct (H eq_refl eq_refl) as (st1 & H1 & H2).
    exists st1. split; [exact H1 | apply H2].
Defined.

(* ------------------------------------------------------------------ *)
(** ** Tenant scoping of lookups; moving a lead *)

Lemma lookups_not_owned (st : Store) (id orgId : string) :
  (not_owned Pipeline.orgId id orgId (pipelines st) ->
   MemStorage.getPipeline id orgId st = (st, Ok None))
  /\ (not_owned Stage.orgId id orgId (stages st) ->
      MemStorage.getStage id orgId st = (st, Ok None))
  /\ (not_owned Lead.orgId id orgId (leads st) ->
      MemStorage.getLead id orgId st = (st, Ok None)).
Proof.
  unfold not_owned, MemStorage.getPipeline, MemStorage.getStage,
    MemStorage.getLead, gets.
  refine (conj _ (conj _ _)); intros H.
  - destruct (JsMap.get id (pipelines st)); [|reflexivity].
    apply String.eqb_neq in H. now rewrite H.
  - destruct (JsMap.get id (stages st)); [|reflexivity].
    apply String.eqb_neq in H. now rewrite H.
  - destruct (JsMap.get id (leads st)); [|reflexivity].
    apply String.eqb_neq in H. now rewrite H.
Qed.

(** C5, as amended. A lead-move request by an admin or editor that names a
    stage not belonging to the organization of the path is answered 404 and
    changes nothing; a member with another role is answered 403 whatever the
    stage, also without change; and [getPipeline], [getStage], [getLead]
    under the wrong organization id return [undefined]. *)
Theorem moveLead_foreign_stage (st : Store) (session : option string)
    (organizationId userId leadId stageId : string) (now : Z)
    (orgMember : OrgMember.t) :
  member_request session organizationId userId orgMember st ->
  (includes ["admin"; "editor"] (OrgMember.role orgMember) = true ->
   not_owned Stage.orgId stageId organizationId (stages st) ->
   Routes.moveLead session organizationId leadId stageId now st
   = (st, Ok (error 404 "Stage not found")))
  /\ (includes ["admin"; "editor"] (OrgMember.role orgMember) = false ->
      Routes.moveLead session organizationId leadId stageId now st
      = (st, Ok (error 403 "Insufficient permissions")))
  /\ (forall id orgId,
        (not_owned Pipeline.orgId id orgId (pipelines st) ->
         MemStorage.getPipeline id orgId st = (st, Ok None))
        /\ (not_owned Stage.orgId id orgId (stages st) ->
            MemStorage.getStage id orgId st = (st, Ok None))
        /\ (not_owned Lead.orgId id orgId (leads st) ->
            MemStorage.getLead id orgId st = (st, Ok None))).
Proof.
  intros Hreq. refine (conj _ (conj _ _)).
  - intros Hrole Hstage. unfold Routes.moveLead.
    rewrite (guards_pass session organizationId userId orgMember st _ Hreq).
    rewrite Hrole. unfold try_catch, bind, negb.
    now rewrite (proj1 (proj2 (lookups_not_owned st stageId organizationId))
                   Hstage).
  - intros Hrole. unfold Routes.moveLead.
    rewrite (guards_pass session organizationId userId orgMember st _ Hreq).
    now rewrite Hrole.
  - intros id orgId. apply lookups_not_owned.
Qed.

Lemma moveLead_foreign_stage_witness :
  Routes.moveLead (Some "u1") "o1" "l1" "s3" 20 sample_store
  = (sample_store, Ok (error 404 "Stage not found")).
Proof.
  assert (member_request (Some "u1") "o1" "u1"
            (OrgMember.mk "o1" "u1" "admin" (Some "u1") 1 (Some 1%Z) 1)
            sample_store) as Hreq.
  { unfold member_request. repeat split; try discriminate; reflexivity. }
  apply (proj1 (moveLead_foreign_stage sample_store (Some "u1") "o1" "u1"
                  "l1" "s3" 20 _ Hreq)).
  - reflexivity.
  - unfold not_owned; simpl; discriminate.
Defined.

(** C5 as stated fails for a viewer: the role check comes first and the
    answer is 403, not 404. *)
Lemma moveLead_viewer_gets_403 :
  JsMap.get "o1-u3" (orgMembers sample_store)
  = Some (OrgMember.mk "o1" "u3" "viewer" (Some "u1") 3 (Some 3%Z) 3)
  /\ not_owned Stage.orgId "s3" "o1" (stages sample_store)
  /\ Routes.moveLead (Some "u3") "o1" "l1" "s3" 20 sample_store
     = (sample_store, Ok (error 403 "Insufficient permissions"))
  /\ forall st' message,
       Routes.moveLead (Some "u3") "o1" "l1" "s3" 20 sample_store
       <> (st', Ok (error 404 message)).
Proof.
  split; [reflexivity|]. split; [unfold not_owned; simpl; discriminate|].
  split; [reflexivity|]. intros st' message. discriminate.
Qed.

(* ------------------------------------------------------------------ *)
(** ** Inviting a member *)

(** C8, as amended. For an invite by an admin or editor: an email of no
    registered user is answered 404, a user who is already a member is
    answered 400; the store, and so the memberships, are unchanged in both
    cases. *)
Theorem inviteMember_rejections (st : Store) (session : option string)
    (organizationId userId email role : string) (now : Z)
    (orgMember : OrgMember.t) :
  member_request session organizationId userId orgMember st ->
  includes ["admin"; "editor"] (OrgMember.role orgMember) = true ->
  (find (fun user => String.eqb (User.email user) email)
        (JsMap.values (users st)) = None ->
   Routes.inviteMember session organizationId email role now st
   = (st, Ok (error 404 "User not found")))
  /\ (forall invited existing,
        find (fun user => String.eqb (User.email user) email)
             (JsMap.values (users st)) = Some invited ->
        JsMap.get (organizationId ++ "-" ++ User.id invited) (orgMembers st)
        = Some existing ->
        Routes.inviteMember session organizationId email role now st
        = (st, Ok (error 400 "User is already a member"))).
Proof.
  intros Hreq Hrole. split.
  - intros Hnone. unfold Routes.inviteMember.
    rewrite (guards_pass session organizationId userId orgMember st _ Hreq).
    rewrite Hrole.
    unfold try_catch, bind, negb, MemStorage.getUserByEmail, gets.
    now rewrite Hnone.
  - intros invited existing Hsome Hmember. unfold Routes.inviteMember.
    rewrite (guards_pass session organizationId userId orgMember st _ Hreq).
    rewrite Hrole.
    unfold try_catch, bind, negb, MemStorage.getUserByEmail,
      MemStorage.getOrgMember, gets.
    now rewrite Hsome, Hmember.
Qed.

Lemma inviteMember_rejections_witness :
  Routes.inviteMember (Some "u1") "o1" "nobody@x.com" "editor" 20 sample_store
  = (sample_store, Ok (error 404 "User not found"))
  /\ Routes.inviteMember (Some "u1") "o1" "carol@x.com" "editor" 20
                         sample_store
     = (sample_store, Ok (error 400 "User is already a member")).
Proof.
  assert (member_request (Some "u1") "o1" "u1"
            (OrgMember.mk "o1" "u1" "admin" (Some "u1") 1 (Some 1%Z) 1)
            sample_store) as Hreq.
  { unfold member_request. repeat split; try discriminate; reflexivity. }
  split.
  - apply (proj1 (inviteMember_rejections sample_store (Some "u1") "o1" "u1"
                    "nobody@x.com" "editor" 20 _ Hreq eq_refl)).
    reflexivity.
  - apply (proj2 (inviteMember_rejections sample_store (Some "u1") "o1" "u1"
                    "carol@x.com" "editor" 20 _ Hreq eq_refl)
             (User.mk "u3" "carol@x.com" "h3" "Carol" None None 3)
             (OrgMember.mk "o1" "u3" "viewer" (Some "u1") 3 (Some 3%Z) 3)).
    + reflexivity.
    + reflexivity.
Defined.

(** C8 as stated fails: an unknown email is answered 404, not 400. *)
Lemma inviteMember_unknown_email_gets_404 :
  Routes.inviteMember (Some "u1") "o1" "nobody@x.com" "editor" 20 sample_store
  = (sample_store, Ok (error 404 "User not found"))
  /\ forall st' message,
       Routes.inviteMember (Some "u1") "o1" "nobody@x.com" "editor" 20
                           sample_store
       <> (st', Ok (error 400 message)).
Proof. split; [reflexivity|]. intros st' message. discriminate. Qed.

(* ------------------------------------------------------------------ *)
(** ** Signup *)

(** C6. A signup with a registered email is answered 400 and creates no
    user. Otherwise the user is created and returned, and with it the
    organization "{name}'s Organization" owned by the user, who is its admin
    member. Whatever storage is used, when its [createOrganization] throws
    the answer is still 200 with the created user. *)
Theorem signup_contract (bcrypt_hash : string -> string)
    (userId organizationId : string) (now : Z) (data : InsertUser.t)
    (st : Store) :
  let storage := Routes.memStorage bcrypt_hash userId organizationId now in
  let email := InsertUser.email data in
  let name := InsertUser.name data in
  let registered :=
    find (fun user => String.eqb (User.email user) email)
         (JsMap.values (users st)) in
  (registered <> None ->
   Routes.signup storage (Ok data) st
   = (st, Ok (error 400 "User already exists")))
  /\ (registered = None ->
      exists st',
        Routes.signup storage (Ok data) st
        = (st', Ok (json (BUser userId email name)))
        /\ JsMap.get userId (users st')
           = Some (User.mk userId email
                           (bcrypt_hash (InsertUser.passwordHash data)) name
                           None None now)
        /\ JsMap.get organizationId (organizations st')
           = Some (Organization.mk organizationId (name ++ "'s Organization")
                                   userId None None "free" None now)
        /\ JsMap.get (organizationId ++ "-" ++ userId) (orgMembers st')
           = Some (OrgMember.mk organizationId userId "admin"
                                (str_or_null (Some userId)) now (Some now) now))
  /\ (forall (other : Routes.IStorage) (st1 st2 : Store) (user : User.t)
             (e : string),
        Routes.getUserByEmail other email st = (st, Ok None) ->
        Routes.createUser other
          (InsertUser.mk email (InsertUser.passwordHash data) name) st
        = (st1, Ok user) ->
        Routes.createOrganization other
          (InsertOrganization.mk (name ++ "'s Organization") None None)
          (User.id user) st1
        = (st2, Throw e) ->
        Routes.signup other (Ok data) st
        = (st2, Ok (json (BUser (User.id user) (User.email user)
                                (User.name user))))).
Proof.
  intros storage email name registered. refine (conj _ (conj _ _)).
  - intros Hreg. unfold Routes.signup, try_catch, bind, parse, ret. simpl.
    unfold MemStorage.getUserByEmail, gets.
    fold email. fold registered. now destruct registered.
  - intros Hnone. unfold Routes.signup, try_catch, bind, parse, ret. simpl.
    unfold MemStorage.getUserByEmail, gets.
    fold email. fold registered. rewrite Hnone.
    unfold MemStorage.createUser, MemStorage.createOrganization,
      MemStorage.addOrgMember, MemStorage.createAuditLog, bind, modify, gets,
      ret. simpl.
    eexists. split; [reflexivity|]. simpl.
    rewrite !get_set, !String.eqb_refl. auto.
  - intros other st1 st2 user e Hfind Hcreate Hfail.
    unfold Routes.signup, try_catch, bind, parse, ret.
    fold email. fold name. rewrite Hfind, Hcreate, Hfail. reflexivity.
Qed.

Lemma signup_contract_witness :
  Routes.signup ann_storage ann_signup ann_store
  = (ann_store, Ok (error 400 "User already exists"))
  /\ (exists st',
        Routes.signup ann_storage ann_signup empty_store
        = (st', Ok (json (BUser "u1" "a@x.com" "Ann")))
        /\ JsMap.get "o1" (organizations st')
           = Some (Organization.mk "o1" "Ann's Organization" "u1" None None
                                   "free" None 1))
  /\ (exists st2,
        Routes.signup failing_storage ann_signup empty_store
        = (st2, Ok (json (BUser "u1" "a@x.com" "Ann")))
        /\ organizations st2 = []).
Proof.
  refine (conj _ (conj _ _)).
  - apply (proj1 (signup_contract (fun password => "bcrypt:" ++ password)
                    "u1" "o1" 1 (InsertUser.mk "a@x.com" "pw" "Ann")
                    ann_store)).
    simpl. discriminate.
  - destruct (proj1 (proj2 (signup_contract
                              (fun password => "bcrypt:" ++ password)
                              "u1" "o1" 1 (InsertUser.mk "a@x.com" "pw" "Ann")
                              empty_store)) eq_refl)
      as (st' & H1 & _ & H2 & _).
    exists st'. split; [exact H1 | exact H2].
  - eexists. split.
    + apply (proj2 (proj2 (signup_contract
                             (fun password => "bcrypt:" ++ password)
                             "u1" "o1" 1
                             (InsertUser.mk "a@x.com" "pw" "Ann")
                             empty_store))
               failing_storage
               (exec (Routes.createUser ann_storage
                        (InsertUser.mk "a@x.com" "pw" "Ann")) empty_store)
               _
               (User.mk "u1" "a@x.com" "bcrypt:pw" "Ann" None None 1)
               "connection lost");
        reflexivity.
    + reflexivity.
Defined.

(* ------------------------------------------------------------------ *)
(** ** API keys *)

Lemma toString_hex_app (a b : list Byte.byte) :
  toString_hex (a ++ b) = toString_hex a ++ toString_hex b.
Proof. induction a as [|x r IH]; simpl; [reflexivity | now rewrite IH]. Qed.

Lemma toString_hex_length (a : list Byte.byte) :
  String.length (toString_hex a) = 2 * List.length a.
Proof. induction a as [|x r IH]; simpl; [reflexivity | rewrite IH; lia]. Qed.

Lemma string_app_inv_head (s a b : string) : s ++ a = s ++ b -> a = b.
Proof. induction s as [|c s IH]; simpl; [auto | intros [= H]; auto]. Qed.

Lemma string_app_assoc (a b c : string) : (a ++ b) ++ c = a ++ (b ++ c).
Proof. induction a as [|x a IH]; simpl; [reflexivity | now rewrite IH]. Qed.

Lemma string_app_length (a b : string) :
  String.length (a ++ b) = String.length a + String.length b.
Proof. induction a as [|x a IH]; simpl; [reflexivity | now rewrite IH]. Qed.

Lemma substring_prefix (n : nat) (s t : string) :
  n <= String.length s -> substring 0 n (s ++ t) = substring 0 n s.
Proof.
  revert s. induction n as [|n IH]; intros s H.
  - destruct s, t; reflexivity.
  - destruct s as [|c s]; simpl in *; [lia|]. rewrite IH by lia. reflexivity.
Qed.

Lemma other_byte_hex (b : Byte.byte) :
  toString_hex [other_byte b] <> toString_hex [b].
Proof. destruct b; simpl; discriminate. Qed.

(** A truncated preview does not determine the key: changing the last of at
    least six random bytes changes the key and keeps the preview. *)
Lemma keyPreview_not_injective (randomBytes : list Byte.byte) :
  6 <= List.length randomBytes ->
  exists randomBytes',
    List.length randomBytes' = List.length randomBytes
    /\ Routes.make_keyValue randomBytes' <> Routes.make_keyValue randomBytes
    /\ Routes.make_keyPreview (Routes.make_keyValue randomBytes')
       = Routes.make_keyPreview (Routes.make_keyValue randomBytes).
Proof.
  intros Hlen.
  destruct (exists_last (l := randomBytes)) as (pre & b & ->).
  { intros ->. simpl in Hlen. lia. }
  rewrite length_app in Hlen. simpl in Hlen.
  exists (pre ++ [other_byte b])%list. split; [|split].
  - now rewrite !length_app.
  - unfold Routes.make_keyValue. rewrite !toString_hex_app.
    intros H. apply string_app_inv_head in H. apply string_app_inv_head in H.
    now apply other_byte_hex in H.
  - unfold Routes.make_keyPreview, Routes.make_keyValue. f_equal.
    rewrite !toString_hex_app, <- !string_app_assoc.
    assert (12 <= String.length ("sk_" ++ toString_hex pre)) as Hpre
      by (rewrite string_app_length, toString_hex_length; simpl; lia).
    rewrite (substring_prefix 12 _ (toString_hex [other_byte b]) Hpre).
    now rewrite (substring_prefix 12 _ (toString_hex [b]) Hpre).
Qed.

(** C2. A key creation by an admin or editor answers with the stored row
    and, beside it, the plaintext [keyValue], which starts with "sk_". The
    stored row holds the hash of the key and the preview made of its first
    12 characters; the list of keys returns stored rows only. The store after
    the creation is the same for any other key with the same hash and the
    same first 12 characters, and for 24 random bytes another key has the
    same preview. *)
Theorem createApiKey_secret_once (sha256_hex : string -> string) (st : Store)
    (session : option string) (organizationId userId name : string)
    (randomBytes : list Byte.byte) (id : string) (now : Z)
    (orgMember : OrgMember.t) :
  member_request session organizationId userId orgMember st ->
  includes ["admin"; "editor"] (OrgMember.role orgMember) = true ->
  let keyValue := Routes.make_keyValue randomBytes in
  let stored :=
    ApiKey.mk id organizationId name (sha256_hex keyValue)
              (substring 0 12 keyValue ++ "********************") None userId
              now in
  exists st',
    Routes.createApiKey sha256_hex session organizationId (Ok name)
                        randomBytes id now st
    = (st', Ok (json (BApiKeyCreated stored keyValue)))
    /\ substring 0 3 keyValue = "sk_"
    /\ apiKeys st' = JsMap.set id stored (apiKeys st)
    /\ Routes.listApiKeys session organizationId st'
       = (st', Ok (json (BApiKeys
                           (filter (fun k => String.eqb (ApiKey.orgId k)
                                                        organizationId)
                                   (JsMap.values (apiKeys st'))))))
    /\ (forall randomBytes',
          sha256_hex (Routes.make_keyValue randomBytes') = sha256_hex keyValue ->
          substring 0 12 (Routes.make_keyValue randomBytes')
          = substring 0 12 keyValue ->
          exec (Routes.createApiKey sha256_hex session organizationId (Ok name)
                                    randomBytes' id now) st = st')
    /\ (List.length randomBytes = 24 ->
        exists randomBytes',
          List.length randomBytes' = 24
          /\ Routes.make_keyValue randomBytes' <> keyValue
          /\ Routes.make_keyPreview (Routes.make_keyValue randomBytes')
             = ApiKey.keyPreview stored).
Proof.
  intros Hreq Hrole keyValue stored.
  assert (forall rb,
            Routes.createApiKey sha256_hex session organizationId (Ok name)
                                rb id now st
            = let kv := Routes.make_keyValue rb in
              let key := ApiKey.mk id organizationId name (sha256_hex kv)
                                   (Routes.make_keyPreview kv) None userId now in
              (with_auditLogs
                 (fun logs =>
                    (logs ++ [AuditLog.mk (Z.of_nat (List.length (auditLogs st)) + 1)
                                organizationId (str_or_null (Some userId))
                                "create" "api_key" (str_or_null (Some id))
                                (JObj [("name", JStr name)]) now])%list)
                 (with_apiKeys (JsMap.set id key) st),
               Ok (json (BApiKeyCreated key kv)))) as Hrun.
  { intros rb. unfold Routes.createApiKey.
    rewrite (guards_pass session organizationId userId orgMember st _ Hreq).
    rewrite Hrole. reflexivity. }
  eexists. split; [apply Hrun|]. cbv zeta.
  split.
  { unfold keyValue, Routes.make_keyValue. simpl.
    now destruct (toString_hex randomBytes). }
  split; [reflexivity|]. split; [|split].
  - unfold Routes.listApiKeys.
    rewrite (guards_pass session organizationId userId orgMember _ _);
      [reflexivity | exact Hreq].
  - intros rb' Hhash Hprefix. unfold exec. rewrite Hrun. cbv zeta.
    unfold Routes.make_keyPreview. fold keyValue. unfold fst.
    now rewrite Hhash, Hprefix.
  - intros Hlen.
    destruct (keyPreview_not_injective randomBytes) as (rb' & H1 & H2 & H3);
      [lia|].
    exists rb'. split; [lia|]. split; assumption.
Qed.

Lemma createApiKey_secret_once_witness :
  exists st',
    Routes.createApiKey (fun s => "sha256:" ++ s) (Some "u1") "o1" (Ok "CI")
      [Byte.x0a; Byte.x1b; Byte.x2c; Byte.x3d; Byte.x4e; Byte.x5f] "k9" 20
      sample_store
    = (st', Ok (json (BApiKeyCreated
                        (ApiKey.mk "k9" "o1" "CI" "sha256:sk_0a1b2c3d4e5f"
                                   "sk_0a1b2c3d4********************" None
                                   "u1" 20)
                        "sk_0a1b2c3d4e5f")))
    /\ JsMap.get "k9" (apiKeys st')
       = Some (ApiKey.mk "k9" "o1" "CI" "sha256:sk_0a1b2c3d4e5f"
                         "sk_0a1b2c3d4********************" None "u1" 20).
Proof.
  destruct (createApiKey_secret_once (fun s => "sha256:" ++ s) sample_store
              (Some "u1") "o1" "u1" "CI"
              [Byte.x0a; Byte.x1b; Byte.x2c; Byte.x3d; Byte.x4e; Byte.x5f]
              "k9" 20
              (OrgMember.mk "o1" "u1" "admin" (Some "u1") 1 (Some 1%Z) 1))
    as (st' & H1 & _ & H2 & _).
  - unfold member_request. repeat split; try discriminate; reflexivity.
  - reflexivity.
  - exists st'. split; [exact H1|]. rewrite H2. reflexivity.
Defined.

(* ------------------------------------------------------------------ *)
(** ** Mentions *)

Lemma get_fold_set (V : Type) (entries : list (string * V)) :
  forall (acc : JsMap.t V) (k : string) (v : V),
  JsMap.get k (fold_left (fun m p => JsMap.set (fst p) (snd p) m) entries acc)
  = Some v ->
  In (k, v) entries \/ JsMap.get k acc = Some v.
Proof.
  induction entries as [|[k0 v0] r IH]; intros acc k v H; simpl in *.
  - now right.
  - apply IH in H. destruct H as [H | H]; [left; now right|].
    rewrite get_set in H. destruct (String.eqb k0 k) eqn:E.
    + apply String.eqb_eq in E. injection H as ->. subst. left. now left.
    + now right.
Qed.

Lemma get_of_list_In (V : Type) (entries : list (string * V)) (k : string)
    (v : V) :
  JsMap.get k (JsMap.of_list entries) = Some v -> In (k, v) entries.
Proof.
  intros H. apply get_fold_set in H. destruct H as [H | H]; [assumption|].
  discriminate.
Qed.

Lemma fold_set_defined (V : Type) (entries : list (string * V)) :
  forall (acc : JsMap.t V) (k : string),
  (exists v, In (k, v) entries) \/ JsMap.get k acc <> None ->
  JsMap.get k (fold_left (fun m p => JsMap.set (fst p) (snd p) m) entries acc)
  <> None.
Proof.
  induction entries as [|[k0 v0] r IH]; intros acc k H; simpl in *.
  - destruct H as [[v []] | H]; assumption.
  - apply IH. destruct H as [[v [E | H]] | H].
    + injection E as -> ->. right. rewrite get_set, String.eqb_refl.
      discriminate.
    + left. now exists v.
    + right. rewrite get_set. destruct (String.eqb k0 k); [discriminate|].
      assumption.
Qed.

Lemma resolveMentions_sound (members : list MemberWithUser)
    (author : string) (mentions : list string) (uid : string) :
  In uid (Routes.resolveMentions members author mentions) ->
  uid <> author
  /\ exists token m,
       In token mentions /\ In m members
       /\ mention_name m = toLowerCase token
       /\ ref_id (member_user m) = uid.
Proof.
  unfold Routes.resolveMentions. intros H. apply in_flat_map in H.
  destruct H as (token & Ht & H).
  destruct (JsMap.get _ _) as [u|] eqn:G; [|contradiction].
  destruct (String.eqb u "") eqn:E1; [contradiction|].
  destruct (String.eqb u author) eqn:E2; [contradiction|].
  destruct H as [<- | []]. apply String.eqb_neq in E2. split; [assumption|].
  apply get_of_list_In in G. apply in_map_iff in G.
  destruct G as (m & [= Hn Hi] & Hm). exists token, m. auto.
Qed.

Lemma resolveMentions_complete (members : list MemberWithUser)
    (author : string) (mentions : list string) (token : string)
    (m : MemberWithUser) :
  In token mentions -> In m members ->
  mention_name m = toLowerCase token ->
  (forall m', In m' members -> mention_name m' = toLowerCase token ->
              ref_id (member_user m') = ref_id (member_user m)) ->
  ref_id (member_user m) <> "" -> ref_id (member_user m) <> author ->
  In (ref_id (member_user m)) (Routes.resolveMentions members author mentions).
Proof.
  intros Ht Hm Hn Huniq Hne Hna. unfold Routes.resolveMentions.
  apply in_flat_map. exists token. split; [assumption|].
  destruct (JsMap.get _ _) as [u|] eqn:G.
  - apply get_of_list_In in G. apply in_map_iff in G.
    destruct G as (m' & [= Hn' Hi'] & Hm').
    rewrite <- Hi', (Huniq m' Hm' Hn').
    apply String.eqb_neq in Hne, Hna. rewrite Hne, Hna. now left.
  - exfalso. revert G. apply fold_set_defined. left.
    exists (ref_id (member_user m)). apply in_map_iff. exists m.
    split; [|assumption]. unfold mention_name in Hn. now rewrite Hn.
Qed.

Lemma returns_ret (A : Type) (a : A) (st : Store) : returns (ret a) st a.
Proof. now exists st. Qed.

Lemma returns_bind (A B : Type) (m : M A) (k : A -> M B) (st : Store) (b : B) :
  (exists a, returns m st a /\ forall st1, returns (k a) st1 b) ->
  returns (bind m k) st b.
Proof.
  intros (a & (st1 & Hm) & Hk). destruct (Hk st1) as (st2 & Hk2).
  exists st2. unfold bind. now rewrite Hm.
Qed.

Lemma returns_try_catch (A : Type) (m : M A) (h : string -> M A) (st : Store)
    (a : A) :
  returns m st a -> returns (try_catch m h) st a.
Proof. intros (st' & H). exists st'. unfold try_catch. now rewrite H. Qed.

Lemma returns_forEach (A : Type) (l : list A) (body : A -> M unit) :
  (forall x s, returns (body x) s tt) -> forall s, returns (forEach l body) s tt.
Proof.
  intros H. induction l as [|x r IH]; intros s; simpl.
  - apply returns_ret.
  - apply returns_bind. exists tt. split; [apply H | apply IH].
Qed.

Lemma returns_createAuditLog (insertLog : InsertAuditLog.t) (now : Z)
    (st : Store) :
  exists log, returns (MemStorage.createAuditLog insertLog now) st log.
Proof.
  unfold returns, MemStorage.createAuditLog, bind, gets, modify, ret.
  eexists. eexists. reflexivity.
Qed.

(* ------------------------------------------------------------------ *)
(** ** The mention scan *)

Lemma string_app_nil (s : string) : s ++ "" = s.
Proof. induction s as [|c s IH]; simpl; [reflexivity | now rewrite IH]. Qed.

Lemma all_chars_app (p : ascii -> bool) (a b : string) :
  all_chars p (a ++ b) = all_chars p a && all_chars p b.
Proof.
  induction a as [|c a IH]; simpl; [reflexivity|].
  now rewrite IH, andb_assoc.
Qed.

Lemma scan_mentions_words (s : string) :
  forall cur t,
    match cur with Some w => all_chars is_word w = true | None => True end ->
    In t (scan_mentions cur s) -> t <> "" /\ all_chars is_word t = true.
Proof.
  assert (forall w t, all_chars is_word w = true ->
                      In t (if String.eqb w "" then [] else [w]) ->
                      t <> "" /\ all_chars is_word t = true) as Hemit.
  { intros w t Hw Ht. destruct (String.eqb w "") eqn:E; [destruct Ht|].
    destruct Ht as [<-|[]]. apply String.eqb_neq in E. now split. }
  assert (forall c, match (if Ascii.eqb c "@" then Some "" else None) with
                    | Some w => all_chars is_word w = true
                    | None => True
                    end) as Hstart.
  { intros c. now destruct (Ascii.eqb c "@"). }
  induction s as [|c r IH]; intros cur t Hcur Ht; simpl in Ht.
  - destruct cur as [w|]; [now apply (Hemit w)|destruct Ht].
  - destruct cur as [w|].
    + destruct (is_word c) eqn:Ec.
      * apply (IH (Some (w ++ String c "")) t); [|exact Ht].
        rewrite all_chars_app, Hcur. simpl. now rewrite Ec.
      * apply in_app_or in Ht. destruct Ht as [Ht|Ht];
          [now apply (Hemit w)|].
        exact (IH _ t (Hstart c) Ht).
    + exact (IH _ t (Hstart c) Ht).
Qed.

Lemma scan_mentions_sound (s : string) :
  forall cur t,
    In t (scan_mentions cur s) ->
    (exists w u post,
       cur = Some w /\ t = w ++ u /\ s = u ++ post /\ word_ends post)
    \/ (exists pre post, s = pre ++ String "@" (t ++ post) /\ word_ends post).
Proof.
  induction s as [|c r IH]; intros cur t Ht; simpl in Ht.
  - destruct cur as [w|]; [|destruct Ht].
    destruct (String.eqb w ""); [destruct Ht|]. destruct Ht as [<-|[]].
    left. exists w, "", "". rewrite string_app_nil. now repeat split.
  - assert (In t (scan_mentions (if Ascii.eqb c "@" then Some "" else None) r)
            -> exists pre post,
                 String c r = pre ++ String "@" (t ++ post) /\ word_ends post)
      as Hrest.
    { intros H. destruct (IH _ t H) as [(w & u & post & Ew & Et & Er & Hp)
                                        |(pre & post & Er & Hp)].
      - destruct (Ascii.eqb c "@") eqn:Ec; [|discriminate Ew].
        apply Ascii.eqb_eq in Ec. injection Ew as <-. simpl in Et.
        exists "", post. simpl. rewrite Ec, Et, Er. now split.
      - exists (String c pre), post. simpl. rewrite Er. now split. }
    destruct cur as [w|]; [|right; exact (Hrest Ht)].
    destruct (is_word c) eqn:Ec.
    + destruct (IH _ t Ht) as [(w' & u & post & Ew & Et & Er & Hp)
                               |(pre & post & Er & Hp)].
      * left. injection Ew as <-. exists w, (String c u), post.
        split; [reflexivity|]. split.
        { rewrite Et. now rewrite string_app_assoc. }
        split; [simpl; now rewrite Er | exact Hp].
      * right. exists (String c pre), post. simpl. rewrite Er. now split.
    + apply in_app_or in Ht. destruct Ht as [Ht|Ht];
        [|right; exact (Hrest Ht)].
      destruct (String.eqb w ""); [destruct Ht|]. destruct Ht as [<-|[]].
      left. exists w, "", (String c r). rewrite string_app_nil.
      now repeat split.
Qed.

(** A run of word characters after an [@] is one capture, up to its end. *)
Lemma scan_mentions_run (u : string) :
  forall w post,
    all_chars is_word u = true -> word_ends post ->
    scan_mentions (Some w) (u ++ post)
    = ((if String.eqb (w ++ u)%string "" then [] else [(w ++ u)%string])
       ++ scan_mentions None post)%list.
Proof.
  induction u as [|c u IH]; intros w post Hu Hp; simpl.
  - rewrite string_app_nil. destruct post as [|c r]; simpl.
    + now rewrite app_nil_r.
    + simpl in Hp. now rewrite Hp.
  - simpl in Hu. apply andb_prop in Hu. destruct Hu as [Hc Hu].
    rewrite Hc. rewrite (IH (w ++ String c "") post Hu Hp).
    now rewrite string_app_assoc.
Qed.

(** Outside a capture, characters other than [@] are skipped. *)
Lemma scan_mentions_skip (pre s : string) :
  all_chars (fun c => negb (Ascii.eqb c "@")) pre = true ->
  scan_mentions None (pre ++ s) = scan_mentions None s.
Proof.
  induction pre as [|c pre IH]; simpl; intros H; [reflexivity|].
  apply andb_prop in H. destruct H as [Hc H].
  apply negb_true_iff in Hc. rewrite Hc. now apply IH.
Qed.

Lemma extract_mentions_step (pre u post : string) :
  all_chars (fun c => negb (Ascii.eqb c "@")) pre = true ->
  all_chars is_word u = true -> word_ends post ->
  extract_mentions (pre ++ "@" ++ u ++ post)
  = ((if String.eqb u "" then [] else [u]) ++ extract_mentions post)%list.
Proof.
  intros Hpre Hu Hp. unfold extract_mentions.
  rewrite (scan_mentions_skip pre _ Hpre). simpl.
  exact (scan_mentions_run u "" post Hu Hp).
Qed.

Lemma scan_mentions_complete (pre t post : string) :
  t <> "" -> all_chars is_word t = true -> word_ends post ->
  forall cur, In t (scan_mentions cur (pre ++ "@" ++ t ++ post)).
Proof.
  intros Hne Hw Hp.
  assert (In t (scan_mentions (Some "") (t ++ post))) as Hrun.
  { rewrite (scan_mentions_run t "" post Hw Hp). simpl.
    apply String.eqb_neq in Hne. rewrite Hne. now left. }
  induction pre as [|c pre IH]; intros cur; simpl.
  - destruct cur as [w|]; [|exact Hrun].
    apply in_or_app. right. exact Hrun.
  - destruct cur as [w|]; [|apply IH].
    destruct (is_word c); [apply IH|].
    apply in_or_app. right. apply IH.
Qed.

(** The captures of the scan are the [@token]s of the body. *)
Lemma extract_mentions_tokens (body t : string) :
  In t (extract_mentions body) <-> at_token body t.
Proof.
  unfold at_token, extract_mentions. split.
  - intros Ht. destruct (scan_mentions_words body None t I Ht) as [Hne Hw].
    split; [exact Hne|]. split; [exact Hw|].
    destruct (scan_mentions_sound body None t Ht)
      as [(w & u & post & Ew & _)|(pre & post & E & Hp)]; [discriminate Ew|].
    now exists pre, post.
  - intros (Hne & Hw & pre & post & -> & Hp).
    now apply scan_mentions_complete.
Qed.

(** C3, as amended. A comment request is validated after the mention scan:
    unless the ids of the organization, the lead and the author are UUIDs
    and the body is a string, the route answers 400 and writes nothing.
    Otherwise it stores the comment with the resolved mentions. It resolves
    each [@token] of the body against the members' names in lower case
    without whitespace: an id is recorded only for a token equal to such a
    whole name, never the author's own id, and it is recorded when the token
    names one member other than the author. So "@alicesmith" resolves to the
    member named "Alice Smith", "@alice" resolves to nobody, a self-mention
    is dropped, and every token of a body with several is looked up. *)
Theorem createComment_mentions (is_uuid : string -> bool)
    (zod_message : string -> string -> Routes.BodyField -> string -> string)
    (st : Store) (session : option string)
    (organizationId userId leadId body id : string) (now : Z)
    (orgMember : OrgMember.t) :
  member_request session organizationId userId orgMember st ->
  let members := org_members organizationId st in
  let resolved :=
    Routes.resolveMentions members userId (extract_mentions body) in
  (is_uuid organizationId = true -> is_uuid leadId = true ->
   is_uuid userId = true ->
   returns (Routes.createComment is_uuid zod_message session organizationId
              leadId (Routes.Build_BodyField body true) id now) st
           (json (BComment (LeadComment.mk id organizationId leadId body
                                           userId (or_null resolved) now))))
  /\ (forall field,
        is_uuid organizationId && is_uuid leadId && Routes.is_string field
        && is_uuid userId = false ->
        Routes.createComment is_uuid zod_message session organizationId
          leadId field id now st
        = (st, Ok (error 400 (zod_message organizationId leadId field
                                          userId))))
  /\ (forall uid, In uid resolved ->
        uid <> userId
        /\ exists token m,
             at_token body token /\ In m members
             /\ mention_name m = toLowerCase token
             /\ ref_id (member_user m) = uid)
  /\ (forall token m,
        at_token body token -> In m members ->
        mention_name m = toLowerCase token ->
        (forall m', In m' members -> mention_name m' = toLowerCase token ->
                    ref_id (member_user m') = ref_id (member_user m)) ->
        ref_id (member_user m) <> "" -> ref_id (member_user m) <> userId ->
        In (ref_id (member_user m)) resolved)
  /\ Routes.resolveMentions (org_members team_id uuid_store) carol_id
       (extract_mentions "great work @alicesmith") = [alice_id]
  /\ Routes.resolveMentions (org_members team_id uuid_store) carol_id
       (extract_mentions "great work @alice") = []
  /\ Routes.resolveMentions (org_members team_id uuid_store) alice_id
       (extract_mentions "my own @AliceSmith") = []
  /\ Routes.resolveMentions (org_members team_id uuid_store) alice_id
       (extract_mentions "ask @carol, then @Carol or @alicesmith") 
     = [carol_id; carol_id].
Proof.
  intros Hreq members resolved.
  refine (conj _ (conj _ (conj _ (conj _ (conj _ (conj _ (conj _ _)))))));
    [| | | | vm_compute; reflexivity ..].
  - intros Uo Ul Uu. unfold Routes.createComment.
    unfold returns.
    rewrite (guards_pass session organizationId userId orgMember st _ Hreq).
    apply returns_try_catch. apply returns_bind. exists resolved. split.
    { exists st. unfold resolved, members, org_members. cbn [Routes.as_string].
      destruct (extract_mentions body); reflexivity. }
    clearbody resolved.
    intros st0. apply returns_bind. eexists. split.
    { unfold returns, Routes.parseLeadComment. cbn [Routes.as_string
        Routes.is_string]. rewrite Uo, Ul, Uu. eexists. reflexivity. }
    intros st1. apply returns_bind. eexists. split.
    { unfold returns, MemStorage.createLeadComment, bind, modify, ret.
      eexists. reflexivity. }
    intros st2. apply returns_bind. exists tt. split.
    { destruct resolved as [|uid0 uids]; [apply returns_ret|].
      apply returns_bind. eexists. split.
      { unfold returns, MemStorage.getLead, gets. eexists. reflexivity. }
      intros st3. apply returns_forEach. intros x s0.
      apply returns_bind. eexists. split.
      { unfold returns, MemStorage.getUserById, gets. eexists. reflexivity. }
      intros st4. destruct (JsMap.get x (users s0)); [|apply returns_ret].
      apply returns_bind.
      match goal with
      | |- exists a, returns (MemStorage.createAuditLog ?l ?n) ?s a /\ _ =>
          destruct (returns_createAuditLog l n s) as (log & Hlog)
      end.
      exists log. split; [exact Hlog|]. intros st5. apply returns_ret. }
    intros st3. apply returns_bind.
    match goal with
    | |- exists a, returns (MemStorage.createAuditLog ?l ?n) ?s a /\ _ =>
        destruct (returns_createAuditLog l n s) as (log & Hlog)
    end.
    exists log. split; [exact Hlog|]. intros st4. apply returns_ret.
  - intros field Hbad. unfold Routes.createComment.
    rewrite (guards_pass session organizationId userId orgMember st _ Hreq).
    unfold try_catch, Routes.parseLeadComment.
    destruct (extract_mentions (Routes.as_string field));
      unfold bind, MemStorage.getOrgMembers, gets, ret; now rewrite Hbad.
  - intros uid Hin. destruct (resolveMentions_sound _ _ _ _ Hin)
      as (Hne & token & m & Ht & Hm).
    split; [exact Hne|]. exists token, m.
    split; [now apply extract_mentions_tokens | exact Hm].
  - intros token m Ht. apply resolveMentions_complete.
    now apply extract_mentions_tokens.
Qed.

Lemma createComment_mentions_witness :
  returns (Routes.createComment uuid_lowercase (fun _ _ _ _ => "invalid")
             (Some carol_id) team_id acme_id
             (Routes.Build_BodyField "great work @alicesmith" true) note_id 20)
          uuid_store
          (json (BComment
                   (LeadComment.mk note_id team_id acme_id
                      "great work @alicesmith" carol_id (Some [alice_id])
                      20))).
Proof.
  assert (member_request (Some carol_id) team_id carol_id
            (OrgMember.mk team_id carol_id "viewer" (Some alice_id) 3
                          (Some 3%Z) 3)
            uuid_store) as Hreq.
  { unfold member_request. repeat split; try discriminate; reflexivity. }
  assert (uuid_lowercase team_id = true) as Uo by reflexivity.
  assert (uuid_lowercase acme_id = true) as Ul by reflexivity.
  assert (uuid_lowercase carol_id = true) as Uu by reflexivity.
  exact (proj1 (createComment_mentions uuid_lowercase
                  (fun _ _ _ _ => "invalid") uuid_store (Some carol_id)
                  team_id carol_id acme_id "great work @alicesmith" note_id 20
                  _ Hreq) Uo Ul Uu).
Defined.

(** C3 as stated fails on its own example: with a member named
    "Alice Smith" in the organization, "great work @alice" resolves to
    nobody, and the comment is stored without a mention. *)
Lemma createComment_first_name_unresolved :
  map (fun m => (ref_id (member_user m), ref_name (member_user m)))
      (org_members team_id uuid_store)
  = [(alice_id, "Alice Smith"); (carol_id, "Carol")]
  /\ Routes.resolveMentions (org_members team_id uuid_store) carol_id
                            (extract_mentions "great work @alice") = []
  /\ snd (Routes.createComment uuid_lowercase (fun _ _ _ _ => "invalid")
            (Some carol_id) team_id acme_id
            (Routes.Build_BodyField "great work @alice" true) note_id 20
            uuid_store)
     = Ok (json (BComment (LeadComment.mk note_id team_id acme_id
                             "great work @alice" carol_id None 20)))
  /\ ~ In alice_id
          (Routes.resolveMentions (org_members team_id uuid_store) carol_id
                                  (extract_mentions "great work @alice")).
Proof.
  split; [vm_compute; reflexivity|]. split; [vm_compute; reflexivity|].
  split; [vm_compute; reflexivity|]. vm_compute. tauto.
Qed.

(* ================================================================== *)
(** * Further properties of the store and of the routes *)

(* ------------------------------------------------------------------ *)
(** ** Order of the listings *)

Section SortFacts.
Variable A : Type.
Variable key : A -> Z.
Variable cmp : A -> A -> Z.
Hypothesis cmp_key : forall a b, cmp a b = (key a - key b)%Z.

Let le_key (a b : A) : Prop := (key a <= key b)%Z.

Lemma insert_sorted_ordered (x : A) (l : list A) :
  StronglySorted le_key l -> StronglySorted le_key (insert_sorted cmp x l).
Proof.
  induction l as [|y r IH]; simpl; intros HS.
  - repeat constructor.
  - inversion HS as [|? ? Hr Hall]; subst.
    destruct (cmp x y <=? 0)%Z eqn:E.
    + apply Z.leb_le in E. rewrite cmp_key in E.
      constructor; [assumption|]. constructor; [unfold le_key; lia|].
      eapply Forall_impl; [|exact Hall]. unfold le_key. intros z Hz. lia.
    + apply Z.leb_gt in E. rewrite cmp_key in E.
      constructor; [now apply IH|].
      apply (Permutation_Forall (Permutation_sym (insert_sorted_perm A cmp x r))).
      constructor; [unfold le_key; lia | assumption].
Qed.

Lemma sort_ordered (l : list A) : StronglySorted le_key (sort cmp l).
Proof.
  induction l as [|x r IH]; simpl; [constructor|].
  now apply insert_sorted_ordered.
Qed.
End SortFacts.

Lemma StronglySorted_weaken (A : Type) (R R' : A -> A -> Prop) (l : list A) :
  (forall a b, R a b -> R' a b) -> StronglySorted R l -> StronglySorted R' l.
Proof.
  intros H HS. induction HS as [|x r Hr IH Hall]; constructor;
    [assumption|]. eapply Forall_impl; [|exact Hall]. intros z. apply H.
Qed.

Lemma comment_in_single (id orgId : string) (c : LeadComment.t) :
  String.eqb (LeadComment.leadId c) id && String.eqb (LeadComment.orgId c) orgId
  = comment_in [id] orgId c.
Proof.
  unfold comment_in. simpl.
  destruct (String.eqb (LeadComment.leadId c) id),
           (String.eqb (LeadComment.orgId c) orgId); reflexivity.
Qed.

Lemma getLeadComments_rows (leadId orgId : string) (st : Store) :
  exists l,
    MemStorage.getLeadComments leadId orgId st = (st, Ok l)
    /\ map comment l
       = sort (fun a b => (LeadComment.createdAt a - LeadComment.createdAt b)%Z)
              (filter (comment_in [leadId] orgId)
                      (JsMap.values (leadComments st))).
Proof.
  eexists. split; [reflexivity|]. rewrite map_map.
  rewrite (map_ext _ (fun c => c))
    by (intros c; now destruct (JsMap.get _ (users st))).
  rewrite map_id.
  now rewrite (filter_ext _ _ (comment_in_single leadId orgId)).
Qed.

(** X1. The four listings of the pipeline tree return exactly the rows that
    match, in the order of the class: pipelines by [createdAt] ascending,
    stages by [order] ascending, leads by [updatedAt] descending, comments by
    [createdAt] ascending; none changes the store. *)
Theorem listings_are_ordered (st : Store)
    (orgId pipelineId stageId leadId : string) :
  (exists l,
     MemStorage.getPipelines orgId st = (st, Ok l)
     /\ Permutation l
          (filter (fun p => String.eqb (Pipeline.orgId p) orgId)
                  (JsMap.values (pipelines st)))
     /\ StronglySorted
          (fun a b => (Pipeline.createdAt a <= Pipeline.createdAt b)%Z) l)
  /\ (exists l,
        MemStorage.getStages pipelineId orgId st = (st, Ok l)
        /\ Permutation l
             (filter (stage_in pipelineId orgId) (JsMap.values (stages st)))
        /\ StronglySorted (fun a b => (Stage.order a <= Stage.order b)%Z) l)
  /\ (exists l,
        MemStorage.getLeads stageId orgId st = (st, Ok l)
        /\ Permutation l
             (filter (lead_in [stageId] orgId) (JsMap.values (leads st)))
        /\ StronglySorted
             (fun a b => (Lead.updatedAt b <= Lead.updatedAt a)%Z) l)
  /\ (exists l,
        MemStorage.getLeadComments leadId orgId st = (st, Ok l)
        /\ Permutation (map comment l)
             (filter (comment_in [leadId] orgId)
                     (JsMap.values (leadComments st)))
        /\ StronglySorted
             (fun a b => (LeadComment.createdAt a <= LeadComment.createdAt b)%Z)
             (map comment l)).
Proof.
  refine (conj _ (conj _ (conj _ _))).
  - eexists. split; [reflexivity|]. split; [apply sort_perm|].
    apply (sort_ordered _ Pipeline.createdAt). reflexivity.
  - eexists. split; [reflexivity|]. split; [apply sort_perm|].
    apply (sort_ordered _ Stage.order). reflexivity.
  - eexists. split; [reflexivity|]. split.
    + rewrite <- (filter_ext _ _ (lead_in_single stageId orgId)).
      apply sort_perm.
    + apply (StronglySorted_weaken _
               (fun a b => (- Lead.updatedAt a <= - Lead.updatedAt b)%Z)).
      * intros a b. lia.
      * apply (sort_ordered _ (fun l => (- Lead.updatedAt l)%Z)).
        intros a b. lia.
  - destruct (getLeadComments_rows leadId orgId st) as (l & Hrun & Hl).
    exists l. split; [exact Hrun|]. rewrite Hl. split; [apply sort_perm|].
    apply (sort_ordered _ LeadComment.createdAt). reflexivity.
Qed.

(* ------------------------------------------------------------------ *)
(** ** Settings *)

Lemma composite_key_injective (a a' b b' : string) :
  String.length a = String.length a' ->
  a ++ "-" ++ b = a' ++ "-" ++ b' -> a = a' /\ b = b'.
Proof.
  revert a'. induction a as [|c a IH]; intros [|c' a'] Hlen H;
    simpl in *; try discriminate.
  - injection H as H. auto.
  - injection H as Hc H. injection Hlen as Hlen.
    destruct (IH a' Hlen H) as [-> ->]. subst. auto.
Qed.

Lemma sample_store_wf_settings : wf_settings sample_store.
Proof. split; [constructor | intros k v []]. Qed.

(** The effect of [setSetting] on lookups and listings. *)
Lemma setSetting_effect (st : Store) (orgId key : string) (value : Json)
    (updatedBy : string) (now : Z) :
  let written := Setting.mk orgId key value updatedBy now in
  let st' := exec (MemStorage.setSetting orgId key value updatedBy now) st in
  MemStorage.setSetting orgId key value updatedBy now st = (st', Ok written)
  /\ MemStorage.getSetting orgId key st' = (st', Ok (Some written))
  /\ (forall orgId' key',
        String.length orgId' = String.length orgId ->
        (orgId', key') <> (orgId, key) ->
        snd (MemStorage.getSetting orgId' key' st')
        = snd (MemStorage.getSetting orgId' key' st))
  /\ (wf_settings st ->
      wf_settings st'
      /\ exists l,
           MemStorage.getSettings orgId st' = (st', Ok l)
           /\ filter (fun s => String.eqb (Setting.key s) key) l = [written]).
Proof.
  intros written st'. refine (conj eq_refl (conj _ (conj _ _))).
  - unfold MemStorage.getSetting, gets. simpl.
    now rewrite get_set, String.eqb_refl.
  - intros orgId' key' Hlen Hne.
    unfold MemStorage.getSetting, gets, st', exec, MemStorage.setSetting,
      bind, modify, ret.
    cbv beta iota delta [fst snd settings with_settings]. rewrite get_set.
    destruct (String.eqb (orgId ++ "-" ++ key) (orgId' ++ "-" ++ key')) eqn:E;
      [|reflexivity].
    apply String.eqb_eq in E. symmetry in Hlen.
    destruct (composite_key_injective _ _ _ _ Hlen E) as [-> ->].
    now contradiction Hne.
  - intros WF. split; [now apply indexed_set|].
    eexists. split; [reflexivity|]. simpl. rewrite filter_filter.
    apply (filter_values_set_unique _ setting_key); [exact WF | |].
    + simpl. now rewrite !String.eqb_refl.
    + intros s Hs. apply andb_true_iff in Hs. destruct Hs as [E1 E2].
      apply String.eqb_eq in E1, E2. unfold setting_key. now rewrite E1, E2.
Qed.

(** X2. [setSetting] is an upsert. The setting written is the one [getSetting]
    then returns; a lookup under another organization id of the same length,
    or under another key, returns what it returned before; and when rows
    are stored under their own key, the organization then holds exactly one
    setting for the key. *)
Theorem setSetting_is_upsert (st : Store) (orgId key : string) (value : Json)
    (updatedBy : string) (now : Z) :
  let written := Setting.mk orgId key value updatedBy now in
  let st' := exec (MemStorage.setSetting orgId key value updatedBy now) st in
  MemStorage.setSetting orgId key value updatedBy now st = (st', Ok written)
  /\ MemStorage.getSetting orgId key st' = (st', Ok (Some written))
  /\ (forall orgId' key',
        String.length orgId' = String.length orgId ->
        (orgId', key') <> (orgId, key) ->
        snd (MemStorage.getSetting orgId' key' st')
        = snd (MemStorage.getSetting orgId' key' st))
  /\ (wf_settings st ->
      wf_settings st'
      /\ exists l,
           MemStorage.getSettings orgId st' = (st', Ok l)
           /\ filter (fun s => String.eqb (Setting.key s) key) l = [written]).
Proof. exact (setSetting_effect st orgId key value updatedBy now). Qed.

Lemma setSetting_is_upsert_witness :
  wf_settings
    (exec (MemStorage.setSetting "o1" "airtable.baseId" (JStr "app1") "u1" 30)
          sample_store)
  /\ exists l,
       MemStorage.getSettings "o1"
         (exec (MemStorage.setSetting "o1" "airtable.baseId" (JStr "app1")
                                      "u1" 30) sample_store)
       = (exec (MemStorage.setSetting "o1" "airtable.baseId" (JStr "app1")
                                      "u1" 30) sample_store, Ok l)
       /\ filter (fun s => String.eqb (Setting.key s) "airtable.baseId") l
          = [Setting.mk "o1" "airtable.baseId" (JStr "app1") "u1" 30].
Proof.
  exact (proj2 (proj2 (proj2 (setSetting_is_upsert sample_store "o1"
                                "airtable.baseId" (JStr "app1") "u1" 30)))
           sample_store_wf_settings).
Defined.

Lemma api_guards_pass (session : option string) (organizationId userId : string)
    (orgMember : OrgMember.t) (st : Store)
    (next : string -> string -> OrgMember.t -> M Api.Answer) :
  member_request session organizationId userId orgMember st ->
  Api.requireAuth session
    (fun uid => Api.requireOrgAccess (Some organizationId) uid (next uid)) st
  = next userId organizationId orgMember st.
Proof.
  intros (-> & Hu & Ho & G).
  apply String.eqb_neq in Hu, Ho.
  unfold Api.requireAuth, str_or_null. rewrite Hu.
  unfold Api.requireOrgAccess, str_or_null. rewrite Hu, Ho.
  unfold bind, MemStorage.getOrgMember, gets. now rewrite G.
Qed.

Lemma get_settingsMap_fold (k : string) (v : Json) (l : list Setting.t) :
  k <> "__proto__" ->
  forall acc : JsMap.t Json,
  (exists s, In s l /\ Setting.key s = k) \/ JsMap.get k acc = Some v ->
  (forall s, In s l -> Setting.key s = k -> Setting.value s = v) ->
  JsMap.get k
    (fold_left
       (fun acc setting =>
          if String.eqb (Setting.key setting) "__proto__" then acc
          else JsMap.set (Setting.key setting) (Setting.value setting) acc)
       l acc) = Some v.
Proof.
  intros Hk. induction l as [|s r IH]; intros acc H Hv; simpl.
  - destruct H as [(s & [] & _) | H]. exact H.
  - apply IH; [|intros s' Hs'; apply Hv; now right].
    destruct (String.eqb (Setting.key s) k) eqn:E.
    + apply String.eqb_eq in E. right.
      apply String.eqb_neq in Hk. rewrite E, Hk, get_set, String.eqb_refl.
      f_equal. apply Hv; [now left | assumption].
    + destruct H as [(s' & [<- | Hs'] & E') | H].
      * rewrite E', String.eqb_refl in E. discriminate.
      * left. now exists s'.
      * right. destruct (String.eqb (Setting.key s) "__proto__");
          [assumption|]. now rewrite get_set, E.
Qed.

Lemma settingsMap_has_no_proto (l : list Setting.t) :
  JsMap.get "__proto__" (Api.settingsMap l) = None.
Proof.
  unfold Api.settingsMap. generalize (@JsMap.empty Json) (eq_refl : JsMap.get "__proto__" (@JsMap.empty Json) = None).
  induction l as [|s r IH]; intros acc Hacc; simpl; [assumption|].
  apply IH. destruct (String.eqb (Setting.key s) "__proto__") eqn:E;
    [assumption|]. now rewrite get_set, E.
Qed.

(** X3. A setting that an admin puts is the value that the settings listing of
    the organization then shows under its key; the put appends one audit
    entry. The key [__proto__] is the exception: the listing never shows
    it. *)
Theorem putSetting_then_listed (st : Store) (session : option string)
    (organizationId userId key : string) (value : Json) (now : Z)
    (orgMember : OrgMember.t) :
  member_request session organizationId userId orgMember st ->
  OrgMember.role orgMember = "admin" ->
  wf_settings st ->
  exists st1 log,
    Api.putSetting session organizationId key value now st
    = (st1, Ok (Api.json (Api.PSetting
                            (Setting.mk organizationId key value userId now))))
    /\ auditLogs st1 = (auditLogs st ++ [log])%list
    /\ exists fields,
         Api.getSettings session organizationId st1
         = (st1, Ok (Api.json (Api.PSettingsMap fields)))
         /\ JsMap.get "__proto__" fields = None
         /\ (key <> "__proto__" -> JsMap.get key fields = Some value).
Proof.
  intros Hreq Hrole WF.
  destruct (setSetting_effect st organizationId key value userId now)
    as (_ & _ & _ & Hup).
  destruct (Hup WF) as (_ & l & Hl & Hfilter).
  unfold MemStorage.getSettings, gets in Hl. injection Hl as Hl.
  eexists. eexists. split; [|split].
  - unfold Api.putSetting.
    rewrite (api_guards_pass session organizationId userId orgMember st _ Hreq).
    rewrite Hrole. reflexivity.
  - reflexivity.
  - eexists. split; [|split].
    + unfold Api.getSettings.
      rewrite (api_guards_pass session organizationId userId orgMember _ _);
        [reflexivity | exact Hreq].
    + apply settingsMap_has_no_proto.
    + intros Hk. unfold Api.settingsMap.
      assert (forall s, In s l -> Setting.key s = key ->
                        s = Setting.mk organizationId key value userId now)
        as Honly.
      { intros s Hs Es.
        assert (In s (filter (fun s => String.eqb (Setting.key s) key) l))
          as Hin by (apply filter_In; split;
                     [assumption | now rewrite Es, String.eqb_refl]).
        rewrite Hfilter in Hin. destruct Hin as [<- | []]. reflexivity. }
      assert (In (Setting.mk organizationId key value userId now) l) as Hin.
      { assert (In (Setting.mk organizationId key value userId now)
                   (filter (fun s => String.eqb (Setting.key s) key) l))
          as H by (rewrite Hfilter; now left).
        apply filter_In in H. tauto. }
      subst l.
      apply get_settingsMap_fold; [assumption| |].
      * left. eexists. split; [exact Hin | reflexivity].
      * intros s Hs Es. now rewrite (Honly s Hs Es).
Qed.

Lemma putSetting_then_listed_witness :
  exists st1 log,
    Api.putSetting (Some "u1") "o1" "airtable.baseId" (JStr "app1") 30
                   sample_store
    = (st1, Ok (Api.json (Api.PSetting
                            (Setting.mk "o1" "airtable.baseId" (JStr "app1")
                                        "u1" 30))))
    /\ auditLogs st1 = (auditLogs sample_store ++ [log])%list
    /\ exists fields,
         Api.getSettings (Some "u1") "o1" st1
         = (st1, Ok (Api.json (Api.PSettingsMap fields)))
         /\ JsMap.get "__proto__" fields = None
         /\ ("airtable.baseId" <> "__proto__" ->
             JsMap.get "airtable.baseId" fields = Some (JStr "app1")).
Proof.
  assert (member_request (Some "u1") "o1" "u1"
            (OrgMember.mk "o1" "u1" "admin" (Some "u1") 1 (Some 1%Z) 1)
            sample_store) as Hreq.
  { unfold member_request. repeat split; try discriminate; reflexivity. }
  exact (putSetting_then_listed sample_store (Some "u1") "o1" "u1"
           "airtable.baseId" (JStr "app1") 30 _ Hreq eq_refl
           sample_store_wf_settings).
Defined.

(* ------------------------------------------------------------------ *)
(** ** Subscriptions *)

Lemma set_set (V : Type) (k : string) (v v' : V) (m : JsMap.t V) :
  JsMap.set k v (JsMap.set k v' m) = JsMap.set k v m.
Proof.
  induction m as [|[k0 v0] r IH]; simpl.
  - now rewrite String.eqb_refl.
  - destruct (String.eqb k0 k) eqn:E; simpl.
    + now rewrite String.eqb_refl.
    + now rewrite E, IH.
Qed.

Lemma subscription_merge_twice (s : Subscription.t) (u : SubscriptionUpdate.t) :
  SubscriptionUpdate.merge (SubscriptionUpdate.merge s u) u
  = SubscriptionUpdate.merge s u.
Proof.
  destruct u as [[?|] [?|] [?|] [?|] [?|] [?|]]; reflexivity.
Qed.

(** X4. [updateSubscription] stores what it returns, and [getSubscription] reads
    it back. On an existing subscription it keeps the stored [updatedAt]
    unless the update carries one: the instant of the call is not recorded.
    Repeating the same update changes nothing more. *)
Theorem updateSubscription_merges (st : Store) (orgId : string)
    (updates : SubscriptionUpdate.t) (now : Z) :
  exists st' result,
    MemStorage.updateSubscription orgId updates now st = (st', Ok result)
    /\ MemStorage.getSubscription orgId st' = (st', Ok (Some result))
    /\ (forall existing,
          JsMap.get orgId (subscriptions st) = Some existing ->
          SubscriptionUpdate.updatedAt updates = None ->
          Subscription.updatedAt result = Subscription.updatedAt existing)
    /\ (JsMap.get orgId (subscriptions st) = None ->
        result
        = SubscriptionUpdate.merge
            (Subscription.mk orgId "free" "active" None (JObj []) now) updates)
    /\ (forall later,
          MemStorage.updateSubscription orgId updates later st'
          = (st', Ok result)).
Proof.
  unfold MemStorage.updateSubscription, MemStorage.getSubscription, bind, gets,
    modify, ret.
  eexists. eexists. split; [reflexivity|].
  cbv beta iota delta [subscriptions with_subscriptions].
  split; [|split; [|split]].
  - now rewrite get_set, String.eqb_refl.
  - intros existing G Hu. rewrite G. unfold SubscriptionUpdate.merge. simpl.
    now rewrite Hu.
  - intros G. now rewrite G.
  - intros later. rewrite get_set, String.eqb_refl.
    rewrite subscription_merge_twice. unfold with_subscriptions. simpl.
    now rewrite set_set.
Qed.

Lemma updateSubscription_merges_witness :
  exists st' result,
    MemStorage.updateSubscription "o1"
      (SubscriptionUpdate.mk None (Some "pro") None None None None) 99
      sample_store = (st', Ok result)
    /\ Subscription.plan result = "pro"
    /\ Subscription.updatedAt result = 1%Z.
Proof.
  destruct (updateSubscription_merges sample_store "o1"
              (SubscriptionUpdate.mk None (Some "pro") None None None None) 99)
    as (st' & result & Hrun & _ & Hkeep & _).
  exists st', result. split; [exact Hrun|]. split.
  - injection Hrun as _ <-. reflexivity.
  - apply (Hkeep (Subscription.mk "o1" "free" "active" None (JObj []) 1));
      reflexivity.
Defined.

(* ------------------------------------------------------------------ *)
(** ** The audit log *)

Lemma firstn_incl (A : Type) (k : nat) (l : list A) (x : A) :
  In x (firstn k l) -> In x l.
Proof.
  intros H. rewrite <- (firstn_skipn k l). apply in_or_app. now left.
Qed.

Lemma StronglySorted_firstn (A : Type) (R : A -> A -> Prop) (k : nat)
    (l : list A) :
  StronglySorted R l -> StronglySorted R (firstn k l).
Proof.
  revert k. induction l as [|x r IH]; intros [|k] HS; simpl;
    try constructor.
  - inversion HS; subst. now apply IH.
  - inversion HS as [|? ? _ Hall]; subst.
    apply Forall_forall. intros y Hy. apply firstn_incl in Hy.
    revert y Hy. now apply Forall_forall.
Qed.

(** X5. [createAuditLog] only appends: the entries already logged stay as they
    are, the new entry comes last, and when the log holds the ids 1..n the new
    entry gets n+1, an id no earlier entry has. *)
Theorem createAuditLog_appends (st : Store) (insertLog : InsertAuditLog.t)
    (now : Z) :
  wf_audit st ->
  exists log,
    MemStorage.createAuditLog insertLog now st
    = (with_auditLogs (fun logs => (logs ++ [log])%list) st, Ok log)
    /\ AuditLog.id log = (Z.of_nat (List.length (auditLogs st)) + 1)%Z
    /\ (forall old, In old (auditLogs st) -> AuditLog.id old <> AuditLog.id log)
    /\ wf_audit (with_auditLogs (fun logs => (logs ++ [log])%list) st).
Proof.
  intros WF.
  unfold MemStorage.createAuditLog, bind, gets, modify, ret.
  eexists. split; [reflexivity|]. split; [reflexivity|]. split.
  - intros old Hold. simpl.
    assert (In (AuditLog.id old) (map AuditLog.id (auditLogs st))) as H
      by now apply in_map.
    rewrite WF in H. apply in_map_iff in H. destruct H as (i & <- & Hi).
    apply in_seq in Hi. lia.
  - unfold wf_audit in *. simpl.
    rewrite map_app, length_app, WF. simpl.
    rewrite Nat.add_1_r, seq_S, map_app. simpl. do 3 f_equal. lia.
Qed.

Lemma createAuditLog_appends_witness :
  exists log,
    MemStorage.createAuditLog
      (InsertAuditLog.mk "o1" (Some "u1") "create" "pipeline" (Some "p1") None)
      7 ann_store
    = (with_auditLogs (fun logs => (logs ++ [log])%list) ann_store, Ok log)
    /\ AuditLog.id log = 2%Z.
Proof.
  destruct (createAuditLog_appends ann_store
              (InsertAuditLog.mk "o1" (Some "u1") "create" "pipeline"
                                 (Some "p1") None) 7 eq_refl)
    as (log & Hrun & Hid & _).
  exists log. split; [exact Hrun | exact Hid].
Defined.

(** X6. A page of the audit log holds entries of the organization only, newest
    first. With a limit of 0 or more it holds that many entries, or all if
    there are fewer; a negative limit cuts that many entries off the old
    end instead. The route asks for 50 when the query has no usable limit or
    has 0. *)
Theorem getAuditLogs_page (st : Store) (orgId : string) (limit : Z) :
  let count :=
    Z.of_nat (List.length (filter (fun log => String.eqb (AuditLog.orgId log)
                                                         orgId)
                                  (auditLogs st))) in
  exists page,
    MemStorage.getAuditLogs orgId (Some limit) st = (st, Ok page)
    /\ (forall log, In log page ->
          AuditLog.orgId log = orgId /\ In log (auditLogs st))
    /\ StronglySorted
         (fun a b => (AuditLog.createdAt b <= AuditLog.createdAt a)%Z) page
    /\ ((0 <= limit)%Z ->
        Z.of_nat (List.length page) = Z.min limit count)
    /\ ((limit < 0)%Z ->
        Z.of_nat (List.length page) = Z.max (count + limit) 0)
    /\ (forall session,
          Api.getAuditLogs session orgId None st
          = Api.getAuditLogs session orgId (Some 50%Z) st
          /\ Api.getAuditLogs session orgId (Some 0%Z) st
             = Api.getAuditLogs session orgId (Some 50%Z) st).
Proof.
  intros count. eexists. split; [reflexivity|].
  set (sorted := sort _ _).
  assert (Z.of_nat (List.length sorted) = count) as Hlen
    by (unfold sorted; now rewrite sort_length).
  split; [|split; [|split; [|split]]].
  - intros log H. unfold MemStorage.slice0 in H. apply firstn_incl in H.
    apply sort_In in H. apply filter_In in H. destruct H as [H E].
    apply String.eqb_eq in E. auto.
  - apply StronglySorted_firstn.
    apply (StronglySorted_weaken _
             (fun a b => (- AuditLog.createdAt a <= - AuditLog.createdAt b)%Z)).
    + intros a b. lia.
    + apply (sort_ordered _ (fun l => (- AuditLog.createdAt l)%Z)).
      intros a b. lia.
  - intros H. unfold MemStorage.slice0. rewrite length_firstn, Hlen.
    apply Z.ltb_ge in H. rewrite H. lia.
  - intros H. unfold MemStorage.slice0. rewrite length_firstn, Hlen.
    apply Z.ltb_lt in H. rewrite H. lia.
  - intros session. split; reflexivity.
Qed.

(* ------------------------------------------------------------------ *)
(** ** Statistics *)

(** X7. The numbers of [getOrganizationStats] are the lengths of the listings
    of the same organization: members, API keys and pipelines; the pipeline
    count is the one the plan limit is checked against. Without a
    subscription both metered counters are 0. *)
Theorem stats_match_listings (st : Store) (orgId : string) :
  exists stats members keys pipelines,
    MemStorage.getOrganizationStats orgId st = (st, Ok stats)
    /\ MemStorage.getOrgMembers orgId st = (st, Ok members)
    /\ MemStorage.getApiKeys orgId st = (st, Ok keys)
    /\ MemStorage.getPipelines orgId st = (st, Ok pipelines)
    /\ stat_members stats = List.length members
    /\ stat_apiKeys stats = List.length keys
    /\ stat_pipelines stats = List.length pipelines
    /\ stat_pipelines stats = pipeline_count orgId st
    /\ (JsMap.get orgId (subscriptions st) = None ->
        stat_operations stats = JNum 0 /\ stat_tables stats = JNum 0).
Proof.
  unfold MemStorage.getOrganizationStats, MemStorage.getOrgMembers,
    MemStorage.getApiKeys, MemStorage.getPipelines, gets.
  do 4 eexists. do 4 (split; [reflexivity|]).
  cbv beta iota delta [stat_members stat_apiKeys stat_pipelines
                       stat_operations stat_tables].
  split; [now rewrite length_map|]. split; [reflexivity|].
  split; [now rewrite sort_length|]. split; [reflexivity|].
  intros G. rewrite G. split; reflexivity.
Qed.

(* ------------------------------------------------------------------ *)
(** ** After the cascade *)

Lemma flat_map_nil (A B : Type) (f : A -> list B) (l : list A) :
  (forall x, In x l -> f x = []) -> flat_map f l = [].
Proof.
  induction l as [|x r IH]; simpl; intros H; [reflexivity|].
  rewrite (H x (or_introl eq_refl)). apply IH. intros y Hy. apply H. now right.
Qed.

Lemma filter_none (A : Type) (f : A -> bool) (l : list A) :
  (forall x, In x l -> f x = false) -> filter f l = [].
Proof.
  induction l as [|x r IH]; simpl; intros H; [reflexivity|].
  rewrite (H x (or_introl eq_refl)). apply IH. intros y Hy. apply H. now right.
Qed.

Lemma getLeadsByPipeline_no_stage (pipelineId orgId : string) (st : Store) :
  filter (stage_in pipelineId orgId) (JsMap.values (stages st)) = [] ->
  MemStorage.getLeadsByPipeline pipelineId orgId st = (st, Ok []).
Proof.
  intros H. unfold MemStorage.getLeadsByPipeline, MemStorage.getStages, bind,
    gets.
  fold (stage_in pipelineId orgId). rewrite H. simpl.
  rewrite flat_map_nil; [reflexivity|].
  intros l _. now destruct (String.eqb (Lead.orgId l) orgId).
Qed.

(** X8. Once [deletePipeline] has removed a pipeline of the organization, the
    reads of that pipeline come back empty: [getPipeline] finds nothing,
    [getStages] and [getLeadsByPipeline] return no row, and the detail route
    answers 404. *)
Theorem deletePipeline_then_reads (st : Store) (P O : string)
    (p : Pipeline.t) :
  wf_tree st ->
  JsMap.get P (pipelines st) = Some p -> Pipeline.orgId p = O ->
  exists st',
    MemStorage.deletePipeline P O st = (st', Ok tt)
    /\ MemStorage.getPipeline P O st' = (st', Ok None)
    /\ MemStorage.getStages P O st' = (st', Ok [])
    /\ MemStorage.getLeadsByPipeline P O st' = (st', Ok [])
    /\ forall session userId orgMember,
         member_request session O userId orgMember st' ->
         Api.getPipeline session O P st'
         = (st', Ok (Api.error 404 "Pipeline not found")).
Proof.
  intros WF G E. exists (cascade P O st).
  assert (filter (stage_in P O) (JsMap.values (stages (cascade P O st))) = [])
    as Hstages.
  { unfold cascade, prune. simpl.
    rewrite (values_filter _ _ (fun s => negb (stage_in P O s))).
    rewrite filter_filter. apply filter_none. intros s _.
    now destruct (stage_in P O s). }
  assert (MemStorage.getPipeline P O (cascade P O st)
          = (cascade P O st, Ok None)) as Hget.
  { unfold MemStorage.getPipeline, gets. simpl.
    fold (JsMap.delete P (pipelines st)). now rewrite get_delete_same. }
  split; [now apply (deletePipeline_found P O st p)|].
  split; [exact Hget|]. split; [|split].
  - unfold MemStorage.getStages, gets. fold (stage_in P O).
    now rewrite Hstages.
  - now apply getLeadsByPipeline_no_stage.
  - intros session userId orgMember Hreq. unfold Api.getPipeline.
    rewrite (api_guards_pass session O userId orgMember _ _ Hreq).
    unfold try_catch, bind. now rewrite Hget.
Qed.

Lemma deletePipeline_then_reads_witness :
  exists st',
    MemStorage.deletePipeline "p1" "o1" sample_store = (st', Ok tt)
    /\ MemStorage.getStages "p1" "o1" st' = (st', Ok [])
    /\ MemStorage.getLeadsByPipeline "p1" "o1" st' = (st', Ok []).
Proof.
  destruct (deletePipeline_then_reads sample_store "p1" "o1"
              (Pipeline.mk "p1" "o1" "Sales" 5) sample_store_wf_tree
              eq_refl eq_refl) as (st' & H1 & _ & H2 & H3 & _).
  exists st'. auto.
Defined.

(* ------------------------------------------------------------------ *)
(** ** Deletions stay inside the organization *)








(* ------------------------------------------------------------------ *)
(** ** The store invariant is kept *)

Lemma wf_tree_prune fp fs fl fc (st : Store) :
  wf_tree st -> wf_tree (prune fp fs fl fc st).
Proof.
  intros (WS & WL & WC). unfold wf_tree, prune. simpl.
  split; [|split]; now apply indexed_filter.
Qed.

Lemma forEach_invariant (A : Type) (I : Store -> Prop) (body : A -> M unit)
    (l : list A) :
  (forall x s, I s -> I (exec (body x) s)) ->
  forall st, I st -> I (exec (forEach l body) st).
Proof.
  intros Hbody. induction l as [|x r IH]; intros st Hst; [exact Hst|].
  unfold exec. simpl. unfold bind.
  specialize (Hbody x st Hst). unfold exec in Hbody.
  destruct (body x st) as [st1 [[]|e]]; simpl in *.
  - now apply IH.
  - exact Hbody.
Qed.

Lemma updateStage_wf (id orgId : string) (u : Stage.partial) (st : Store) :
  Stage.p_id u = None -> wf_tree st ->
  wf_tree (exec (MemStorage.updateStage id orgId u) st).
Proof.
  intros Hu (WS & WL & WC). unfold exec, MemStorage.updateStage,
    MemStorage.getStage, bind, gets, modify, ret, throw.
  destruct (JsMap.get id (stages st)) as [s|] eqn:G;
    [|exact (conj WS (conj WL WC))].
  destruct (String.eqb (Stage.orgId s) orgId);
    [|exact (conj WS (conj WL WC))].
  simpl. refine (conj _ (conj WL WC)).
  apply indexed_set; [exact WS|]. unfold Stage.merge. rewrite Hu. simpl.
  now apply (indexed_get _ Stage.id (stages st)).
Qed.

Lemma updateLead_wf (id orgId : string) (u : Lead.partial) (now : Z)
    (st : Store) :
  Lead.p_id u = None -> wf_tree st ->
  wf_tree (exec (MemStorage.updateLead id orgId u now) st).
Proof.
  intros Hu (WS & WL & WC). unfold exec, MemStorage.updateLead,
    MemStorage.getLead, bind, gets, modify, ret, throw.
  destruct (JsMap.get id (leads st)) as [l|] eqn:G;
    [|exact (conj WS (conj WL WC))].
  destruct (String.eqb (Lead.orgId l) orgId);
    [|exact (conj WS (conj WL WC))].
  simpl. refine (conj WS (conj _ WC)).
  apply indexed_set; [exact WL|]. unfold Lead.merge. rewrite Hu. simpl.
  now apply (indexed_get _ Lead.id (leads st)).
Qed.

Lemma deleteLead_wf (id orgId : string) (st : Store) :
  wf_tree st -> wf_tree (exec (MemStorage.deleteLead id orgId) st).
Proof.
  intros WF. destruct (JsMap.get id (leads st)) as [l|] eqn:G.
  - destruct (String.eqb (Lead.orgId l) orgId) eqn:E.
    + apply String.eqb_eq in E. unfold exec.
      rewrite (deleteLead_found id orgId st l (proj2 (proj2 WF)) G E).
      now apply wf_tree_prune.
    + unfold exec, MemStorage.deleteLead, MemStorage.getLead, bind, gets, ret.
      now rewrite G, E.
  - unfold exec, MemStorage.deleteLead, MemStorage.getLead, bind, gets, ret.
    now rewrite G.
Qed.

Lemma deleteStage_wf (id orgId : string) (st : Store) :
  wf_tree st -> wf_tree (exec (MemStorage.deleteStage id orgId) st).
Proof.
  intros WF. destruct (JsMap.get id (stages st)) as [s|] eqn:G.
  - destruct (String.eqb (Stage.orgId s) orgId) eqn:E.
    + apply String.eqb_eq in E. unfold exec.
      rewrite (deleteStage_found id orgId st s (proj1 (proj2 WF))
                 (proj2 (proj2 WF)) G E).
      now apply wf_tree_prune.
    + unfold exec, MemStorage.deleteStage, MemStorage.getStage, bind, gets,
        ret. now rewrite G, E.
  - unfold exec, MemStorage.deleteStage, MemStorage.getStage, bind, gets, ret.
    now rewrite G.
Qed.

Lemma deletePipeline_wf (id orgId : string) (st : Store) :
  wf_tree st -> wf_tree (exec (MemStorage.deletePipeline id orgId) st).
Proof.
  intros WF. destruct (JsMap.get id (pipelines st)) as [p|] eqn:G.
  - destruct (String.eqb (Pipeline.orgId p) orgId) eqn:E.
    + apply String.eqb_eq in E. unfold exec.
      rewrite (deletePipeline_found id orgId st p WF G E).
      now apply wf_tree_prune.
    + unfold exec, MemStorage.deletePipeline, MemStorage.getPipeline, bind,
        gets, ret. now rewrite G, E.
  - unfold exec, MemStorage.deletePipeline, MemStorage.getPipeline, bind,
      gets, ret. now rewrite G.
Qed.

(** X10. Every method of the store that writes stages, leads or comments keeps
    them stored under their own id ([wf_tree]): the three [create*], the
    four [delete*], [moveLeadToStage], [reorderStages] (also when it stops
    half way), and [updateStage] and [updateLead] as long as the update does
    not carry an [id]. *)
Theorem wf_tree_is_kept (st : Store) :
  wf_tree st ->
  (forall ins id now, wf_tree (exec (MemStorage.createStage ins id now) st))
  /\ (forall ins id now, wf_tree (exec (MemStorage.createLead ins id now) st))
  /\ (forall ins id now,
        wf_tree (exec (MemStorage.createLeadComment ins id now) st))
  /\ (forall id orgId u, Stage.p_id u = None ->
        wf_tree (exec (MemStorage.updateStage id orgId u) st))
  /\ (forall id orgId u now, Lead.p_id u = None ->
        wf_tree (exec (MemStorage.updateLead id orgId u now) st))
  /\ (forall leadId stageId orgId now,
        wf_tree (exec (MemStorage.moveLeadToStage leadId stageId orgId now)
                      st))
  /\ (forall pipelineId orgId stageOrders,
        wf_tree (exec (MemStorage.reorderStages pipelineId orgId stageOrders)
                      st))
  /\ (forall id orgId,
        wf_tree (exec (MemStorage.deletePipeline id orgId) st)
        /\ wf_tree (exec (MemStorage.deleteStage id orgId) st)
        /\ wf_tree (exec (MemStorage.deleteLead id orgId) st)
        /\ wf_tree (exec (MemStorage.deleteLeadComment id orgId) st)).
Proof.
  intros WF. pose proof WF as (WS & WL & WC).
  refine (conj _ (conj _ (conj _ (conj _ (conj _ (conj _ (conj _ _))))))).
  - intros ins id now. unfold exec, MemStorage.createStage, bind, modify, ret.
    simpl. refine (conj _ (conj WL WC)). now apply indexed_set.
  - intros ins id now. unfold exec, MemStorage.createLead, bind, modify, ret.
    simpl. refine (conj WS (conj _ WC)). now apply indexed_set.
  - intros ins id now. unfold exec, MemStorage.createLeadComment, bind,
      modify, ret.
    simpl. refine (conj WS (conj WL _)). now apply indexed_set.
  - intros id orgId u Hu. now apply updateStage_wf.
  - intros id orgId u now Hu. now apply updateLead_wf.
  - intros leadId stageId orgId now. unfold MemStorage.moveLeadToStage.
    now apply updateLead_wf.
  - intros pipelineId orgId stageOrders. unfold MemStorage.reorderStages.
    apply forEach_invariant; [|exact WF].
    intros so s Hs.
    pose proof (updateStage_wf (fst so) orgId (Stage.only_order (snd so)) s
                  eq_refl Hs) as H.
    unfold exec, bind in *.
    destruct (MemStorage.updateStage (fst so) orgId
                (Stage.only_order (snd so)) s) as [s1 [x|e]]; exact H.
  - intros id orgId.
    split; [now apply deletePipeline_wf|].
    split; [now apply deleteStage_wf|].
    split; [now apply deleteLead_wf|].
    unfold exec. rewrite (deleteLeadComment_prune id orgId st (proj1 WC)).
    now apply wf_tree_prune.
Qed.

Lemma wf_tree_is_kept_witness :
  wf_tree (exec (MemStorage.reorderStages "p1" "o1"
                   [("s2", 0%Z); ("s9", 1%Z); ("s1", 2%Z)]) sample_store).
Proof.
  exact (proj1 (proj2 (proj2 (proj2 (proj2 (proj2 (proj2
           (wf_tree_is_kept sample_store sample_store_wf_tree)))))))
           "p1" "o1" [("s2", 0%Z); ("s9", 1%Z); ("s1", 2%Z)]).
Defined.

(* ------------------------------------------------------------------ *)
(** ** Moving a lead *)

Lemma In_values (V : Type) (m : JsMap.t V) (v : V) :
  In v (JsMap.values m) <-> exists k, In (k, v) m.
Proof.
  unfold JsMap.values. rewrite in_map_iff. split.
  - intros ([k v'] & E & H). simpl in E. subst v'. now exists k.
  - intros (k & H). now exists (k, v).
Qed.

Lemma updateLead_found (id orgId : string) (u : Lead.partial) (now : Z)
    (st : Store) (l : Lead.t) :
  JsMap.get id (leads st) = Some l -> Lead.orgId l = orgId ->
  MemStorage.updateLead id orgId u now st
  = (with_leads (JsMap.set id (Lead.merge l u now)) st,
     Ok (Lead.merge l u now)).
Proof.
  intros G E. unfold MemStorage.updateLead.
  unfold bind at 1. now rewrite (getLead_found id orgId st l G E).
Qed.

(** X11. [moveLeadToStage] on a lead of the organization returns the lead with
    the new [stageId] and [updatedAt] set to the time of the call; afterwards
    [getLead] returns that lead, [getLeads] lists it under the new stage and
    no longer under the old one, every other lead is as before, and so are
    stages and comments. An update of a lead always ends with [updatedAt]
    at the time of the call, also when the update carries an [updatedAt]
    of its own. *)
Theorem moveLeadToStage_relocates (st : Store) (leadId stageId O : string)
    (now : Z) (l : Lead.t) :
  indexed Lead.id (leads st) ->
  JsMap.get leadId (leads st) = Some l -> Lead.orgId l = O ->
  exists st' moved,
    MemStorage.moveLeadToStage leadId stageId O now st = (st', Ok moved)
    /\ Lead.stageId moved = stageId /\ Lead.updatedAt moved = now
    /\ Lead.id moved = Lead.id l /\ Lead.orgId moved = O
    /\ Lead.name moved = Lead.name l
    /\ Lead.createdAt moved = Lead.createdAt l
    /\ MemStorage.getLead leadId O st' = (st', Ok (Some moved))
    /\ (exists listed, MemStorage.getLeads stageId O st' = (st', Ok listed)
                       /\ In moved listed)
    /\ (Lead.stageId l <> stageId ->
        exists listed,
          MemStorage.getLeads (Lead.stageId l) O st' = (st', Ok listed)
          /\ forall x, In x listed -> Lead.id x <> leadId)
    /\ (forall k, k <> leadId ->
          JsMap.get k (leads st') = JsMap.get k (leads st))
    /\ stages st' = stages st /\ leadComments st' = leadComments st
    /\ (forall u, exists st'' updated,
          MemStorage.updateLead leadId O u now st = (st'', Ok updated)
          /\ Lead.updatedAt updated = now).
Proof.
  intros [U K] G E.
  exists (with_leads (JsMap.set leadId
                        (Lead.merge l (Lead.only_stageId stageId) now)) st),
         (Lead.merge l (Lead.only_stageId stageId) now).
  set (moved := Lead.merge l (Lead.only_stageId stageId) now).
  assert (JsMap.get leadId (JsMap.set leadId moved (leads st)) = Some moved)
    as Gm by (rewrite get_set; now rewrite String.eqb_refl).
  split; [now apply updateLead_found|].
  do 6 (split; [first [reflexivity | exact E]|]).
  split.
  { apply getLead_found; [exact Gm | exact E]. }
  split.
  { eexists. split; [reflexivity|]. apply sort_In. apply filter_In. split.
    - apply In_values. exists leadId. apply get_In. exact Gm.
    - simpl. rewrite String.eqb_refl. simpl. now apply String.eqb_eq. }
  split.
  { intros Hne. eexists. split; [reflexivity|]. intros x Hx.
    apply sort_In in Hx. apply filter_In in Hx. destruct Hx as [Hx Hsel].
    apply In_values in Hx. destruct Hx as [k Hx]. simpl in Hx.
    apply In_set in Hx; [|exact U]. destruct Hx as [Hx|[Hx Hk]].
    - injection Hx as _ ->. apply andb_prop in Hsel. destruct Hsel as [Hs _].
      apply String.eqb_eq in Hs. simpl in Hs. congruence.
    - simpl in Hk. now rewrite (K k x Hx). }
  split.
  { intros k Hk. simpl. rewrite get_set.
    destruct (String.eqb leadId k) eqn:Ek; [|reflexivity].
    apply String.eqb_eq in Ek. congruence. }
  split; [reflexivity|]. split; [reflexivity|].
  intros u. do 2 eexists. split; [exact (updateLead_found leadId O u now st l G E)|reflexivity].
Qed.

Lemma moveLeadToStage_relocates_witness :
  exists st' moved,
    MemStorage.moveLeadToStage "l1" "s2" "o1" 77 sample_store
    = (st', Ok moved)
    /\ Lead.stageId moved = "s2" /\ Lead.updatedAt moved = 77%Z.
Proof.
  assert (indexed Lead.id (leads sample_store)) as W
    by exact (proj1 (proj2 sample_store_wf_tree)).
  destruct (JsMap.get "l1" (leads sample_store)) as [l|] eqn:G;
    [|discriminate G].
  assert (Lead.orgId l = "o1") as E.
  { vm_compute in G. injection G as <-. reflexivity. }
  destruct (moveLeadToStage_relocates sample_store "l1" "s2" "o1" 77 l W G E)
    as (st' & moved & H1 & H2 & H3 & _).
  exists st', moved. auto.
Defined.

(* ------------------------------------------------------------------ *)
(** ** Users *)

Lemma In_values_set (V : Type) (m : JsMap.t V) (k : string) (v x : V) :
  In x (JsMap.values (JsMap.set k v m)) -> x = v \/ In x (JsMap.values m).
Proof.
  induction m as [|[k0 v0] r IH]; simpl.
  - intros [<-|[]]. now left.
  - destruct (String.eqb k0 k); simpl.
    + intros [<-|H]; [now left|now right; right].
    + intros [<-|H]; [now right; left|].
      destruct (IH H) as [->|H']; [now left|now right; right].
Qed.

Lemma NoDup_values_set (V B : Type) (f : V -> B) (m : JsMap.t V) (k : string)
    (v : V) :
  NoDup (map f (JsMap.values m)) -> ~ In (f v) (map f (JsMap.values m)) ->
  NoDup (map f (JsMap.values (JsMap.set k v m))).
Proof.
  induction m as [|[k0 v0] r IH]; simpl; intros ND NI.
  - constructor; [intros []|constructor].
  - inversion ND as [|? ? Hn Hr]; subst.
    destruct (String.eqb k0 k); simpl.
    + constructor; [|exact Hr]. intros H. apply NI. now right.
    + constructor.
      * intros H. apply in_map_iff in H. destruct H as (x & Ex & Hx).
        apply In_values_set in Hx. destruct Hx as [->|Hx].
        { apply NI. left. now symmetry. }
        { apply Hn. rewrite <- Ex. now apply in_map. }
      * apply IH; [exact Hr|]. intros H. apply NI. now right.
Qed.

Lemma find_values_set (V : Type) (sel : V -> bool) (m : JsMap.t V)
    (k : string) (v : V) :
  (forall x, In x (JsMap.values m) -> sel x = false) -> sel v = true ->
  find sel (JsMap.values (JsMap.set k v m)) = Some v.
Proof.
  intros Hm Hv. induction m as [|[k0 v0] r IH]; simpl.
  - now rewrite Hv.
  - destruct (String.eqb k0 k); simpl.
    + now rewrite Hv.
    + rewrite (Hm v0 (or_introl eq_refl)). apply IH.
      intros x Hx. apply Hm. now right.
Qed.

Lemma signup_users (bcrypt_hash : string -> string)
    (userId organizationId : string) (now : Z) (data : InsertUser.t)
    (st : Store) :
  find (fun user => String.eqb (User.email user) (InsertUser.email data))
       (JsMap.values (users st)) = None ->
  exists st',
    Routes.signup (Routes.memStorage bcrypt_hash userId organizationId now)
                  (Ok data) st
    = (st', Ok (json (BUser userId (InsertUser.email data)
                        (InsertUser.name data))))
    /\ users st'
       = JsMap.set userId
           (User.mk userId (InsertUser.email data)
              (bcrypt_hash (InsertUser.passwordHash data))
              (InsertUser.name data) None None now) (users st).
Proof.
  intros F. eexists.
  unfold Routes.signup, Routes.memStorage, try_catch, parse, bind, ret.
  cbv beta iota delta [Routes.getUserByEmail Routes.createUser
    Routes.createOrganization Routes.createAuditLog].
  unfold MemStorage.getUserByEmail, gets. rewrite F.
  split; reflexivity.
Qed.

(** X12. Signup keeps the emails of the registered users pairwise distinct,
    whatever the request: a rejected body and an email that is taken leave
    the users as they are, and a new user has an email nobody had. *)
Theorem signup_keeps_emails_unique (bcrypt_hash : string -> string)
    (userId organizationId : string) (now : Z) (body : Result InsertUser.t)
    (st : Store) :
  unique_emails st ->
  unique_emails
    (exec (Routes.signup
             (Routes.memStorage bcrypt_hash userId organizationId now) body)
          st).
Proof.
  intros U. destruct body as [data|e]; [|exact U].
  destruct (find (fun user => String.eqb (User.email user)
                                         (InsertUser.email data))
                 (JsMap.values (users st))) as [u|] eqn:F.
  - unfold exec, Routes.signup, Routes.memStorage, try_catch, parse, bind, ret.
    cbv beta iota delta [Routes.getUserByEmail].
    unfold MemStorage.getUserByEmail, gets. rewrite F. exact U.
  - destruct (signup_users bcrypt_hash userId organizationId now data st F)
      as (st' & Hrun & Husers).
    unfold exec. rewrite Hrun. unfold unique_emails. simpl fst.
    rewrite Husers. apply NoDup_values_set; [exact U|].
    simpl. intros H. apply in_map_iff in H. destruct H as (x & Ex & Hx).
    pose proof (find_none _ _ F x Hx) as Hsel. simpl in Hsel.
    rewrite Ex in Hsel. now rewrite String.eqb_refl in Hsel.
Qed.

Lemma signup_keeps_emails_unique_witness :
  unique_emails (exec (Routes.signup ann_storage ann_signup)
                      sample_store).
Proof.
  apply (signup_keeps_emails_unique (fun password => "bcrypt:" ++ password)
           "u1" "o1" 1 ann_signup sample_store).
  unfold unique_emails. simpl.
  repeat constructor; simpl; intuition discriminate.
Defined.

(** X13. A user who has signed up can log in: after a successful signup, the
    login with the same email and password answers 200 with the new user,
    provided the password checks against its own hash. *)
Theorem signup_then_login (bcrypt_hash : string -> string)
    (bcrypt_compare : string -> string -> bool)
    (bcrypt_error : option Json -> string)
    (userId organizationId : string) (now : Z) (data : InsertUser.t)
    (st : Store) :
  find (fun user => String.eqb (User.email user) (InsertUser.email data))
       (JsMap.values (users st)) = None ->
  bcrypt_compare (InsertUser.passwordHash data)
                 (bcrypt_hash (InsertUser.passwordHash data)) = true ->
  exists st',
    Routes.signup (Routes.memStorage bcrypt_hash userId organizationId now)
                  (Ok data) st
    = (st', Ok (json (BUser userId (InsertUser.email data)
                        (InsertUser.name data))))
    /\ Api.login bcrypt_compare bcrypt_error
                 (Some (JStr (InsertUser.email data)))
                 (Some (JStr (InsertUser.passwordHash data))) st'
       = (st', Ok (Api.json (Api.PUser userId (InsertUser.email data)
                                       (InsertUser.name data))))
    /\ MemStorage.getUserById userId st'
       = (st', Ok (Some (User.mk userId (InsertUser.email data)
                           (bcrypt_hash (InsertUser.passwordHash data))
                           (InsertUser.name data) None None now))).
Proof.
  intros F C.
  destruct (signup_users bcrypt_hash userId organizationId now data st F)
    as (st' & Hrun & Husers).
  exists st'. split; [exact Hrun|]. split.
  - unfold Api.login, MemStorage.verifyPassword, MemStorage.getUserByEmail,
      try_catch, bind, gets, ret.
    rewrite Husers. rewrite find_values_set.
    + simpl. now rewrite C.
    + intros x Hx. exact (find_none _ _ F x Hx).
    + simpl. apply String.eqb_refl.
  - unfold MemStorage.getUserById, gets. rewrite Husers, get_set.
    now rewrite String.eqb_refl.
Qed.

Lemma signup_then_login_witness :
  exists st',
    Api.login String.eqb (fun _ => "data and hash must be strings")
              (Some (JStr "a@x.com")) (Some (JStr "pw")) st'
    = (st', Ok (Api.json (Api.PUser "u9" "a@x.com" "Ann"))).
Proof.
  destruct (signup_then_login (fun s => s) String.eqb
              (fun _ => "data and hash must be strings") "u9" "o9" 5
              (InsertUser.mk "a@x.com" "pw" "Ann") sample_store eq_refl
              eq_refl)
    as (st' & _ & H & _).
  now exists st'.
Defined.

(* ------------------------------------------------------------------ *)
(** ** The guards of the routes *)

Lemma api_guard_denies (session : option string)
    (organizationId userId : string) (st : Store)
    (next : string -> string -> OrgMember.t -> M Api.Answer) :
  session = Some userId -> userId <> "" -> organizationId <> "" ->
  JsMap.get (organizationId ++ "-" ++ userId) (orgMembers st) = None ->
  Api.requireAuth session
    (fun uid => Api.requireOrgAccess (Some organizationId) uid (next uid)) st
  = (st, Ok (Api.error 403 "Access denied to organization")).
Proof.
  intros -> Hu Ho G. apply String.eqb_neq in Hu, Ho.
  unfold Api.requireAuth, str_or_null. rewrite Hu.
  unfold Api.requireOrgAccess, str_or_null. rewrite Ho, Hu.
  unfold bind, MemStorage.getOrgMember, gets. now rewrite G.
Qed.

Lemma guard_denies (session : option string)
    (organizationId userId : string) (st : Store)
    (next : string -> OrgMember.t -> M Response) :
  session = Some userId -> userId <> "" -> organizationId <> "" ->
  JsMap.get (organizationId ++ "-" ++ userId) (orgMembers st) = None ->
  requireAuth session
    (fun uid => requireOrgAccess organizationId uid (next uid)) st
  = (st, Ok (error 403 "Access denied to organization")).
Proof.
  intros -> Hu Ho G. apply String.eqb_neq in Hu, Ho.
  unfold requireAuth, str_or_null. rewrite Hu.
  unfold requireOrgAccess. rewrite Ho, Hu.
  unfold bind, MemStorage.getOrgMember, gets, orb. now rewrite G.
Qed.

(** X14. Without a logged-in user (no session user id, or an empty one) a
    route behind [requireAuth] answers 401 "Authentication required" and
    leaves the store as it is, whatever its handler would do. These are the
    27 routes of an organization, [GET /api/auth/me], [POST
    /api/organizations] and the two billing routes. The other three routes,
    signup, login and logout, are mounted without [requireAuth]: signup and
    login read no session, and logout answers success with or without
    one. *)
Theorem routes_require_login (sha256_hex : string -> string)
    (is_uuid : string -> bool)
    (zod_message : string -> string -> Routes.BodyField -> string -> string)
    (session : option string) (org : string) (x : Inputs)
    (body : Result InsertOrganization.t)
    (checkout portal : string -> string -> OrgMember.t -> M Api.Answer)
    (st : Store) :
  session = None \/ session = Some "" ->
  (forall next,
     Api.requireAuth session next st
     = (st, Ok (Api.error 401 "Authentication required")))
  /\ Forall (answers_unchanged (Api.error 401 "Authentication required") st)
            (org_routes session org x
             ++ [Api.me session;
                 Api.createOrganization session body (in_uuid x) (in_now x);
                 Api.billing checkout session;
                 Api.billing portal session])
  /\ Forall (answers_unchanged (error 401 "Authentication required") st)
            (more_org_routes sha256_hex is_uuid zod_message session org x)
  /\ List.length (org_routes session org x)
     + List.length (more_org_routes sha256_hex is_uuid zod_message session
                                    org x) = 27
  /\ Api.logout session st = (st, Ok (Api.json Api.PSuccess)).
Proof.
  intros [-> | ->]; (split; [reflexivity|]);
    (split; [repeat constructor|]); (split; [repeat constructor|]);
    split; reflexivity.
Qed.

Lemma routes_require_login_witness :
  answers_unchanged (Api.error 401 "Authentication required") sample_store
    (Api.putLead None "o1" "p1" (JObj []) 9 (ret (Api.json Api.PSuccess)))
  /\ answers_unchanged (Api.error 401 "Authentication required") sample_store
       (Api.airtableTest (Some "") "o1" None None None 9 10).
Proof.
  pose proof (proj1 (proj2 (routes_require_login (fun s => s) uuid_lowercase
    (fun _ _ _ _ => "invalid") None "o1" sample_request (Throw "Required")
    (fun _ _ _ => ret (Api.json Api.PSuccess))
    (fun _ _ _ => ret (Api.json Api.PSuccess)) sample_store
    (or_introl eq_refl)))) as H.
  pose proof (proj1 (proj2 (routes_require_login (fun s => s) uuid_lowercase
    (fun _ _ _ _ => "invalid") (Some "") "o1" sample_request
    (Throw "Required") (fun _ _ _ => ret (Api.json Api.PSuccess))
    (fun _ _ _ => ret (Api.json Api.PSuccess)) sample_store
    (or_intror eq_refl)))) as H'.
  rewrite Forall_forall in H, H'.
  split; [apply H | apply H']; simpl; tauto.
Defined.

(** X15. A logged-in user who is not a member of the organization in the
    path gets 403 "Access denied to organization" from each of the 27
    routes of that organization, whatever its handler would do, and the
    store is left as it is. *)
Theorem routes_require_membership (sha256_hex : string -> string)
    (is_uuid : string -> bool)
    (zod_message : string -> string -> Routes.BodyField -> string -> string)
    (session : option string) (org userId : string) (x : Inputs)
    (st : Store) :
  session = Some userId -> userId <> "" -> org <> "" ->
  JsMap.get (org ++ "-" ++ userId) (orgMembers st) = None ->
  (forall next,
     Api.requireAuth session
       (fun uid => Api.requireOrgAccess (Some org) uid (next uid)) st
     = (st, Ok (Api.error 403 "Access denied to organization")))
  /\ Forall (answers_unchanged
               (Api.error 403 "Access denied to organization") st)
            (org_routes session org x)
  /\ Forall (answers_unchanged (error 403 "Access denied to organization") st)
            (more_org_routes sha256_hex is_uuid zod_message session org x)
  /\ List.length (org_routes session org x)
     + List.length (more_org_routes sha256_hex is_uuid zod_message session
                                    org x) = 27.
Proof.
  intros Hs Hu Ho G.
  split; [intros next; exact (api_guard_denies session org userId st next Hs
                                Hu Ho G)|].
  split; [|split; [|reflexivity]]; repeat constructor;
    first [ exact (api_guard_denies session org userId st _ Hs Hu Ho G)
          | exact (guard_denies session org userId st _ Hs Hu Ho G) ].
Qed.

Lemma routes_require_membership_witness :
  answers_unchanged (Api.error 403 "Access denied to organization")
    sample_store (Api.getLead (Some "u1") "o2" "p1")
  /\ answers_unchanged (Api.error 403 "Access denied to organization")
       sample_store (Api.airtableTest (Some "u1") "o2" None None None 9 10).
Proof.
  assert ("u1" <> "") as Hu by discriminate.
  assert ("o2" <> "") as Ho by discriminate.
  pose proof (proj1 (proj2 (routes_require_membership (fun s => s)
    uuid_lowercase (fun _ _ _ _ => "invalid") (Some "u1") "o2" "u1"
    sample_request sample_store eq_refl Hu Ho eq_refl))) as H.
  rewrite Forall_forall in H. split; apply H; simpl; tauto.
Defined.

(** X16. The role checks of the routes. Fourteen routes ask for the role
    "admin" or "editor": API key delete; pipeline, stage and lead update
    and delete; stage reorder; lead move; member invite; and, after they
    have parsed the body, API key, pipeline, stage and lead creation. A
    member with another role gets 403 "Insufficient permissions" from them;
    from the four that parse first only when the body is valid, since an
    invalid body is answered 400 with the validation error before the role
    is looked at. Two routes ask for "admin", the settings update and the
    Airtable sync: any other member, an editor too, gets 403 "Admin access
    required". The store is left as it is in all these cases. The other
    eleven routes of an organization (the routes that read, the two comment
    routes and the Airtable test) are not among these sixteen. *)
Theorem routes_require_role (sha256_hex : string -> string)
    (session : option string) (org userId : string)
    (orgMember : OrgMember.t) (x : Inputs) (st : Store) :
  member_request session org userId orgMember st ->
  (includes ["admin"; "editor"] (OrgMember.role orgMember) = false ->
   Forall (answers_unchanged (Api.error 403 "Insufficient permissions") st)
          (editor_routes session org x)
   /\ Forall (answers_unchanged (error 403 "Insufficient permissions") st)
             (gated_routes session org x)
   /\ (forall stageBody leadBody name,
         in_stageBody x = Ok stageBody -> in_leadBody x = Ok leadBody ->
         in_name x = Ok name ->
         Forall (answers_unchanged (Api.error 403 "Insufficient permissions")
                                   st)
                (create_routes session org x)
         /\ Forall (answers_unchanged (error 403 "Insufficient permissions")
                                      st)
                   (parsing_routes sha256_hex session org x)))
  /\ (forall e,
        in_stageBody x = Throw e -> in_leadBody x = Throw e ->
        in_name x = Throw e ->
        Forall (answers_unchanged (Api.error 400 e) st)
               (create_routes session org x)
        /\ Forall (answers_unchanged (error 400 e) st)
                  (parsing_routes sha256_hex session org x))
  /\ (OrgMember.role orgMember <> "admin" ->
      Forall (answers_unchanged (Api.error 403 "Admin access required") st)
             (admin_routes session org x))
  /\ List.length (editor_routes session org x)
     + List.length (gated_routes session org x)
     + List.length (create_routes session org x)
     + List.length (parsing_routes sha256_hex session org x) = 14.
Proof.
  intros Hreq.
  assert (forall next,
            Api.requireAuth session
              (fun uid => Api.requireOrgAccess (Some org) uid (next uid)) st
            = next userId org orgMember st) as Hpass.
  { intros next. now apply (api_guards_pass session org userId orgMember). }
  assert (forall next,
            requireAuth session
              (fun uid => requireOrgAccess org uid (next uid)) st
            = next userId orgMember st) as Hpass'.
  { intros next. now apply (guards_pass session org userId orgMember). }
  split; [|split; [|split; [|reflexivity]]].
  - intros Hrole. split; [|split].
    + repeat constructor; unfold answers_unchanged;
        cbv beta delta [Api.deleteApiKey Api.putPipeline Api.deletePipeline
          Api.putStage Api.deleteStage Api.reorderStages Api.putLead
          Api.deleteLead];
        rewrite Hpass; unfold try_catch; now rewrite Hrole.
    + repeat constructor; unfold answers_unchanged;
        cbv beta delta [Routes.inviteMember Routes.moveLead];
        rewrite Hpass'; unfold try_catch; now rewrite Hrole.
    + intros stageBody leadBody name Hs Hl Hn. split.
      * repeat constructor; unfold answers_unchanged.
        { unfold Api.createStage. rewrite Hpass, Hs.
          unfold try_catch, parse, bind, ret. now rewrite Hrole. }
        { unfold Api.createLead. rewrite Hpass, Hl.
          unfold try_catch, parse, bind, ret. now rewrite Hrole. }
      * repeat constructor; unfold answers_unchanged.
        { unfold Routes.createApiKey. rewrite Hpass', Hn.
          unfold try_catch, parse, bind, ret. now rewrite Hrole. }
        { unfold Routes.createPipeline. rewrite Hpass', Hn.
          unfold try_catch, parse, bind, ret. now rewrite Hrole. }
  - intros e Hs Hl Hn. split; repeat constructor; unfold answers_unchanged.
    + unfold Api.createStage. rewrite Hpass, Hs. reflexivity.
    + unfold Api.createLead. rewrite Hpass, Hl. reflexivity.
    + unfold Routes.createApiKey. rewrite Hpass', Hn. reflexivity.
    + unfold Routes.createPipeline. rewrite Hpass', Hn. reflexivity.
  - intros Hrole. apply String.eqb_neq in Hrole.
    repeat constructor; unfold answers_unchanged.
    + unfold Api.putSetting. rewrite Hpass. unfold try_catch.
      now rewrite Hrole.
    + unfold Api.airtableSync. rewrite Hpass. unfold try_catch.
      now rewrite Hrole.
Qed.

Lemma routes_require_role_witness :
  answers_unchanged (Api.error 403 "Insufficient permissions") sample_store
    (Api.deleteLead (Some "u3") "o1" "p1" 9)
  /\ answers_unchanged (error 403 "Insufficient permissions") sample_store
       (Routes.moveLead (Some "u3") "o1" "p1" "" 9).
Proof.
  destruct (JsMap.get ("o1" ++ "-" ++ "u3") (orgMembers sample_store))
    as [m|] eqn:G; [|discriminate G].
  assert (includes ["admin"; "editor"] (OrgMember.role m) = false) as Hrole.
  { vm_compute in G. injection G as <-. reflexivity. }
  assert (member_request (Some "u3") "o1" "u3" m sample_store) as Hreq.
  { split; [reflexivity|]. split; [discriminate|].
    split; [discriminate|exact G]. }
  destruct (proj1 (routes_require_role (fun s => s) (Some "u3") "o1" "u3" m
                     sample_request sample_store Hreq) Hrole)
    as (H & H' & _).
  rewrite Forall_forall in H, H'. split; [apply H | apply H']; simpl; tauto.
Defined.

(* ------------------------------------------------------------------ *)
(** ** Billing and login *)


(** X18. Login never writes to the store, and its answer is decided by the
    first stored user with the email of the body. When there is none, or the
    email is not a string, the answer is 401 "Invalid credentials". When
    there is one and the password is a string, the answer is 200 with the
    id, email and name of that user if [bcrypt.compare] accepts the password
    against the stored hash, and the same 401 if not. When there is one and
    the password is missing or not a string, [bcrypt.compare] throws and
    the answer is 500 with its message: only then does the answer tell a
    registered email from an unknown one. *)
Theorem login_outcomes (bcrypt_compare : string -> string -> bool)
    (bcrypt_error : option Json -> string)
    (email password : option Json) (st : Store) :
  let found :=
    match email with
    | Some (JStr e) =>
        find (fun user => String.eqb (User.email user) e)
             (JsMap.values (users st))
    | _ => None
    end in
  exists answer,
    Api.login bcrypt_compare bcrypt_error email password st = (st, Ok answer)
    /\ match found with
       | None => answer = Api.error 401 "Invalid credentials"
       | Some user =>
           email = Some (JStr (User.email user))
           /\ match password with
              | Some (JStr p) =>
                  answer
                  = if bcrypt_compare p (User.passwordHash user)
                    then Api.json (Api.PUser (User.id user) (User.email user)
                                             (User.name user))
                    else Api.error 401 "Invalid credentials"
              | _ => answer = Api.error 500 (bcrypt_error password)
              end
       end.
Proof.
  unfold Api.login, MemStorage.verifyPassword, MemStorage.getUserByEmail,
    try_catch, bind, gets, ret, throw.
  destruct email as [[| | |e| |]|]; try (eexists; split; reflexivity).
  destruct (find (fun user => String.eqb (User.email user) e)
                 (JsMap.values (users st))) as [user|] eqn:F;
    [|eexists; split; reflexivity].
  apply find_some in F. destruct F as [_ E]. apply String.eqb_eq in E.
  rewrite <- E.
  destruct password as [[| | |p| |]|];
    try (eexists; split; [reflexivity|split; reflexivity]).
  destruct (bcrypt_compare p (User.passwordHash user));
    eexists; (split; [reflexivity|split; reflexivity]).
Qed.

Lemma login_outcomes_witness :
  Api.login String.eqb (fun _ => "data and hash arguments required")
            (Some (JStr "alice@x.com")) None sample_store
  = (sample_store, Ok (Api.error 500 "data and hash arguments required")).
Proof.
  destruct (login_outcomes String.eqb
              (fun _ => "data and hash arguments required")
              (Some (JStr "alice@x.com")) None sample_store)
    as (answer & Hrun & Hcase).
  simpl in Hcase. destruct Hcase as [_ ->]. exact Hrun.
Defined.

(* ------------------------------------------------------------------ *)
(** ** Deleting a comment *)

Lemma get_delete_other (V : Type) (m : JsMap.t V) (k k' : string) :
  k' <> k -> JsMap.get k' (JsMap.delete k m) = JsMap.get k' m.
Proof.
  intros N. unfold JsMap.delete.
  induction m as [|[k0 v0] r IH]; simpl; [reflexivity|].
  destruct (String.eqb k0 k) eqn:E; simpl.
  - apply String.eqb_eq in E. subst k0.
    apply not_eq_sym in N. apply String.eqb_neq in N. now rewrite N.
  - now rewrite IH.
Qed.

Lemma find_comment (leadId orgId commentId : string) (st : Store)
    (l : list CommentWithUser) :
  indexed LeadComment.id (leadComments st) ->
  MemStorage.getLeadComments leadId orgId st = (st, Ok l) ->
  match find (fun c => String.eqb (LeadComment.id (comment c)) commentId) l
  with
  | Some w =>
      JsMap.get commentId (leadComments st) = Some (comment w)
      /\ LeadComment.orgId (comment w) = orgId
      /\ LeadComment.leadId (comment w) = leadId
  | None =>
      forall c, JsMap.get commentId (leadComments st) = Some c ->
                LeadComment.orgId c = orgId ->
                LeadComment.leadId c = leadId -> False
  end.
Proof.
  intros W Hl.
  destruct (getLeadComments_rows leadId orgId st) as (l' & Hl' & Hrows).
  rewrite Hl in Hl'. injection Hl' as <-.
  assert (forall c, In c (map comment l) <->
                    In c (JsMap.values (leadComments st))
                    /\ comment_in [leadId] orgId c = true) as Hin.
  { intros c. rewrite Hrows, sort_In, filter_In. reflexivity. }
  destruct (find _ l) as [w|] eqn:F.
  - apply find_some in F. destruct F as [Hw Ew].
    apply String.eqb_eq in Ew.
    destruct (proj1 (Hin (comment w)) (in_map comment l w Hw)) as [Hv Hsel].
    split.
    + apply In_get; [exact (proj1 W)|]. rewrite <- Ew.
      apply values_In; [exact (proj2 W) | exact Hv].
    + unfold comment_in in Hsel. simpl in Hsel.
      apply andb_prop in Hsel. destruct Hsel as [Ho Hlead].
      rewrite orb_false_r in Hlead.
      split; now apply String.eqb_eq.
  - intros c G Eo El.
    assert (In c (map comment l)) as Hc.
    { apply Hin. split.
      - apply In_values. exists commentId. now apply get_In.
      - unfold comment_in. simpl. subst. now rewrite !String.eqb_refl. }
    apply in_map_iff in Hc. destruct Hc as (w & Ew & Hw).
    pose proof (find_none _ _ F w Hw) as Hp. simpl in Hp.
    rewrite Ew, (indexed_get _ LeadComment.id _ _ _ W G) in Hp.
    now rewrite String.eqb_refl in Hp.
Qed.

(** X19. Deleting a comment through the route. A comment that is not on the
    lead and in the organization of the path is answered 404. Otherwise only
    its author and admins may delete it: anybody else gets 403, and in both
    cases the store is left as it is. An authorized delete removes this
    comment and no other, and appends one audit entry. *)
Theorem deleteComment_authorization (st : Store) (session : option string)
    (org userId leadId commentId : string) (orgMember : OrgMember.t)
    (now : Z) :
  member_request session org userId orgMember st ->
  indexed LeadComment.id (leadComments st) ->
  let on_lead c :=
    JsMap.get commentId (leadComments st) = Some c
    /\ LeadComment.orgId c = org /\ LeadComment.leadId c = leadId in
  ((forall c, ~ on_lead c) ->
   Api.deleteComment session org leadId commentId now st
   = (st, Ok (Api.error 404 "Comment not found")))
  /\ (forall c, on_lead c ->
        (LeadComment.userId c <> userId -> OrgMember.role orgMember <> "admin" ->
         Api.deleteComment session org leadId commentId now st
         = (st, Ok (Api.error 403 "Can only delete your own comments")))
        /\ (LeadComment.userId c = userId \/ OrgMember.role orgMember = "admin" ->
            exists st' log,
              Api.deleteComment session org leadId commentId now st
              = (st', Ok (Api.json Api.PSuccess))
              /\ JsMap.get commentId (leadComments st') = None
              /\ (forall k, k <> commentId ->
                    JsMap.get k (leadComments st')
                    = JsMap.get k (leadComments st))
              /\ auditLogs st' = (auditLogs st ++ [log])%list
              /\ AuditLog.action log = "delete"
              /\ AuditLog.entityId log = str_or_null (Some commentId))).
Proof.
  intros Hreq W on_lead. subst on_lead. cbv beta.
  destruct (MemStorage.getLeadComments leadId org st) as [st0 r] eqn:GL.
  assert (st0 = st /\ exists l, r = Ok l) as [-> [l ->]].
  { unfold MemStorage.getLeadComments, gets in GL. injection GL as <- <-.
    split; [reflexivity|eexists; reflexivity]. }
  pose proof (find_comment leadId org commentId st l W GL) as HF.
  assert (Api.deleteComment session org leadId commentId now st
          = try_catch
              (match find (fun c => String.eqb (LeadComment.id (comment c))
                                               commentId) l with
               | None => ret (Api.error 404 "Comment not found")
               | Some c =>
                   if negb (String.eqb (LeadComment.userId (comment c)) userId)
                      && negb (String.eqb (OrgMember.role orgMember) "admin")
                   then ret (Api.error 403 "Can only delete your own comments")
                   else
                     bind (MemStorage.deleteLeadComment commentId org)
                       (fun _ =>
                          bind (Api.audit org userId "delete" "comment"
                                  (Some commentId) [("leadId", JStr leadId)]
                                  now)
                            (fun _ => ret (Api.json Api.PSuccess)))
               end)
              (fun e => ret (Api.error 500 e)) st) as Hroute.
  { unfold Api.deleteComment.
    rewrite (api_guards_pass session org userId orgMember st _ Hreq).
    unfold try_catch. unfold bind at 1. rewrite GL. reflexivity. }
  rewrite Hroute. clear Hroute.
  destruct (find _ l) as [w|].
  - destruct HF as (G & Eo & El). split.
    + intros Hnone. exfalso. exact (Hnone (comment w) (conj G (conj Eo El))).
    + intros c (Gc & _ & _). rewrite G in Gc. injection Gc as <-. split.
      * intros Hu Hr. apply String.eqb_neq in Hu, Hr.
        unfold try_catch. now rewrite Hu, Hr.
      * intros Hauth.
        assert (negb (String.eqb (LeadComment.userId (comment w)) userId)
                && negb (String.eqb (OrgMember.role orgMember) "admin")
                = false) as Hno.
        { destruct Hauth as [-> | ->]; rewrite String.eqb_refl;
            [reflexivity | apply andb_false_r]. }
        rewrite Hno.
        unfold MemStorage.deleteLeadComment, Api.audit,
          MemStorage.createAuditLog, try_catch, bind, gets, modify, ret.
        rewrite G, Eo, String.eqb_refl.
        do 2 eexists. split; [reflexivity|].
        split; [apply get_delete_same|].
        split; [intros k Hk; now apply get_delete_other|].
        split; [reflexivity|]. split; reflexivity.
  - split.
    + intros _. reflexivity.
    + intros c (G & Eo & El). exfalso. exact (HF c G Eo El).
Qed.

Lemma deleteComment_authorization_witness :
  Api.deleteComment (Some "u3") "o1" "l1" "c1" 20 sample_store
  = (sample_store, Ok (Api.error 403 "Can only delete your own comments")).
Proof.
  assert (member_request (Some "u3") "o1" "u3"
            (OrgMember.mk "o1" "u3" "viewer" (Some "u1") 3 (Some 3%Z) 3)
            sample_store) as Hreq.
  { split; [reflexivity|]. split; [discriminate|].
    split; [discriminate|reflexivity]. }
  assert ("u1" <> "u3") as Hu by discriminate.
  assert ("viewer" <> "admin") as Hr by discriminate.
  exact (proj1 (proj2 (deleteComment_authorization sample_store (Some "u3")
                         "o1" "u3" "l1" "c1" _ 20 Hreq
                         (proj2 (proj2 sample_store_wf_tree)))
                  (LeadComment.mk "c1" "o1" "l1" "call back" "u1" None 14)
                  (conj eq_refl (conj eq_refl eq_refl))) Hu Hr).
Defined.

(* ------------------------------------------------------------------ *)
(** ** Inviting a member *)

(** X20. An admin or editor who invites a registered user that is not yet a
    member gets the new membership back: it carries the role of the body
    as given, the inviter, and is accepted at once. The membership is then
    what [getOrgMember] finds, one audit entry is appended, the invariant of
    the members map is kept, and a second invitation of the same email is
    rejected with 400 "User is already a member". *)
Theorem inviteMember_admits (st : Store) (session : option string)
    (organizationId userId email role : string) (now : Z)
    (orgMember : OrgMember.t) (invited : User.t) :
  member_request session organizationId userId orgMember st ->
  includes ["admin"; "editor"] (OrgMember.role orgMember) = true ->
  find (fun user => String.eqb (User.email user) email)
       (JsMap.values (users st)) = Some invited ->
  JsMap.get (organizationId ++ "-" ++ User.id invited) (orgMembers st)
  = None ->
  let member :=
    OrgMember.mk organizationId (User.id invited) role (Some userId) now
                 (Some now) now in
  exists st' log,
    Routes.inviteMember session organizationId email role now st
    = (st', Ok (json (BMember member)))
    /\ MemStorage.getOrgMember organizationId (User.id invited) st'
       = (st', Ok (Some member))
    /\ auditLogs st' = (auditLogs st ++ [log])%list
    /\ AuditLog.action log = "invite"
    /\ (wf_members st -> wf_members st')
    /\ (forall role' later,
          Routes.inviteMember session organizationId email role' later st'
          = (st', Ok (error 400 "User is already a member"))).
Proof.
  intros Hreq Hrole F G member.
  assert (str_or_null (Some userId) = Some userId) as Hby.
  { destruct Hreq as (_ & Hu & _). apply String.eqb_neq in Hu.
    unfold str_or_null. now rewrite Hu. }
  set (st1 := with_orgMembers
                (JsMap.set (organizationId ++ "-" ++ User.id invited) member)
                st).
  assert (exists log,
            Routes.inviteMember session organizationId email role now st
            = (with_auditLogs (fun logs => (logs ++ [log])%list) st1,
               Ok (json (BMember member)))
            /\ AuditLog.action log = "invite") as (log & Hrun & Hlog).
  { eexists. unfold Routes.inviteMember.
    rewrite (guards_pass session organizationId userId orgMember st _ Hreq).
    rewrite Hrole.
    unfold MemStorage.addOrgMember, MemStorage.createAuditLog, try_catch,
      bind, negb, MemStorage.getUserByEmail, MemStorage.getOrgMember, gets,
      modify, ret.
    rewrite F, G.
    cbv beta iota delta [InsertOrgMember.orgId InsertOrgMember.userId
      InsertOrgMember.role InsertOrgMember.invitedBy
      InsertOrgMember.acceptedAt].
    rewrite Hby. split; reflexivity. }
  exists (with_auditLogs (fun logs => (logs ++ [log])%list) st1), log.
  assert (JsMap.get (organizationId ++ "-" ++ User.id invited)
            (orgMembers st1) = Some member) as Gm.
  { unfold st1. cbv beta iota delta [orgMembers with_orgMembers].
    rewrite get_set. now rewrite String.eqb_refl. }
  split; [exact Hrun|]. split; [|split; [reflexivity|split; [exact Hlog|]]].
  - unfold MemStorage.getOrgMember, gets.
    change (orgMembers (with_auditLogs _ st1)) with (orgMembers st1).
    now rewrite Gm.
  - split.
    + intros W. unfold wf_members.
      change (orgMembers (with_auditLogs _ st1))
        with (JsMap.set (organizationId ++ "-" ++ User.id invited) member
                        (orgMembers st)).
      now apply indexed_set.
    + intros role' later. unfold Routes.inviteMember.
      assert (member_request session organizationId userId orgMember
                (with_auditLogs (fun logs => (logs ++ [log])%list) st1))
        as Hreq'.
      { destruct Hreq as (Hs & Hu & Ho & Gu).
        split; [exact Hs|]. split; [exact Hu|]. split; [exact Ho|].
        change (orgMembers (with_auditLogs _ st1))
          with (JsMap.set (organizationId ++ "-" ++ User.id invited) member
                          (orgMembers st)).
        rewrite get_set.
        destruct (String.eqb (organizationId ++ "-" ++ User.id invited)
                             (organizationId ++ "-" ++ userId)) eqn:E;
          [|exact Gu].
        apply String.eqb_eq in E. rewrite E in G. congruence. }
      rewrite (guards_pass session organizationId userId orgMember _ _ Hreq').
      rewrite Hrole.
      unfold try_catch, bind, negb, MemStorage.getUserByEmail,
        MemStorage.getOrgMember, gets.
      change (users (with_auditLogs _ st1)) with (users st).
      rewrite F. cbv beta iota.
      change (orgMembers (with_auditLogs _ st1)) with (orgMembers st1).
      now rewrite Gm.
Qed.

Lemma inviteMember_admits_witness :
  exists st',
    Routes.inviteMember (Some "u1") "o1" "bob@x.com" "editor" 30 sample_store
    = (st', Ok (json (BMember (OrgMember.mk "o1" "u2" "editor" (Some "u1") 30
                                            (Some 30%Z) 30))))
    /\ Routes.inviteMember (Some "u1") "o1" "bob@x.com" "viewer" 31 st'
       = (st', Ok (error 400 "User is already a member")).
Proof.
  assert (member_request (Some "u1") "o1" "u1"
            (OrgMember.mk "o1" "u1" "admin" (Some "u1") 1 (Some 1%Z) 1)
            sample_store) as Hreq.
  { split; [reflexivity|]. split; [discriminate|].
    split; [discriminate|reflexivity]. }
  destruct (inviteMember_admits sample_store (Some "u1") "o1" "u1"
              "bob@x.com" "editor" 30 _
              (User.mk "u2" "bob@x.com" "h2" "Bob" None None 2)
              Hreq eq_refl eq_refl eq_refl)
    as (st' & log & H1 & _ & _ & _ & _ & H2).
  exists st'. split; [exact H1 | exact (H2 "viewer" 31%Z)].
Defined.

(* ------------------------------------------------------------------ *)
(** ** Rows stay with their organization *)

Lemma api_guarded_invariant (I : Store -> Prop) (session : option string)
    (org : string) (st : Store)
    (next : string -> string -> OrgMember.t -> M Api.Answer) :
  I st ->
  (forall userId orgMember,
     member_request session org userId orgMember st ->
     I (exec (next userId org orgMember) st)) ->
  I (exec (Api.requireAuth session
             (fun uid => Api.requireOrgAccess (Some org) uid (next uid))) st).
Proof.
  intros Hst Hnext. unfold exec, Api.requireAuth.
  destruct session as [userId|]; [|exact Hst].
  unfold str_or_null at 1.
  destruct (String.eqb userId "") eqn:Eu; [exact Hst|].
  unfold Api.requireOrgAccess, str_or_null.
  destruct (String.eqb org "") eqn:Eo; [exact Hst|].
  rewrite Eu. unfold bind, MemStorage.getOrgMember, gets.
  destruct (JsMap.get (org ++ "-" ++ userId) (orgMembers st)) as [m|] eqn:G;
    [|exact Hst].
  apply String.eqb_neq in Eu, Eo. apply (Hnext userId m). now repeat split.
Qed.

Lemma guarded_invariant (I : Store -> Prop) (session : option string)
    (org : string) (st : Store)
    (next : string -> OrgMember.t -> M Response) :
  I st ->
  (forall userId orgMember,
     member_request session org userId orgMember st ->
     I (exec (next userId orgMember) st)) ->
  I (exec (requireAuth session
             (fun uid => requireOrgAccess org uid (next uid))) st).
Proof.
  intros Hst Hnext. unfold exec, requireAuth.
  destruct session as [userId|]; [|exact Hst].
  unfold str_or_null at 1.
  destruct (String.eqb userId "") eqn:Eu; [exact Hst|].
  unfold requireOrgAccess.
  destruct (String.eqb org "") eqn:Eo; [exact Hst|].
  rewrite Eu. unfold bind, MemStorage.getOrgMember, gets, orb.
  destruct (JsMap.get (org ++ "-" ++ userId) (orgMembers st)) as [m|] eqn:G;
    [|exact Hst].
  apply String.eqb_neq in Eu, Eo. apply (Hnext userId m). now repeat split.
Qed.

Lemma tenant_consistent_new_stage (st st' : Store) (id : string)
    (stage : Stage.t) (p : Pipeline.t) :
  tenant_consistent st ->
  pipelines st' = pipelines st -> leads st' = leads st ->
  stages st' = JsMap.set id stage (stages st) ->
  JsMap.get id (stages st) = None ->
  JsMap.get (Stage.pipelineId stage) (pipelines st) = Some p ->
  Pipeline.orgId p = Stage.orgId stage ->
  tenant_consistent st'.
Proof.
  intros [HS HL] Ep El Es Fresh Gp Eo. split.
  - intros s Hs. rewrite Ep. rewrite Es in Hs.
    apply In_values_set in Hs. destruct Hs as [->|Hs]; [|now apply HS].
    now exists p.
  - intros l Hl. rewrite El in Hl. destruct (HL l Hl) as (s & Gs & Eos).
    exists s. split; [|exact Eos]. rewrite Es, get_set.
    destruct (String.eqb id (Lead.stageId l)) eqn:E; [|exact Gs].
    apply String.eqb_eq in E. rewrite E in Fresh. congruence.
Qed.

Lemma tenant_consistent_new_lead (st st' : Store) (id : string)
    (lead : Lead.t) (s : Stage.t) :
  tenant_consistent st ->
  pipelines st' = pipelines st -> stages st' = stages st ->
  leads st' = JsMap.set id lead (leads st) ->
  JsMap.get (Lead.stageId lead) (stages st) = Some s ->
  Stage.orgId s = Lead.orgId lead ->
  tenant_consistent st'.
Proof.
  intros [HS HL] Ep Es El Gs Eo. split.
  - intros s0 Hs. rewrite Ep. rewrite Es in Hs. now apply HS.
  - intros l Hl. rewrite Es. rewrite El in Hl.
    apply In_values_set in Hl. destruct Hl as [->|Hl]; [|now apply HL].
    now exists s.
Qed.

(** X21. The routes that create a stage, create a lead and move a lead keep
    every stage in a pipeline of its own organization and every lead in a
    stage of its own organization, whoever calls them and whatever the body:
    they check the parent against the organization of the path before they
    write. (The new stage's id is one no stage has.) *)
Theorem routes_keep_tenant_consistency (st : Store)
    (session : option string) (org : string) :
  tenant_consistent st ->
  (forall body id now,
     JsMap.get id (stages st) = None ->
     tenant_consistent (exec (Api.createStage session org body id now) st))
  /\ (forall body id now,
        tenant_consistent (exec (Api.createLead session org body id now) st))
  /\ (forall leadId stageId now,
        tenant_consistent
          (exec (Routes.moveLead session org leadId stageId now) st)).
Proof.
  intros TC. refine (conj _ (conj _ _)).
  - intros body id now Fresh. unfold Api.createStage.
    apply (api_guarded_invariant tenant_consistent); [exact TC|].
    intros userId m _. cbv beta. unfold exec.
    destruct body as [[[pid name] order]|e]; [|exact TC].
    unfold try_catch, parse, bind at 1, ret.
    destruct (negb (includes ["admin"; "editor"] (OrgMember.role m)));
      [exact TC|].
    unfold bind at 1, MemStorage.getPipeline, gets.
    cbv beta iota delta [InsertStage.pipelineId fst snd].
    destruct (JsMap.get pid (pipelines st)) as [p|] eqn:Gp; [|exact TC].
    destruct (String.eqb (Pipeline.orgId p) org) eqn:Eo; [|exact TC].
    apply String.eqb_eq in Eo.
    apply (tenant_consistent_new_stage st _ id
             (Stage.mk id org pid name order now) p TC);
      try reflexivity; assumption.
  - intros body id now. unfold Api.createLead.
    apply (api_guarded_invariant tenant_consistent); [exact TC|].
    intros userId m _. cbv beta. unfold exec.
    destruct body as [fields|e]; [|exact TC].
    unfold try_catch, parse, bind at 1, ret.
    destruct (negb (includes ["admin"; "editor"] (OrgMember.role m)));
      [exact TC|].
    unfold bind at 1, MemStorage.getStage, gets.
    cbn [InsertLead.stageId].
    destruct (JsMap.get (InsertLead.stageId fields) (stages st))
      as [s|] eqn:Gs; [|exact TC].
    destruct (String.eqb (Stage.orgId s) org) eqn:Eo; [|exact TC].
    apply String.eqb_eq in Eo.
    apply (tenant_consistent_new_lead st _ id
             (Lead.mk id org (InsertLead.stageId fields)
                (InsertLead.name fields) (InsertLead.email fields)
                (InsertLead.source fields) (InsertLead.notes fields)
                (InsertLead.airtableRecordId fields) now now) s TC);
      try reflexivity; assumption.
  - intros leadId stageId now. unfold Routes.moveLead.
    apply (guarded_invariant tenant_consistent); [exact TC|].
    intros userId m _. cbv beta. unfold exec, try_catch.
    destruct (negb (includes ["admin"; "editor"] (OrgMember.role m)));
      [exact TC|].
    unfold bind at 1, MemStorage.getStage, gets.
    destruct (JsMap.get stageId (stages st)) as [s|] eqn:Gs; [|exact TC].
    destruct (String.eqb (Stage.orgId s) org) eqn:Eo; [|exact TC].
    apply String.eqb_eq in Eo.
    unfold bind at 1, MemStorage.moveLeadToStage, MemStorage.updateLead.
    unfold bind at 1, MemStorage.getLead, gets.
    destruct (JsMap.get leadId (leads st)) as [l|] eqn:Gl; [|exact TC].
    destruct (String.eqb (Lead.orgId l) org) eqn:El; [|exact TC].
    apply String.eqb_eq in El.
    apply (tenant_consistent_new_lead st _ leadId
             (Lead.merge l (Lead.only_stageId stageId) now) s TC);
      try reflexivity; try assumption.
    simpl. congruence.
Qed.

Lemma routes_keep_tenant_consistency_witness :
  tenant_consistent
    (exec (Api.createLead (Some "u1") "o1"
             (Ok (InsertLead.mk "" "s2" "Initech" None None None None))
             "l9" 40)
          (exec (MemStorage.deleteStage "s4" "o2") sample_store)).
Proof.
  assert (tenant_consistent
            (exec (MemStorage.deleteStage "s4" "o2") sample_store)) as TC.
  { split; intros x Hx; vm_compute in Hx;
      repeat (destruct Hx as [<-|Hx]; [eexists; split; reflexivity|]);
      destruct Hx. }
  exact (proj1 (proj2 (routes_keep_tenant_consistency _ (Some "u1") "o1" TC))
           (Ok (InsertLead.mk "" "s2" "Initech" None None None None))
           "l9" 40%Z).
Defined.

(* ------------------------------------------------------------------ *)
(** ** Moving a lead through the route *)

(** X22. An admin or editor moves a lead to a stage of the organization: the
    route answers the lead with the new [stageId], [updatedAt] at the time
    of the call and every other field as it was, stores it under its id, and
    appends one audit entry with action "move" that names the destination
    stage. When the lead is absent or belongs to another organization the
    route answers 500 "Lead not found" and leaves the store as it is. *)
Theorem moveLead_route_outcomes (st : Store) (session : option string)
    (org userId leadId stageId : string) (orgMember : OrgMember.t) (now : Z)
    (stage : Stage.t) :
  member_request session org userId orgMember st ->
  includes ["admin"; "editor"] (OrgMember.role orgMember) = true ->
  JsMap.get stageId (stages st) = Some stage -> Stage.orgId stage = org ->
  (forall lead,
     JsMap.get leadId (leads st) = Some lead -> Lead.orgId lead = org ->
     let moved :=
       Lead.mk (Lead.id lead) (Lead.orgId lead) stageId (Lead.name lead)
               (Lead.email lead) (Lead.source lead) (Lead.notes lead)
               (Lead.airtableRecordId lead) (Lead.createdAt lead) now in
     exists st' log,
       Routes.moveLead session org leadId stageId now st
       = (st', Ok (json (BLead moved)))
       /\ JsMap.get leadId (leads st') = Some moved
       /\ (forall k, k <> leadId ->
             JsMap.get k (leads st') = JsMap.get k (leads st))
       /\ stages st' = stages st
       /\ auditLogs st' = (auditLogs st ++ [log])%list
       /\ AuditLog.action log = "move"
       /\ AuditLog.entityId log = str_or_null (Some (Lead.id lead))
       /\ AuditLog.metadata log
          = JObj [("newStageId", JStr stageId);
                  ("stageName", JStr (Stage.name stage))])
  /\ (not_owned Lead.orgId leadId org (leads st) ->
      Routes.moveLead session org leadId stageId now st
      = (st, Ok (error 500 "Lead not found"))).
Proof.
  intros Hreq Hrole Gs Es.
  assert (Routes.moveLead session org leadId stageId now st
          = try_catch
              (lead <- MemStorage.moveLeadToStage leadId stageId org now ;;
               MemStorage.createAuditLog
                 (InsertAuditLog.mk org (Some userId) "move" "lead"
                    (Some (Lead.id lead))
                    (Some (JObj [("newStageId", JStr stageId);
                                 ("stageName", JStr (Stage.name stage))])))
                 now ;;
               ret (json (BLead lead)))
              (fun e => ret (error 500 e)) st) as Hroute.
  { unfold Routes.moveLead.
    rewrite (guards_pass session org userId orgMember st _ Hreq).
    rewrite Hrole. unfold try_catch, negb. unfold bind at 1.
    now rewrite (getStage_found stageId org st stage Gs Es). }
  rewrite Hroute. clear Hroute. split.
  - intros lead Gl El moved. unfold try_catch, MemStorage.moveLeadToStage.
    unfold bind at 1.
    rewrite (updateLead_found leadId org (Lead.only_stageId stageId) now st
               lead Gl El).
    unfold MemStorage.createAuditLog, bind, gets, modify, ret.
    do 2 eexists. split; [reflexivity|].
    cbn [leads stages auditLogs with_leads with_auditLogs].
    split; [rewrite get_set; now rewrite String.eqb_refl|].
    split.
    { intros k Hk. rewrite get_set.
      destruct (String.eqb leadId k) eqn:E; [|reflexivity].
      apply String.eqb_eq in E. congruence. }
    repeat split.
  - intros Hno. unfold try_catch, MemStorage.moveLeadToStage,
      MemStorage.updateLead, MemStorage.getLead, bind, gets, throw, ret.
    unfold not_owned in Hno.
    destruct (JsMap.get leadId (leads st)) as [l|]; [|reflexivity].
    apply String.eqb_neq in Hno. now rewrite Hno.
Qed.

Lemma moveLead_route_outcomes_witness :
  exists st',
    Routes.moveLead (Some "u1") "o1" "l1" "s2" 50 sample_store
    = (st', Ok (json (BLead (Lead.mk "l1" "o1" "s2" "Acme" None None None
                                     None 11 50))))
    /\ JsMap.get "l1" (leads st')
       = Some (Lead.mk "l1" "o1" "s2" "Acme" None None None None 11 50).
Proof.
  assert (member_request (Some "u1") "o1" "u1"
            (OrgMember.mk "o1" "u1" "admin" (Some "u1") 1 (Some 1%Z) 1)
            sample_store) as Hreq.
  { split; [reflexivity|]. split; [discriminate|].
    split; [discriminate|reflexivity]. }
  destruct (proj1 (moveLead_route_outcomes sample_store (Some "u1") "o1" "u1"
                     "l1" "s2" _ 50 (Stage.mk "s2" "o1" "p1" "Won" 1 8) Hreq
                     eq_refl eq_refl eq_refl)
              (Lead.mk "l1" "o1" "s1" "Acme" None None None None 11 11)
              eq_refl eq_refl)
    as (st' & log & Hrun & Hget & _).
  exists st'. split; [exact Hrun | exact Hget].
Defined.

(* ------------------------------------------------------------------ *)
(** ** Mentions *)

(** X23. The mentions that the comment route extracts with [/@(\w+)/g] are
    the [@token]s of the body, each of them, in their order. A body without
    [@] has none. A body that goes on, after a text without [@], with an [@],
    the word characters [u] that follow it (there may be none) and a rest
    [post] has the mention [u], unless [u] is empty, and then the mentions
    of [post]. So a string is extracted if and only if it is a non-empty run
    of word characters that stands right after an [@] and ends where the
    word characters end. *)
Theorem extract_mentions_exact (body : string) :
  ((forall pre post, body <> pre ++ "@" ++ post) ->
   extract_mentions body = [])
  /\ (forall pre u post,
        all_chars (fun c => negb (Ascii.eqb c "@")) pre = true ->
        all_chars is_word u = true -> word_ends post ->
        body = pre ++ "@" ++ u ++ post ->
        extract_mentions body
        = ((if String.eqb u "" then [] else [u])
           ++ extract_mentions post)%list)
  /\ (forall t, In t (extract_mentions body) <-> at_token body t).
Proof.
  split; [|split].
  - intros Hno. destruct (extract_mentions body) as [|t l] eqn:E;
      [reflexivity|].
    assert (In t (extract_mentions body)) as Ht by (rewrite E; now left).
    apply extract_mentions_tokens in Ht.
    destruct Ht as (_ & _ & pre & post & Eb & _).
    exfalso. exact (Hno pre (t ++ post) Eb).
  - intros pre u post Hpre Hu Hp ->.
    now apply extract_mentions_step.
  - intros t. apply extract_mentions_tokens.
Qed.

(* ------------------------------------------------------------------ *)
(** ** Airtable sync *)

(** X24. The Airtable sync of an admin. Without both settings
    [airtable.baseId] and [airtable.apiKey] it answers 400 and writes
    nothing. With them it asks for the leads of the pipeline with the empty
    id: as long as no stage of the organization has an empty [pipelineId] it
    reports 0 synced leads however many leads the organization has, and
    reports the number of pipelines as synced stages (0 for direction
    "pull"); it appends one audit entry. *)
Theorem airtableSync_counts (st : Store) (session : option string)
    (org userId : string) (orgMember : OrgMember.t)
    (direction : option string) (now : Z) :
  member_request session org userId orgMember st ->
  OrgMember.role orgMember = "admin" ->
  let configured :=
    match JsMap.get (org ++ "-" ++ "airtable.baseId") (settings st),
          JsMap.get (org ++ "-" ++ "airtable.apiKey") (settings st) with
    | Some _, Some _ => true
    | _, _ => false
    end in
  let d := match direction with Some d => d | None => "both" end in
  (configured = false ->
   Api.airtableSync session org direction now st
   = (st, Ok (Api.error 400 "Airtable configuration incomplete")))
  /\ (configured = true ->
      (forall s, In s (JsMap.values (stages st)) ->
                 Stage.orgId s = org -> Stage.pipelineId s <> "") ->
      exists st' log,
        Api.airtableSync session org direction now st
        = (st', Ok (Api.json
                      (Api.PSync 0
                         (if String.eqb d "push" || String.eqb d "both"
                          then pipeline_count org st else 0)
                         d now)))
        /\ auditLogs st' = (auditLogs st ++ [log])%list
        /\ AuditLog.action log = "sync").
Proof.
  intros Hreq Hrole configured d.
  assert (Api.airtableSync session org direction now st
          = try_catch
              (baseIdSetting <- MemStorage.getSetting org "airtable.baseId" ;;
               apiKeySetting <- MemStorage.getSetting org "airtable.apiKey" ;;
               match baseIdSetting, apiKeySetting with
               | Some _, Some _ =>
                   leads <- MemStorage.getLeadsByPipeline "" org ;;
                   stages <- MemStorage.getPipelines org ;;
                   let pushed :=
                     String.eqb d "push" || String.eqb d "both" in
                   let syncedLeads :=
                     if pushed then List.length leads else 0 in
                   let syncedStages :=
                     if pushed then List.length stages else 0 in
                   Api.audit org userId "sync" "airtable" None
                     [("direction", JStr d);
                      ("syncedLeads", JNum (Z.of_nat syncedLeads));
                      ("syncedStages", JNum (Z.of_nat syncedStages))] now ;;
                   ret (Api.json (Api.PSync syncedLeads syncedStages d now))
               | _, _ => ret (Api.error 400 "Airtable configuration incomplete")
               end)
              (fun e => ret (Api.error 500 e)) st) as Hroute.
  { unfold Api.airtableSync.
    rewrite (api_guards_pass session org userId orgMember st _ Hreq).
    rewrite Hrole. reflexivity. }
  rewrite Hroute. clear Hroute. subst configured.
  assert (forall key,
            MemStorage.getSetting org key st
            = (st, Ok (JsMap.get (org ++ "-" ++ key) (settings st))))
    as Hget by reflexivity.
  destruct (JsMap.get (org ++ "-" ++ "airtable.baseId") (settings st))
    as [b|] eqn:Gb.
  2:{ split; [intros _|discriminate].
      unfold try_catch. unfold bind at 1.
      rewrite (Hget "airtable.baseId"), Gb. cbv beta iota.
      unfold bind at 1. rewrite (Hget "airtable.apiKey"). reflexivity. }
  destruct (JsMap.get (org ++ "-" ++ "airtable.apiKey") (settings st))
    as [k|] eqn:Gk.
  2:{ split; [intros _|discriminate].
      unfold try_catch. unfold bind at 1.
      rewrite (Hget "airtable.baseId"), Gb. cbv beta iota.
      unfold bind at 1. rewrite (Hget "airtable.apiKey"), Gk. reflexivity. }
  split; [discriminate|]. intros _ Hstages.
  unfold try_catch. unfold bind at 1.
  rewrite (Hget "airtable.baseId"), Gb. cbv beta iota.
  unfold bind at 1. rewrite (Hget "airtable.apiKey"), Gk. cbv beta iota.
  unfold bind at 1.
  rewrite getLeadsByPipeline_no_stage; cbv beta iota.
  - unfold bind, MemStorage.getPipelines, Api.audit,
      MemStorage.createAuditLog, gets, modify, ret.
    rewrite sort_length. fold (pipeline_count org st).
    destruct (String.eqb d "push" || String.eqb d "both");
      do 2 eexists; (split; [reflexivity|split; reflexivity]).
  - apply filter_none. intros s Hs. unfold stage_in.
    destruct (String.eqb (Stage.orgId s) org) eqn:Eo;
      [|apply andb_false_r].
    apply String.eqb_eq in Eo. specialize (Hstages s Hs Eo).
    apply String.eqb_neq in Hstages. now rewrite Hstages.
Qed.

Lemma airtableSync_counts_witness :
  exists st',
    Api.airtableSync (Some "u1") "o1" None 60
      (exec (MemStorage.setSetting "o1" "airtable.apiKey" (JStr "key") "u1" 2)
         (exec (MemStorage.setSetting "o1" "airtable.baseId" (JStr "app") "u1"
                                      1) sample_store))
    = (st', Ok (Api.json (Api.PSync 0 1 "both" 60))).
Proof.
  set (cfg := exec (MemStorage.setSetting "o1" "airtable.apiKey" (JStr "key")
                      "u1" 2)
                (exec (MemStorage.setSetting "o1" "airtable.baseId"
                         (JStr "app") "u1" 1) sample_store)).
  assert (member_request (Some "u1") "o1" "u1"
            (OrgMember.mk "o1" "u1" "admin" (Some "u1") 1 (Some 1%Z) 1) cfg)
    as Hreq.
  { split; [reflexivity|]. split; [discriminate|].
    split; [discriminate|reflexivity]. }
  assert (forall s, In s (JsMap.values (stages cfg)) ->
                    Stage.orgId s = "o1" -> Stage.pipelineId s <> "")
    as Hstages.
  { intros s Hs. vm_compute in Hs.
    repeat (destruct Hs as [<-|Hs]; [intros; discriminate|]). destruct Hs. }
  destruct (proj2 (airtableSync_counts cfg (Some "u1") "o1" "u1" _ None 60
                     Hreq eq_refl) eq_refl Hstages) as (st' & log & H & _).
  exists st'. exact H.
Defined.

(* ------------------------------------------------------------------ *)
(** ** Delete routes *)

Lemma forEach_runs (A : Type) (R : Store -> Store -> Prop)
    (body : A -> M unit) (l : list A) :
  (forall s, R s s) -> (forall a b c, R a b -> R b c -> R a c) ->
  (forall x s, exists s', body x s = (s', Ok tt) /\ R s s') ->
  forall s, exists s', forEach l body s = (s', Ok tt) /\ R s s'.
Proof.
  intros Hrefl Htrans Hbody.
  induction l as [|x r IH]; intros s; simpl.
  - exists s. split; [reflexivity|apply Hrefl].
  - destruct (Hbody x s) as (s1 & H1 & R1).
    destruct (IH s1) as (s2 & H2 & R2).
    exists s2. unfold bind. rewrite H1. split; [exact H2|].
    exact (Htrans _ _ _ R1 R2).
Qed.

Lemma same_log_refl (st : Store) : same_log st st.
Proof. reflexivity. Qed.

Lemma same_log_trans (a b c : Store) :
  same_log a b -> same_log b c -> same_log a c.
Proof. unfold same_log. congruence. Qed.

Lemma deleteLeadComment_runs (id orgId : string) (st : Store) :
  exists st', MemStorage.deleteLeadComment id orgId st = (st', Ok tt)
              /\ same_log st st'.
Proof.
  unfold MemStorage.deleteLeadComment, bind, gets, modify, ret.
  destruct (JsMap.get id (leadComments st)) as [c|];
    [|exists st; now split].
  destruct (String.eqb (LeadComment.orgId c) orgId);
    eexists; split; reflexivity.
Qed.

Lemma deleteLead_runs (id orgId : string) (st : Store) :
  exists st', MemStorage.deleteLead id orgId st = (st', Ok tt)
              /\ same_log st st'.
Proof.
  unfold MemStorage.deleteLead. unfold bind at 1.
  unfold MemStorage.getLead, gets.
  destruct (match JsMap.get id (leads st) with
            | Some lead => if String.eqb (Lead.orgId lead) orgId
                           then Some lead else None
            | None => None
            end); [|exists st; now split].
  unfold bind at 1. unfold MemStorage.getLeadComments, gets.
  unfold bind.
  destruct (forEach_runs _ same_log
              (fun c => MemStorage.deleteLeadComment
                          (LeadComment.id (comment c)) orgId)
              (map (fun comment =>
                      match JsMap.get (LeadComment.userId comment) (users st)
                      with
                      | Some user =>
                          Build_CommentWithUser comment (User.id user)
                            (str_or (User.name user) "Unknown User")
                      | None => Build_CommentWithUser comment "" "Unknown User"
                      end)
                 (sort (fun a b => (LeadComment.createdAt a
                                    - LeadComment.createdAt b)%Z)
                    (filter (fun c => String.eqb (LeadComment.leadId c) id
                                      && String.eqb (LeadComment.orgId c) orgId)
                       (JsMap.values (leadComments st)))))
              same_log_refl same_log_trans
              (fun x s => deleteLeadComment_runs _ orgId s) st)
    as (s1 & H1 & R1).
  rewrite H1. eexists. split; [reflexivity|exact R1].
Qed.

Lemma deleteStage_runs (id orgId : string) (st : Store) :
  exists st', MemStorage.deleteStage id orgId st = (st', Ok tt)
              /\ same_log st st'.
Proof.
  unfold MemStorage.deleteStage. unfold bind at 1.
  unfold MemStorage.getStage, gets.
  destruct (match JsMap.get id (stages st) with
            | Some stage => if String.eqb (Stage.orgId stage) orgId
                            then Some stage else None
            | None => None
            end); [|exists st; now split].
  unfold bind at 1. unfold MemStorage.getLeads, gets. unfold bind.
  destruct (forEach_runs _ same_log
              (fun lead => MemStorage.deleteLead (Lead.id lead) orgId)
              (sort (fun a b => (Lead.updatedAt b - Lead.updatedAt a)%Z)
                 (filter (fun l => String.eqb (Lead.stageId l) id
                                   && String.eqb (Lead.orgId l) orgId)
                    (JsMap.values (leads st))))
              same_log_refl same_log_trans
              (fun x s => deleteLead_runs _ orgId s) st)
    as (s1 & H1 & R1).
  rewrite H1. eexists. split; [reflexivity|exact R1].
Qed.

Lemma deletePipeline_runs (id orgId : string) (st : Store) :
  exists st', MemStorage.deletePipeline id orgId st = (st', Ok tt)
              /\ same_log st st'.
Proof.
  unfold MemStorage.deletePipeline. unfold bind at 1.
  unfold MemStorage.getPipeline, gets.
  destruct (match JsMap.get id (pipelines st) with
            | Some pipeline => if String.eqb (Pipeline.orgId pipeline) orgId
                               then Some pipeline else None
            | None => None
            end); [|exists st; now split].
  unfold bind at 1. unfold MemStorage.getStages, gets. unfold bind.
  destruct (forEach_runs _ same_log
              (fun stage => MemStorage.deleteStage (Stage.id stage) orgId)
              (sort (fun a b => (Stage.order a - Stage.order b)%Z)
                 (filter (fun s => String.eqb (Stage.pipelineId s) id
                                   && String.eqb (Stage.orgId s) orgId)
                    (JsMap.values (stages st))))
              same_log_refl same_log_trans
              (fun x s => deleteStage_runs _ orgId s) st)
    as (s1 & H1 & R1).
  rewrite H1. eexists. split; [reflexivity|exact R1].
Qed.

Lemma deleteApiKey_runs (id orgId : string) (st : Store) :
  exists st', MemStorage.deleteApiKey id orgId st = (st', Ok tt)
              /\ same_log st st'
              /\ (not_owned ApiKey.orgId id orgId (apiKeys st) -> st' = st).
Proof.
  unfold MemStorage.deleteApiKey, bind, gets, modify, ret, not_owned.
  destruct (JsMap.get id (apiKeys st)) as [k|];
    [|exists st; now repeat split].
  destruct (String.eqb (ApiKey.orgId k) orgId) eqn:E;
    eexists; (split; [reflexivity|split; [reflexivity|]]).
  - apply String.eqb_eq in E. intros H. contradiction.
  - reflexivity.
Qed.

Lemma delete_route_logs (delete : M unit) (org userId entity id : string)
    (now : Z) (st st1 : Store) :
  delete st = (st1, Ok tt) -> same_log st st1 ->
  exists log,
    try_catch
      (delete ;;
       Api.audit org userId "delete" entity (Some id) [] now ;;
       ret (Api.json Api.PSuccess))
      (fun e => ret (Api.error 500 e)) st
    = (with_auditLogs (fun logs => (logs ++ [log])%list) st1,
       Ok (Api.json Api.PSuccess))
    /\ auditLogs (with_auditLogs (fun logs => (logs ++ [log])%list) st1)
       = (auditLogs st ++ [log])%list
    /\ AuditLog.action log = "delete"
    /\ AuditLog.entity log = entity
    /\ AuditLog.entityId log = str_or_null (Some id).
Proof.
  intros Hrun Hlog. eexists.
  unfold try_catch. unfold bind at 1. rewrite Hrun.
  unfold Api.audit, MemStorage.createAuditLog, bind, gets, modify, ret.
  split; [reflexivity|].
  split; [simpl; now rewrite Hlog|]. repeat split.
Qed.

(** X25. The delete routes of an admin or editor always answer success and
    append an audit entry with action "delete" for the id of the path,
    whether or not anything was deleted: when the API key, pipeline, stage
    or lead is absent or belongs to another organization, the audit entry is
    the only change to the store. *)
Theorem delete_routes_always_log (st : Store) (session : option string)
    (org userId id : string) (orgMember : OrgMember.t) (now : Z) :
  member_request session org userId orgMember st ->
  includes ["admin"; "editor"] (OrgMember.role orgMember) = true ->
  let logged (entity : string) (absent : Prop) (route : M Api.Answer) :=
    exists st' log,
      route st = (st', Ok (Api.json Api.PSuccess))
      /\ auditLogs st' = (auditLogs st ++ [log])%list
      /\ AuditLog.action log = "delete"
      /\ AuditLog.entity log = entity
      /\ AuditLog.entityId log = str_or_null (Some id)
      /\ (absent ->
          st' = with_auditLogs (fun logs => (logs ++ [log])%list) st) in
  logged "api_key" (not_owned ApiKey.orgId id org (apiKeys st))
         (Api.deleteApiKey session org id now)
  /\ logged "pipeline" (not_owned Pipeline.orgId id org (pipelines st))
            (Api.deletePipeline session org id now)
  /\ logged "stage" (not_owned Stage.orgId id org (stages st))
            (Api.deleteStage session org id now)
  /\ logged "lead" (not_owned Lead.orgId id org (leads st))
            (Api.deleteLead session org id now).
Proof.
  intros Hreq Hrole logged. subst logged. cbv beta.
  refine (conj _ (conj _ (conj _ _))).
  - unfold Api.deleteApiKey.
    rewrite (api_guards_pass session org userId orgMember st _ Hreq).
    rewrite Hrole. cbv beta iota delta [negb].
    destruct (deleteApiKey_runs id org st) as (st1 & Hrun & Hlog & Hno).
    destruct (delete_route_logs _ org userId "api_key" id now st st1 Hrun
                Hlog) as (log & H1 & H2 & H3 & H4 & H5).
    eexists. exists log. split; [exact H1|].
    split; [exact H2|]. split; [exact H3|]. split; [exact H4|].
    split; [exact H5|]. intros Habs. now rewrite (Hno Habs).
  - unfold Api.deletePipeline.
    rewrite (api_guards_pass session org userId orgMember st _ Hreq).
    rewrite Hrole. cbv beta iota delta [negb].
    destruct (deletePipeline_runs id org st) as (st1 & Hrun & Hlog).
    destruct (delete_route_logs _ org userId "pipeline" id now st st1 Hrun
                Hlog) as (log & H1 & H2 & H3 & H4 & H5).
    eexists. exists log. split; [exact H1|].
    split; [exact H2|]. split; [exact H3|]. split; [exact H4|].
    split; [exact H5|]. intros Habs.
    assert (MemStorage.deletePipeline id org st = (st, Ok tt)) as Hnoop.
    { unfold not_owned in Habs.
      unfold MemStorage.deletePipeline, MemStorage.getPipeline, bind, gets,
        ret.
      destruct (JsMap.get id (pipelines st)) as [p|]; [|reflexivity].
      apply String.eqb_neq in Habs. now rewrite Habs. }
    rewrite Hnoop in Hrun. now injection Hrun as <-.
  - unfold Api.deleteStage.
    rewrite (api_guards_pass session org userId orgMember st _ Hreq).
    rewrite Hrole. cbv beta iota delta [negb].
    destruct (deleteStage_runs id org st) as (st1 & Hrun & Hlog).
    destruct (delete_route_logs _ org userId "stage" id now st st1 Hrun
                Hlog) as (log & H1 & H2 & H3 & H4 & H5).
    eexists. exists log. split; [exact H1|].
    split; [exact H2|]. split; [exact H3|]. split; [exact H4|].
    split; [exact H5|]. intros Habs.
    assert (MemStorage.deleteStage id org st = (st, Ok tt)) as Hnoop.
    { unfold not_owned in Habs.
      unfold MemStorage.deleteStage, MemStorage.getStage, bind, gets, ret.
      destruct (JsMap.get id (stages st)) as [p|]; [|reflexivity].
      apply String.eqb_neq in Habs. now rewrite Habs. }
    rewrite Hnoop in Hrun. now injection Hrun as <-.
  - unfold Api.deleteLead.
    rewrite (api_guards_pass session org userId orgMember st _ Hreq).
    rewrite Hrole. cbv beta iota delta [negb].
    destruct (deleteLead_runs id org st) as (st1 & Hrun & Hlog).
    destruct (delete_route_logs _ org userId "lead" id now st st1 Hrun
                Hlog) as (log & H1 & H2 & H3 & H4 & H5).
    eexists. exists log. split; [exact H1|].
    split; [exact H2|]. split; [exact H3|]. split; [exact H4|].
    split; [exact H5|]. intros Habs.
    assert (MemStorage.deleteLead id org st = (st, Ok tt)) as Hnoop.
    { unfold not_owned in Habs.
      unfold MemStorage.deleteLead, MemStorage.getLead, bind, gets, ret.
      destruct (JsMap.get id (leads st)) as [p|]; [|reflexivity].
      apply String.eqb_neq in Habs. now rewrite Habs. }
    rewrite Hnoop in Hrun. now injection Hrun as <-.
Qed.

Lemma delete_routes_always_log_witness :
  exists st' log,
    Api.deletePipeline (Some "u1") "o1" "p9" 70 sample_store
    = (st', Ok (Api.json Api.PSuccess))
    /\ st' = with_auditLogs (fun logs => (logs ++ [log])%list) sample_store.
Proof.
  assert (member_request (Some "u1") "o1" "u1"
            (OrgMember.mk "o1" "u1" "admin" (Some "u1") 1 (Some 1%Z) 1)
            sample_store) as Hreq.
  { split; [reflexivity|]. split; [discriminate|].
    split; [discriminate|reflexivity]. }
  destruct (proj1 (proj2 (delete_routes_always_log sample_store (Some "u1")
                            "o1" "u1" "p9" _ 70 Hreq eq_refl)))
    as (st' & log & H1 & _ & _ & _ & _ & H2).
  exists st', log. split; [exact H1 | exact (H2 I)].
Defined.

(* ------------------------------------------------------------------ *)
(** ** API keys *)

(** X26. The key value handed out on creation authenticates: after an admin or
    editor has created an API key, [getApiKeyByHash] of the SHA-256 of the
    returned key value finds the stored key together with its organization,
    provided no other stored key has that hash; the stored key holds the
    hash and is listed for the organization. *)
Theorem createApiKey_then_found_by_hash (sha256_hex : string -> string)
    (st : Store) (session : option string) (org userId name id : string)
    (orgMember : OrgMember.t) (randomBytes : list Byte.byte) (now : Z)
    (organization : Organization.t) :
  member_request session org userId orgMember st ->
  includes ["admin"; "editor"] (OrgMember.role orgMember) = true ->
  JsMap.get org (organizations st) = Some organization ->
  let keyValue := Routes.make_keyValue randomBytes in
  (forall k, In k (JsMap.values (apiKeys st)) ->
             ApiKey.keyHash k <> sha256_hex keyValue) ->
  exists st' stored,
    Routes.createApiKey sha256_hex session org (Ok name) randomBytes id now st
    = (st', Ok (json (BApiKeyCreated stored keyValue)))
    /\ ApiKey.keyHash stored = sha256_hex keyValue
    /\ ApiKey.orgId stored = org /\ ApiKey.createdBy stored = userId
    /\ MemStorage.getApiKeyByHash (sha256_hex keyValue) st'
       = (st', Ok (Some (Build_ApiKeyWithOrganization stored organization)))
    /\ exists keys,
         MemStorage.getApiKeys org st' = (st', Ok keys) /\ In stored keys.
Proof.
  intros Hreq Hrole Go keyValue Hfresh.
  set (stored := ApiKey.mk id org name (sha256_hex keyValue)
                   (Routes.make_keyPreview keyValue) None userId now).
  assert (exists log,
            Routes.createApiKey sha256_hex session org (Ok name) randomBytes
                                id now st
            = (with_auditLogs (fun logs => (logs ++ [log])%list)
                 (with_apiKeys (JsMap.set id stored) st),
               Ok (json (BApiKeyCreated stored keyValue))))
    as (log & Hrun).
  { eexists. unfold Routes.createApiKey.
    rewrite (guards_pass session org userId orgMember st _ Hreq).
    unfold try_catch, parse, bind at 1, ret. rewrite Hrole.
    reflexivity. }
  eexists. exists stored. split; [exact Hrun|].
  do 3 (split; [reflexivity|]). split.
  - unfold MemStorage.getApiKeyByHash, gets.
    cbn [apiKeys organizations with_auditLogs with_apiKeys].
    rewrite find_values_set.
    + cbn [stored ApiKey.orgId]. now rewrite Go.
    + intros k Hk. apply String.eqb_neq. exact (Hfresh k Hk).
    + apply String.eqb_refl.
  - eexists. split; [reflexivity|].
    cbn [apiKeys with_auditLogs with_apiKeys].
    apply filter_In. split.
    + apply In_values. exists id. apply get_In. rewrite get_set.
      now rewrite String.eqb_refl.
    + apply String.eqb_refl.
Qed.

Lemma createApiKey_then_found_by_hash_witness :
  exists st' stored,
    Routes.createApiKey (fun s => "sha:" ++ s) (Some "u1") "o1" (Ok "deploy")
                        [Byte.xab] "k2" 80 sample_store
    = (st', Ok (json (BApiKeyCreated stored "sk_ab")))
    /\ MemStorage.getApiKeyByHash "sha:sk_ab" st'
       = (st', Ok (Some (Build_ApiKeyWithOrganization stored
                           (Organization.mk "o1" "Alice Smith's Organization"
                              "u1" None None "free" None 1)))).
Proof.
  assert (member_request (Some "u1") "o1" "u1"
            (OrgMember.mk "o1" "u1" "admin" (Some "u1") 1 (Some 1%Z) 1)
            sample_store) as Hreq.
  { split; [reflexivity|]. split; [discriminate|].
    split; [discriminate|reflexivity]. }
  assert (forall k, In k (JsMap.values (apiKeys sample_store)) ->
                    ApiKey.keyHash k
                    <> (fun s => "sha:" ++ s) (Routes.make_keyValue [Byte.xab]))
    as Hfresh.
  { intros k [<-|[]]. discriminate. }
  destruct (createApiKey_then_found_by_hash (fun s => "sha:" ++ s)
              sample_store (Some "u1") "o1" "u1" "deploy" "k2" _ [Byte.xab]
              80 _ Hreq eq_refl eq_refl Hfresh)
    as (st' & stored & H1 & _ & _ & _ & H2 & _).
  exists st', stored. split; [exact H1 | exact H2].
Defined.

(* ------------------------------------------------------------------ *)
(** ** The organizations of a user *)

Lemma find_membership (st : Store) (m : OrgMember.t) :
  wf_members st -> In m (JsMap.values (orgMembers st)) ->
  find (fun m' => String.eqb (OrgMember.orgId m') (OrgMember.orgId m)
                  && String.eqb (OrgMember.userId m') (OrgMember.userId m))
       (JsMap.values (orgMembers st)) = Some m.
Proof.
  intros [U K] Hm.
  destruct (find _ (JsMap.values (orgMembers st))) as [m'|] eqn:F.
  - apply find_some in F. destruct F as [Hm' E].
    apply andb_prop in E. destruct E as [Eo Eu].
    apply String.eqb_eq in Eo, Eu.
    assert (member_key m' = member_key m) as Ek
      by (unfold member_key; now rewrite Eo, Eu).
    pose proof (In_get _ _ _ _ U (values_In _ member_key _ _ K Hm')) as G'.
    pose proof (In_get _ _ _ _ U (values_In _ member_key _ _ K Hm)) as G.
    rewrite Ek in G'. congruence.
  - pose proof (find_none _ _ F m Hm) as H. simpl in H.
    now rewrite !String.eqb_refl in H.
Qed.

(** X27. [GET /api/auth/me] of a logged-in, registered user lists exactly the
    organizations the user has a membership in and that exist, each with the
    role of that membership ("owner" when the role is empty), provided
    memberships and organizations are stored under their own keys. It does
    not change the store. *)
Theorem me_lists_memberships (st : Store) (userId : string) (user : User.t) :
  wf_members st -> indexed Organization.id (organizations st) ->
  userId <> "" -> JsMap.get userId (users st) = Some user ->
  exists listed,
    Api.me (Some userId) st
    = (st, Ok (Api.json (Api.PMe (User.id user) (User.email user)
                                 (User.name user) listed)))
    /\ forall entry,
         In entry listed <->
         exists m,
           In m (JsMap.values (orgMembers st))
           /\ OrgMember.userId m = userId
           /\ JsMap.get (OrgMember.orgId m) (organizations st)
              = Some (listed_organization entry)
           /\ listed_role entry = str_or (OrgMember.role m) "owner".
Proof.
  intros WM WO Hu Gu. apply String.eqb_neq in Hu.
  eexists. split.
  - unfold Api.me, Api.requireAuth, str_or_null. rewrite Hu.
    unfold MemStorage.getUserWithOrganizations, MemStorage.getUserById,
      MemStorage.getOrganizationsByUser, try_catch, bind, gets, ret.
    rewrite Gu. reflexivity.
  - intros entry. cbn [listed_organizations]. rewrite in_map_iff. split.
    + intros (o & <- & Ho). apply in_flat_map in Ho.
      destruct Ho as (m & Hm & Ho). apply filter_In in Hm.
      destruct Hm as [Hm Eu]. apply String.eqb_eq in Eu.
      destruct (JsMap.get (OrgMember.orgId m) (organizations st))
        as [o'|] eqn:Go; [|destruct Ho].
      destruct Ho as [<-|[]].
      exists m. split; [exact Hm|]. split; [exact Eu|].
      split; [exact Go|]. cbn [listed_role].
      rewrite (indexed_get _ Organization.id _ _ _ WO Go), <- Eu.
      now rewrite (find_membership st m WM Hm).
    + intros (m & Hm & Eu & Go & Er).
      exists (listed_organization entry). split.
      * rewrite (indexed_get _ Organization.id _ _ _ WO Go).
        rewrite <- Eu. rewrite (find_membership st m WM Hm).
        destruct entry as [o r]. cbn in *. now rewrite Er.
      * apply in_flat_map. exists m. split.
        { apply filter_In. split; [exact Hm|]. now apply String.eqb_eq. }
        { rewrite Go. now left. }
Qed.

Lemma me_lists_memberships_witness :
  exists listed,
    Api.me (Some "u1") sample_store
    = (sample_store,
       Ok (Api.json (Api.PMe "u1" "alice@x.com" "Alice Smith" listed))).
Proof.
  assert (indexed Organization.id (organizations sample_store)) as WO.
  { unfold indexed, keyed, JsMap.uniq. simpl. split.
    - repeat constructor; simpl; intuition discriminate.
    - intros k v H; repeat (destruct H as [[= <- <-] | H]; [reflexivity|]).
      contradiction. }
  assert ("u1" <> "") as Hu by discriminate.
  destruct (me_lists_memberships sample_store "u1"
              (User.mk "u1" "alice@x.com" "h1" "Alice Smith" None None 1)
              sample_store_wf_members WO Hu eq_refl) as (listed & H & _).
  exists listed. exact H.
Defined.

(* ------------------------------------------------------------------ *)
(** ** A new organization *)

(** X28. [POST /api/organizations] stores the plan of the body on the
    organization but always starts the subscription on "free", and the
    pipeline limit follows the subscription: whatever plan was asked for,
    the owner (an admin member from the start) can create one pipeline in
    the new organization and the second is rejected with "Pipeline limit
    reached for free plan". *)
Theorem new_organization_is_on_free_plan (st : Store) (userId id : string)
    (data : InsertOrganization.t) (now : Z) :
  userId <> "" -> id <> "" -> pipeline_count id st = 0 ->
  exists st' org,
    Api.createOrganization (Some userId) (Ok data) id now st
    = (st', Ok (Api.json (Api.POrganization org)))
    /\ Organization.plan org
       = match InsertOrganization.plan data with
         | Some p => str_or p "free"
         | None => "free"
         end
    /\ MemStorage.getSubscription id st'
       = (st', Ok (Some (Subscription.mk id "free" "active" None (JObj [])
                                         now)))
    /\ plan_of id st' = "free"
    /\ forall name1 id1 now1, exists st1,
         Routes.createPipeline (Some userId) id (Ok name1) id1 now1 st'
         = (st1, Ok (json (BPipeline (Pipeline.mk id1 id name1 now1))))
         /\ forall name2 id2 now2,
              Routes.createPipeline (Some userId) id (Ok name2) id2 now2 st1
              = (st1, Ok (error 400 "Pipeline limit reached for free plan. Upgrade to create more pipelines.")).
Proof.
  intros Hu Hid Hcount.
  assert (str_or_null (Some userId) = Some userId) as Hs.
  { apply String.eqb_neq in Hu. unfold str_or_null. now rewrite Hu. }
  set (owner := OrgMember.mk id userId "admin" (Some userId) now (Some now)
                             now).
  destruct (MemStorage.createOrganization data userId id now st)
    as [st0 r0] eqn:Hcreate.
  assert (exists org log,
            Api.createOrganization (Some userId) (Ok data) id now st
            = (with_auditLogs (fun logs => (logs ++ [log])%list) st0,
               Ok (Api.json (Api.POrganization org)))
            /\ r0 = Ok org
            /\ Organization.plan org
               = match InsertOrganization.plan data with
                 | Some p => str_or p "free"
                 | None => "free"
                 end
            /\ subscriptions st0
               = JsMap.set id (Subscription.mk id "free" "active" None
                                               (JObj []) now)
                           (subscriptions st)
            /\ orgMembers st0
               = JsMap.set (id ++ "-" ++ userId) owner (orgMembers st)
            /\ pipelines st0 = pipelines st)
    as (org & log & Hrun & _ & Hplan & Hsub & Hmem & Hpipe).
  { unfold Api.createOrganization, Api.requireAuth. rewrite Hs.
    unfold try_catch, parse. unfold bind at 1. unfold ret at 1.
    unfold bind at 1. rewrite Hcreate.
    unfold MemStorage.createOrganization, MemStorage.addOrgMember, bind,
      modify, ret in Hcreate.
    cbn [InsertOrgMember.orgId InsertOrgMember.userId InsertOrgMember.role
         InsertOrgMember.invitedBy InsertOrgMember.acceptedAt] in Hcreate.
    rewrite Hs in Hcreate. injection Hcreate as <- <-.
    unfold Api.audit, MemStorage.createAuditLog, bind, gets, modify, ret.
    do 2 eexists. split; [reflexivity|]. repeat split. }
  set (st' := with_auditLogs (fun logs => (logs ++ [log])%list) st0) in *.
  assert (JsMap.get id (subscriptions st')
          = Some (Subscription.mk id "free" "active" None (JObj []) now))
    as Gsub.
  { change (subscriptions st') with (subscriptions st0).
    rewrite Hsub, get_set. now rewrite String.eqb_refl. }
  assert (plan_of id st' = "free") as Hfree.
  { unfold plan_of. now rewrite Gsub. }
  assert (member_request (Some userId) id userId owner st') as Hreq.
  { split; [reflexivity|]. split; [exact Hu|]. split; [exact Hid|].
    change (orgMembers st') with (orgMembers st0).
    rewrite Hmem, get_set. now rewrite String.eqb_refl. }
  assert (pipeline_count id st' = 0) as Hcount'.
  { unfold pipeline_count. change (pipelines st') with (pipelines st0).
    rewrite Hpipe. exact Hcount. }
  exists st', org. split; [exact Hrun|]. split; [exact Hplan|].
  split; [unfold MemStorage.getSubscription, gets; now rewrite Gsub|].
  split; [exact Hfree|].
  intros name1 id1 now1.
  destruct (createPipeline_accepted st' (Some userId) id userId name1 id1 now1
              owner 1%N Hreq eq_refl)
    as (st1 & Hrun1 & Hp1 & Hm1 & Hs1).
  { now rewrite Hfree. }
  { rewrite Hcount'. reflexivity. }
  exists st1. split; [exact Hrun1|].
  intros name2 id2 now2.
  assert (member_request (Some userId) id userId owner st1) as Hreq1.
  { destruct Hreq as (H1 & H2 & H3 & H4). repeat split; try assumption.
    now rewrite Hm1. }
  assert (plan_of id st1 = "free") as Hfree1.
  { unfold plan_of. rewrite Hs1. exact Hfree. }
  rewrite (createPipeline_rejected st1 (Some userId) id userId name2 id2 now2
             owner 1%N Hreq1 eq_refl).
  - now rewrite Hfree1.
  - now rewrite Hfree1.
  - unfold pipeline_count. rewrite Hp1.
    rewrite (first_pipeline_counts_one id id1 (Pipeline.mk id1 id name1 now1)
               (pipelines st') eq_refl).
    + reflexivity.
    + apply length_zero_iff_nil. exact Hcount'.
Qed.

Lemma new_organization_is_on_free_plan_witness :
  exists st' org,
    Api.createOrganization (Some "u3") 
      (Ok (InsertOrganization.mk "Carol Inc" (Some "team") None)) "o3" 90
      sample_store
    = (st', Ok (Api.json (Api.POrganization org)))
    /\ Organization.plan org = "team" /\ plan_of "o3" st' = "free".
Proof.
  assert ("u3" <> "") as Hu by discriminate.
  assert ("o3" <> "") as Ho by discriminate.
  destruct (new_organization_is_on_free_plan sample_store "u3" "o3"
              (InsertOrganization.mk "Carol Inc" (Some "team") None) 90
              Hu Ho eq_refl)
    as (st' & org & H1 & H2 & _ & H3 & _).
  exists st', org. split; [exact H1|]. split; [exact H2 | exact H3].
Defined.

(* ------------------------------------------------------------------ *)
(** ** The leads of a pipeline *)

Lemma NoDup_fst_unique (V : Type) (l : list (string * V)) (k : string)
    (v v' : V) :
  NoDup (map fst l) -> In (k, v) l -> In (k, v') l -> v = v'.
Proof.
  induction l as [|[k0 v0] r IH]; simpl; intros ND H H'; [destruct H|].
  inversion ND as [|? ? Hn Hr]; subst.
  destruct H as [H|H]; destruct H' as [H'|H'].
  - congruence.
  - assert (k0 = k) as -> by congruence.
    exfalso. apply Hn. exact (in_map fst r (k, v') H').
  - assert (k0 = k) as -> by congruence.
    exfalso. apply Hn. exact (in_map fst r (k, v) H).
  - now apply IH.
Qed.

Lemma get_of_list_unique (V : Type) (entries : list (string * V))
    (k : string) (v : V) :
  NoDup (map fst entries) -> In (k, v) entries ->
  JsMap.get k (JsMap.of_list entries) = Some v.
Proof.
  intros ND H.
  destruct (JsMap.get k (JsMap.of_list entries)) as [v'|] eqn:G.
  - apply get_of_list_In in G. now rewrite (NoDup_fst_unique _ _ _ _ _ ND H G).
  - exfalso. revert G. unfold JsMap.of_list. apply fold_set_defined.
    left. now exists v.
Qed.

(** X29. [getLeadsByPipeline] joins the leads of the organization with the
    stages of the pipeline: a row is listed exactly when its lead is a lead
    of the organization whose stage is a stage of that pipeline and
    organization, and the row then carries the name and order of that stage.
    The rows come newest update first, and the store is not changed. *)
Theorem getLeadsByPipeline_joins (st : Store) (pipelineId orgId : string) :
  indexed Stage.id (stages st) ->
  exists rows,
    MemStorage.getLeadsByPipeline pipelineId orgId st = (st, Ok rows)
    /\ (forall row,
          In row rows <->
          exists s,
            In (joined_lead row) (JsMap.values (leads st))
            /\ Lead.orgId (joined_lead row) = orgId
            /\ JsMap.get (Lead.stageId (joined_lead row)) (stages st) = Some s
            /\ Stage.pipelineId s = pipelineId /\ Stage.orgId s = orgId
            /\ stageName row = Stage.name s
            /\ stageOrder row = Stage.order s)
    /\ StronglySorted
         (fun a b => (Lead.updatedAt (joined_lead b)
                      <= Lead.updatedAt (joined_lead a))%Z) rows.
Proof.
  intros W.
  set (listed := sort (fun a b => (Stage.order a - Stage.order b)%Z)
                   (filter (stage_in pipelineId orgId)
                           (JsMap.values (stages st)))).
  set (entries := map (fun s => (Stage.id s, (Stage.name s, Stage.order s)))
                      listed).
  assert (NoDup (map fst entries)) as ND.
  { unfold entries. rewrite map_map. cbn [fst].
    apply (Permutation_NoDup
             (l := map Stage.id (filter (stage_in pipelineId orgId)
                                        (JsMap.values (stages st))))).
    - apply Permutation_map. symmetry. apply sort_perm.
    - now apply indexed_ids_NoDup. }
  assert (forall k info,
            JsMap.get k (JsMap.of_list entries) = Some info <->
            exists s, JsMap.get k (stages st) = Some s
                      /\ Stage.pipelineId s = pipelineId
                      /\ Stage.orgId s = orgId
                      /\ info = (Stage.name s, Stage.order s)) as Hmap.
  { intros k info. split.
    - intros G. apply get_of_list_In in G. unfold entries in G.
      apply in_map_iff in G. destruct G as (s & [= <- <-] & Hs).
      apply sort_In, filter_In in Hs. destruct Hs as [Hs Hsel].
      unfold stage_in in Hsel. apply andb_prop in Hsel.
      destruct Hsel as [Ep Eo]. apply String.eqb_eq in Ep, Eo.
      exists s. split; [|now repeat split].
      apply In_get; [exact (proj1 W)|].
      apply values_In; [exact (proj2 W)|exact Hs].
    - intros (s & G & Ep & Eo & ->).
      apply get_of_list_unique; [exact ND|]. unfold entries.
      apply in_map_iff. exists s.
      rewrite (indexed_get _ Stage.id _ _ _ W G). split; [reflexivity|].
      apply sort_In, filter_In. split.
      + apply In_values. exists k. now apply get_In.
      + unfold stage_in. subst. now rewrite !String.eqb_refl. }
  eexists. split; [|split].
  - unfold MemStorage.getLeadsByPipeline, MemStorage.getStages, bind, gets.
    fold (stage_in pipelineId orgId). fold listed. fold entries. reflexivity.
  - intros row. rewrite sort_In, in_flat_map. split.
    + intros (lead & Hlead & Hrow).
      destruct (String.eqb (Lead.orgId lead) orgId) eqn:Eo; [|destruct Hrow].
      apply String.eqb_eq in Eo.
      destruct (JsMap.get (Lead.stageId lead) (JsMap.of_list entries))
        as [info|] eqn:G; [|destruct Hrow].
      destruct Hrow as [<-|[]]. cbn [joined_lead stageName stageOrder].
      apply Hmap in G. destruct G as (s & G & Ep & Es & ->).
      exists s. now repeat split.
    + intros (s & Hlead & Eo & G & Ep & Es & En & Er).
      exists (joined_lead row). split; [exact Hlead|].
      apply String.eqb_eq in Eo. rewrite Eo.
      rewrite (proj2 (Hmap _ (Stage.name s, Stage.order s))).
      * left. destruct row as [l n o]. cbn in *. now rewrite En, Er.
      * exists s. now repeat split.
  - apply (StronglySorted_weaken _
             (fun a b => (- Lead.updatedAt (joined_lead a)
                          <= - Lead.updatedAt (joined_lead b))%Z)).
    + intros a b. lia.
    + apply (sort_ordered _ (fun r => (- Lead.updatedAt (joined_lead r))%Z)).
      intros a b. lia.
Qed.

Lemma getLeadsByPipeline_joins_witness :
  exists rows,
    MemStorage.getLeadsByPipeline "p1" "o1" sample_store
    = (sample_store, Ok rows)
    /\ In (Build_LeadWithStage
             (Lead.mk "l2" "o1" "s2" "Globex" None None None None 12 12)
             "Won" 1) rows.
Proof.
  destruct (getLeadsByPipeline_joins sample_store "p1" "o1"
              (proj1 sample_store_wf_tree)) as (rows & H & Hin & _).
  exists rows. split; [exact H|]. apply Hin.
  exists (Stage.mk "s2" "o1" "p1" "Won" 1 8). cbn [joined_lead].
  split; [simpl; tauto|]. repeat split.
Defined.

(* ------------------------------------------------------------------ *)
(** ** Update routes *)

Lemma string_field_written (name : string) (fields : list (string * Json))
    (o : option string) (old : string) :
  Api.string_field name fields = Some o ->
  match o with Some x => x | None => old end = written fields name old.
Proof.
  unfold Api.string_field, written.
  destruct (JsMap.get name fields) as [[| | |v| |]|]; intros [= <-];
    reflexivity.
Qed.

Lemma nullable_field_written (name : string) (fields : list (string * Json))
    (o : option (option string)) (old : option string) :
  Api.nullable_field name fields = Some o ->
  match o with Some x => x | None => old end
  = written_nullable fields name old.
Proof.
  unfold Api.nullable_field, written_nullable.
  destruct (JsMap.get name fields) as [[| | |v| |]|]; intros [= <-];
    reflexivity.
Qed.

Lemma number_field_written (name : string) (fields : list (string * Json))
    (o : option Z) (old : Z) :
  Api.number_field name fields = Some o ->
  match o with Some x => x | None => old end = written_number fields name old.
Proof.
  unfold Api.number_field, written_number.
  destruct (JsMap.get name fields) as [[| |v| | |]|]; intros [= <-];
    reflexivity.
Qed.

Lemma decode_pipeline_written (fields : list (string * Json))
    (updates : PipelineUpdate.t) (p : Pipeline.t) :
  Api.decode_pipeline_updates (JObj fields) = Some updates ->
  PipelineUpdate.merge p updates
  = Pipeline.mk (written fields "id" (Pipeline.id p))
                (written fields "orgId" (Pipeline.orgId p))
                (written fields "name" (Pipeline.name p))
                (Pipeline.createdAt p).
Proof.
  unfold Api.decode_pipeline_updates, Api.fields_of.
  destruct (Api.only_keys _ fields); [|discriminate].
  destruct (Api.string_field "id" fields) as [f1|] eqn:E1; [|discriminate].
  destruct (Api.string_field "orgId" fields) as [f2|] eqn:E2; [|discriminate].
  destruct (Api.string_field "name" fields) as [f3|] eqn:E3; [|discriminate].
  intros [= <-]. unfold PipelineUpdate.merge, PipelineUpdate.or_else.
  cbn [PipelineUpdate.id PipelineUpdate.orgId PipelineUpdate.name
       PipelineUpdate.createdAt].
  now rewrite (string_field_written _ _ _ (Pipeline.id p) E1),
    (string_field_written _ _ _ (Pipeline.orgId p) E2),
    (string_field_written _ _ _ (Pipeline.name p) E3).
Qed.

Lemma decode_stage_written (fields : list (string * Json))
    (updates : Stage.partial) (s : Stage.t) :
  Api.decode_stage_updates (JObj fields) = Some updates ->
  Stage.merge s updates
  = Stage.mk (written fields "id" (Stage.id s))
             (written fields "orgId" (Stage.orgId s))
             (written fields "pipelineId" (Stage.pipelineId s))
             (written fields "name" (Stage.name s))
             (written_number fields "order" (Stage.order s))
             (Stage.createdAt s).
Proof.
  unfold Api.decode_stage_updates, Api.fields_of.
  destruct (Api.only_keys _ fields); [|discriminate].
  destruct (Api.string_field "id" fields) as [f1|] eqn:E1; [|discriminate].
  destruct (Api.string_field "orgId" fields) as [f2|] eqn:E2; [|discriminate].
  destruct (Api.string_field "pipelineId" fields) as [f3|] eqn:E3;
    [|discriminate].
  destruct (Api.string_field "name" fields) as [f4|] eqn:E4; [|discriminate].
  destruct (Api.number_field "order" fields) as [f5|] eqn:E5; [|discriminate].
  intros [= <-]. unfold Stage.merge, Stage.or_else.
  cbn [Stage.p_id Stage.p_orgId Stage.p_pipelineId Stage.p_name Stage.p_order
       Stage.p_createdAt].
  now rewrite (string_field_written _ _ _ (Stage.id s) E1),
    (string_field_written _ _ _ (Stage.orgId s) E2),
    (string_field_written _ _ _ (Stage.pipelineId s) E3),
    (string_field_written _ _ _ (Stage.name s) E4),
    (number_field_written _ _ _ (Stage.order s) E5).
Qed.

Lemma decode_lead_written (fields : list (string * Json))
    (updates : Lead.partial) (l : Lead.t) (now : Z) :
  Api.decode_lead_updates (JObj fields) = Some updates ->
  Lead.merge l updates now
  = Lead.mk (written fields "id" (Lead.id l))
            (written fields "orgId" (Lead.orgId l))
            (written fields "stageId" (Lead.stageId l))
            (written fields "name" (Lead.name l))
            (written_nullable fields "email" (Lead.email l))
            (written_nullable fields "source" (Lead.source l))
            (written_nullable fields "notes" (Lead.notes l))
            (written_nullable fields "airtableRecordId"
                              (Lead.airtableRecordId l))
            (Lead.createdAt l) now.
Proof.
  unfold Api.decode_lead_updates, Api.fields_of.
  destruct (Api.only_keys _ fields); [|discriminate].
  destruct (Api.string_field "id" fields) as [f1|] eqn:E1; [|discriminate].
  destruct (Api.string_field "orgId" fields) as [f2|] eqn:E2; [|discriminate].
  destruct (Api.string_field "stageId" fields) as [f3|] eqn:E3;
    [|discriminate].
  destruct (Api.string_field "name" fields) as [f4|] eqn:E4; [|discriminate].
  destruct (Api.nullable_field "email" fields) as [f5|] eqn:E5;
    [|discriminate].
  destruct (Api.nullable_field "source" fields) as [f6|] eqn:E6;
    [|discriminate].
  destruct (Api.nullable_field "notes" fields) as [f7|] eqn:E7;
    [|discriminate].
  destruct (Api.nullable_field "airtableRecordId" fields) as [f8|] eqn:E8;
    [|discriminate].
  intros [= <-]. unfold Lead.merge, Lead.or_else.
  cbn [Lead.p_id Lead.p_orgId Lead.p_stageId Lead.p_name Lead.p_email
       Lead.p_source Lead.p_notes Lead.p_airtableRecordId Lead.p_createdAt].
  now rewrite (string_field_written _ _ _ (Lead.id l) E1),
    (string_field_written _ _ _ (Lead.orgId l) E2),
    (string_field_written _ _ _ (Lead.stageId l) E3),
    (string_field_written _ _ _ (Lead.name l) E4),
    (nullable_field_written _ _ _ (Lead.email l) E5),
    (nullable_field_written _ _ _ (Lead.source l) E6),
    (nullable_field_written _ _ _ (Lead.notes l) E7),
    (nullable_field_written _ _ _ (Lead.airtableRecordId l) E8).
Qed.

(** X30. The update routes of pipelines, stages and leads hand the
    unvalidated body to the store. For an admin or editor, a row of the
    organization and a body that is an object of columns with values of the
    column's type, the route answers the row with each field of the body
    written over it and the other fields as they were (a lead also gets
    [updatedAt] at the time of the call), stores it under the id of the
    path, leaves the other rows, and appends one audit entry that holds the
    body. In particular a body with another [orgId] hands the row to that
    organization: the organization of the path no longer finds it and the
    other one does. A row that is absent or of another organization is
    answered 500 and the store is left as it is, for every body. For a body
    of another shape and a row that is found, the statement says nothing:
    the row then holds values that are not of the column's type. *)
Theorem update_routes_write_any_field (st : Store) (session : option string)
    (org userId id : string) (orgMember : OrgMember.t) (now : Z)
    (untyped : M Api.Answer) :
  member_request session org userId orgMember st ->
  includes ["admin"; "editor"] (OrgMember.role orgMember) = true ->
  ((forall fields updates p,
      Api.decode_pipeline_updates (JObj fields) = Some updates ->
      JsMap.get id (pipelines st) = Some p -> Pipeline.orgId p = org ->
      let updated :=
        Pipeline.mk (written fields "id" (Pipeline.id p))
                    (written fields "orgId" (Pipeline.orgId p))
                    (written fields "name" (Pipeline.name p))
                    (Pipeline.createdAt p) in
      exists st' log,
        Api.putPipeline session org id (JObj fields) now untyped st
        = (st', Ok (Api.json (Api.PPipeline updated)))
        /\ JsMap.get id (pipelines st') = Some updated
        /\ (forall k, k <> id ->
              JsMap.get k (pipelines st') = JsMap.get k (pipelines st))
        /\ auditLogs st' = (auditLogs st ++ [log])%list
        /\ AuditLog.action log = "update"
        /\ AuditLog.metadata log = JObj [("updates", JObj fields)]
        /\ forall org', JsMap.get "orgId" fields = Some (JStr org') ->
             org' <> org ->
             MemStorage.getPipeline id org st' = (st', Ok None)
             /\ MemStorage.getPipeline id org' st'
                = (st', Ok (Some updated)))
   /\ (forall body,
         not_owned Pipeline.orgId id org (pipelines st) ->
         Api.putPipeline session org id body now untyped st
         = (st, Ok (Api.error 500 "Pipeline not found"))))
  /\ ((forall fields updates s,
         Api.decode_stage_updates (JObj fields) = Some updates ->
         JsMap.get id (stages st) = Some s -> Stage.orgId s = org ->
         let updated :=
           Stage.mk (written fields "id" (Stage.id s))
                    (written fields "orgId" (Stage.orgId s))
                    (written fields "pipelineId" (Stage.pipelineId s))
                    (written fields "name" (Stage.name s))
                    (written_number fields "order" (Stage.order s))
                    (Stage.createdAt s) in
         exists st' log,
           Api.putStage session org id (JObj fields) now untyped st
           = (st', Ok (Api.json (Api.PStage updated)))
           /\ JsMap.get id (stages st') = Some updated
           /\ (forall k, k <> id ->
                 JsMap.get k (stages st') = JsMap.get k (stages st))
           /\ auditLogs st' = (auditLogs st ++ [log])%list
           /\ AuditLog.action log = "update"
           /\ AuditLog.metadata log = JObj [("updates", JObj fields)]
           /\ forall org', JsMap.get "orgId" fields = Some (JStr org') ->
                org' <> org ->
                MemStorage.getStage id org st' = (st', Ok None)
                /\ MemStorage.getStage id org' st'
                   = (st', Ok (Some updated)))
      /\ (forall body,
            not_owned Stage.orgId id org (stages st) ->
            Api.putStage session org id body now untyped st
            = (st, Ok (Api.error 500 "Stage not found"))))
  /\ ((forall fields updates l,
         Api.decode_lead_updates (JObj fields) = Some updates ->
         JsMap.get id (leads st) = Some l -> Lead.orgId l = org ->
         let updated :=
           Lead.mk (written fields "id" (Lead.id l))
                   (written fields "orgId" (Lead.orgId l))
                   (written fields "stageId" (Lead.stageId l))
                   (written fields "name" (Lead.name l))
                   (written_nullable fields "email" (Lead.email l))
                   (written_nullable fields "source" (Lead.source l))
                   (written_nullable fields "notes" (Lead.notes l))
                   (written_nullable fields "airtableRecordId"
                                     (Lead.airtableRecordId l))
                   (Lead.createdAt l) now in
         exists st' log,
           Api.putLead session org id (JObj fields) now untyped st
           = (st', Ok (Api.json (Api.PLead updated)))
           /\ JsMap.get id (leads st') = Some updated
           /\ (forall k, k <> id ->
                 JsMap.get k (leads st') = JsMap.get k (leads st))
           /\ auditLogs st' = (auditLogs st ++ [log])%list
           /\ AuditLog.action log = "update"
           /\ AuditLog.metadata log = JObj [("updates", JObj fields)]
           /\ forall org', JsMap.get "orgId" fields = Some (JStr org') ->
                org' <> org ->
                MemStorage.getLead id org st' = (st', Ok None)
                /\ MemStorage.getLead id org' st'
                   = (st', Ok (Some updated)))
      /\ (forall body,
            not_owned Lead.orgId id org (leads st) ->
            Api.putLead session org id body now untyped st
            = (st, Ok (Api.error 500 "Lead not found")))).
Proof.
  intros Hreq Hrole.
  assert (forall k k' : string, k' <> k -> String.eqb k k' = false) as Hneq.
  { intros k k' N. apply String.eqb_neq. congruence. }
  refine (conj (conj _ _) (conj (conj _ _) (conj _ _))).
  - intros fields updates p Hdec G E updated.
    assert (updated = PipelineUpdate.merge p updates) as Hm
      by (symmetry; exact (decode_pipeline_written fields updates p Hdec)).
    do 2 eexists. split; [|split; [|split; [|split; [|split; [|split]]]]].
    + unfold Api.putPipeline.
      rewrite (api_guards_pass session org userId orgMember st _ Hreq).
      rewrite Hrole, Hdec.
      unfold MemStorage.updatePipeline, MemStorage.getPipeline, Api.audit,
        MemStorage.createAuditLog, try_catch, bind, negb, gets, modify, ret.
      rewrite G, E, String.eqb_refl, Hm. reflexivity.
    + cbn [pipelines with_auditLogs with_pipelines]. rewrite get_set.
      now rewrite String.eqb_refl, Hm.
    + intros k Hk. cbn [pipelines with_auditLogs with_pipelines].
      rewrite get_set. now rewrite (Hneq id k Hk).
    + reflexivity.
    + reflexivity.
    + reflexivity.
    + intros org' Eo N. unfold MemStorage.getPipeline, gets.
      cbn [pipelines with_auditLogs with_pipelines]. rewrite get_set.
      rewrite String.eqb_refl. rewrite <- Hm. unfold updated, written.
      rewrite Eo. cbn [Pipeline.orgId]. apply String.eqb_neq in N.
      rewrite N. now rewrite String.eqb_refl.
  - intros body Hno. unfold not_owned in Hno. unfold Api.putPipeline.
    rewrite (api_guards_pass session org userId orgMember st _ Hreq).
    rewrite Hrole.
    unfold MemStorage.updatePipeline, MemStorage.getPipeline, try_catch,
      bind, negb, gets, throw, ret.
    destruct (Api.decode_pipeline_updates body);
      (destruct (JsMap.get id (pipelines st)) as [row|]; [|reflexivity]);
      apply String.eqb_neq in Hno; now rewrite Hno.
  - intros fields updates s Hdec G E updated.
    assert (updated = Stage.merge s updates) as Hm
      by (symmetry; exact (decode_stage_written fields updates s Hdec)).
    do 2 eexists. split; [|split; [|split; [|split; [|split; [|split]]]]].
    + unfold Api.putStage.
      rewrite (api_guards_pass session org userId orgMember st _ Hreq).
      rewrite Hrole, Hdec.
      unfold MemStorage.updateStage, MemStorage.getStage, Api.audit,
        MemStorage.createAuditLog, try_catch, bind, negb, gets, modify, ret.
      rewrite G, E, String.eqb_refl, Hm. reflexivity.
    + cbn [stages with_auditLogs with_stages]. rewrite get_set.
      now rewrite String.eqb_refl, Hm.
    + intros k Hk. cbn [stages with_auditLogs with_stages].
      rewrite get_set. now rewrite (Hneq id k Hk).
    + reflexivity.
    + reflexivity.
    + reflexivity.
    + intros org' Eo N. unfold MemStorage.getStage, gets.
      cbn [stages with_auditLogs with_stages]. rewrite get_set.
      rewrite String.eqb_refl. rewrite <- Hm. unfold updated, written.
      rewrite Eo. cbn [Stage.orgId]. apply String.eqb_neq in N.
      rewrite N. now rewrite String.eqb_refl.
  - intros body Hno. unfold not_owned in Hno. unfold Api.putStage.
    rewrite (api_guards_pass session org userId orgMember st _ Hreq).
    rewrite Hrole.
    unfold MemStorage.updateStage, MemStorage.getStage, try_catch,
      bind, negb, gets, throw, ret.
    destruct (Api.decode_stage_updates body);
      (destruct (JsMap.get id (stages st)) as [row|]; [|reflexivity]);
      apply String.eqb_neq in Hno; now rewrite Hno.
  - intros fields updates l Hdec G E updated.
    assert (updated = Lead.merge l updates now) as Hm
      by (symmetry; exact (decode_lead_written fields updates l now Hdec)).
    do 2 eexists. split; [|split; [|split; [|split; [|split; [|split]]]]].
    + unfold Api.putLead.
      rewrite (api_guards_pass session org userId orgMember st _ Hreq).
      rewrite Hrole, Hdec.
      unfold MemStorage.updateLead, MemStorage.getLead, Api.audit,
        MemStorage.createAuditLog, try_catch, bind, negb, gets, modify, ret.
      rewrite G, E, String.eqb_refl, Hm. reflexivity.
    + cbn [leads with_auditLogs with_leads]. rewrite get_set.
      now rewrite String.eqb_refl, Hm.
    + intros k Hk. cbn [leads with_auditLogs with_leads].
      rewrite get_set. now rewrite (Hneq id k Hk).
    + reflexivity.
    + reflexivity.
    + reflexivity.
    + intros org' Eo N. unfold MemStorage.getLead, gets.
      cbn [leads with_auditLogs with_leads]. rewrite get_set.
      rewrite String.eqb_refl. rewrite <- Hm. unfold updated, written.
      rewrite Eo. cbn [Lead.orgId]. apply String.eqb_neq in N.
      rewrite N. now rewrite String.eqb_refl.
  - intros body Hno. unfold not_owned in Hno. unfold Api.putLead.
    rewrite (api_guards_pass session org userId orgMember st _ Hreq).
    rewrite Hrole.
    unfold MemStorage.updateLead, MemStorage.getLead, try_catch,
      bind, negb, gets, throw, ret.
    destruct (Api.decode_lead_updates body);
      (destruct (JsMap.get id (leads st)) as [row|]; [|reflexivity]);
      apply String.eqb_neq in Hno; now rewrite Hno.
Qed.

Lemma update_routes_write_any_field_witness :
  exists st',
    Api.putLead (Some "u1") "o1" "l1"
      (JObj [("orgId", JStr "o2"); ("name", JStr "Initech");
             ("notes", JNull); ("updatedAt", JNum 0)]) 95
      (ret (Api.json Api.PSuccess)) sample_store
    = (st', Ok (Api.json (Api.PLead (Lead.mk "l1" "o2" "s1" "Initech" None
                                             None None None 11 95))))
    /\ MemStorage.getLead "l1" "o1" st' = (st', Ok None)
    /\ MemStorage.getLead "l1" "o2" st'
       = (st', Ok (Some (Lead.mk "l1" "o2" "s1" "Initech" None None None None
                                 11 95))).
Proof.
  assert (member_request (Some "u1") "o1" "u1"
            (OrgMember.mk "o1" "u1" "admin" (Some "u1") 1 (Some 1%Z) 1)
            sample_store) as Hreq.
  { split; [reflexivity|]. split; [discriminate|].
    split; [discriminate|reflexivity]. }
  assert ("o2" <> "o1") as N by discriminate.
  destruct (proj1 (proj2 (proj2 (update_routes_write_any_field sample_store
              (Some "u1") "o1" "u1" "l1" _ 95 (ret (Api.json Api.PSuccess))
              Hreq eq_refl)))
              [("orgId", JStr "o2"); ("name", JStr "Initech");
               ("notes", JNull); ("updatedAt", JNum 0)]
              _ (Lead.mk "l1" "o1" "s1" "Acme" None None None None 11 11)
              eq_refl eq_refl eq_refl)
    as (st' & log & H1 & _ & _ & _ & _ & _ & H2).
  exists st'. split; [exact H1|]. exact (H2 "o2" eq_refl N).
Defined.
